(** * ZeroTrust Defender dashboards: a shallow embedding of the client scripts

    The three browser scripts of the repository are embedded here:

    - [client_agent_fastapi/static/dashboard.js], class [AgentDashboard]
      (module [AgentDashboard] below): the WebSocket life cycle, the
      reconnection policy, message dispatch, the alert list, the statistics
      panel, the event log and the outbound commands;
    - [central_system/admin/static/js/dashboard.js], class [DashboardUpdater]
      (module [DashboardUpdater]): the polling interval and its [stop];
    - [central_system/console/static/js/dashboard.js] (module [Console]):
      [startRealTimeUpdates] and [showToast].

    JavaScript is single threaded: every callback runs to completion.  A method
    is therefore a function from the state of the page to a completion (normal
    or thrown) and a new state.  The browser is part of that state: the socket
    table, the timer table, a clock in milliseconds and the trace of the calls
    the script makes to the outside (console, WebSocket, setTimeout).

    Template literals assigned to [innerHTML] are kept as the list of their
    pieces, so that the number formatting of the browser stays symbolic.

    Two further modules cover what runs beside these classes:

    - module [AgentApi]: the REST helpers at the end of the agent script
      ([configureAgent] and the global [startMonitoring], [simulateThreat]);
    - module [AdminPage]: what [DashboardUpdater] does with the responses
      ([updateStats], [updateAgents], [updateAgentChart], [initializeCharts])
      and the utility [getSeverityBadge].

    The drawing of the charts by Chart.js, the registration of the button
    listeners, [updateIncidents] from its response on (it compares a [length]
    of any type with 0) and [formatTimestamp] are left out. *)

From Stdlib Require Import QArith.
From stdpp Require Import base option list strings gmap.
From Equations Require Import Equations.

Set Warnings "-register-all".

(** ** JSON values, as [JSON.parse] produces them *)

Inductive JValue : Type :=
| JUndefined
| JNull
| JBool (b : bool)
| JNum (q : Q)
| JStr (s : string)
| JArr (items : list JValue)
| JObj (fields : list (string * JValue)).

Definition JInt (z : Z) : JValue := JNum (inject_Z z).
Definition JNat (n : nat) : JValue := JInt (Z.of_nat n).

(** ToBoolean. *)
Definition truthy (v : JValue) : bool :=
  match v with
  | JUndefined | JNull => false
  | JBool b => b
  | JNum q => negb (Qeq_bool q 0)
  | JStr s => negb (String.eqb s "")
  | JArr _ | JObj _ => true
  end.

(** [a || b]. *)
Definition js_or (a b : JValue) : JValue := if truthy a then a else b.

Fixpoint assoc (k : string) (fs : list (string * JValue)) : JValue :=
  match fs with
  | [] => JUndefined
  | (k', v) :: rest => if String.eqb k k' then v else assoc k rest
  end.

(** ** Completions *)

Inductive Exn := TypeError | SyntaxError | InvalidStateError.

Inductive Completion (A : Type) : Type :=
| Normal (a : A)
| Throw (e : Exn).
Arguments Normal {A} a.
Arguments Throw {A} e.

(** [v.name] for the property names the scripts read (none of them is a
    built-in property of a primitive or of an array): reading a property of
    [null] or [undefined] throws, a missing property is [undefined]. *)
Definition get_prop (name : string) (v : JValue) : Completion JValue :=
  match v with
  | JUndefined | JNull => Throw TypeError
  | JObj fs => Normal (assoc name fs)
  | _ => Normal JUndefined
  end.

(** [v?.name]. *)
Definition get_prop_opt (name : string) (v : JValue) : JValue :=
  match v with
  | JObj fs => assoc name fs
  | _ => JUndefined
  end.

(** [v === 'lit']. *)
Definition is_str (lit : string) (v : JValue) : bool :=
  match v with
  | JStr s => String.eqb s lit
  | _ => false
  end.

(** ** Rendered text: the pieces of a template literal *)

Inductive Piece : Type :=
| Lit (s : string)                            (* literal text *)
| Hole (v : JValue)                           (* ${v} *)
| Upper (s : string)                          (* s.toUpperCase() *)
| Percent (v : JValue)                        (* (v * 100).toFixed(1) *)
| Joined (sep : string) (items : list JValue) (* items.join(sep) *)
| Json (v : JValue)                           (* JSON.stringify(v, null, 2) *)
| TimeOfDay (t : N).                          (* new Date().toLocaleTimeString() *)

Definition Html := list Piece.

(** An element made by [document.createElement]; [node_id] is its identity. *)
Record Element := { node_id : nat; className : string; innerHTML : Html }.

(** [items.join(sep)]: only an array has the method. *)
Definition join (sep : string) (v : JValue) : Completion Piece :=
  match v with
  | JArr items => Normal (Joined sep items)
  | _ => Throw TypeError
  end.

(** [v.toUpperCase()]: only a string has the method. *)
Definition toUpperCase (v : JValue) : Completion Piece :=
  match v with
  | JStr s => Normal (Upper s)
  | _ => Throw TypeError
  end.

(** ** Timers of a window *)

Record Timer (C : Type) :=
  { tid : nat; due : N; period : option N; callback : C }.
Arguments tid {C} _.
Arguments due {C} _.
Arguments period {C} _.
Arguments callback {C} _.

Definition find_timer {C} (id : nat) (ts : list (Timer C)) : option (Timer C) :=
  List.find (fun t => Nat.eqb (tid t) id) ts.

(** [clearTimeout(id)] / [clearInterval(id)]. *)
Definition clear_timer {C} (id : nat) (ts : list (Timer C)) : list (Timer C) :=
  List.filter (fun t => negb (Nat.eqb (tid t) id)) ts.

(** What the timer table is after timer [t] has fired: a timeout is gone, an
    interval is armed again one period later. *)
Definition after_fire {C} (t : Timer C) (ts : list (Timer C)) : list (Timer C) :=
  match period t with
  | None => clear_timer (tid t) ts
  | Some p =>
      List.map (fun u => if Nat.eqb (tid u) (tid t)
                         then {| tid := tid u; due := (due u + p)%N;
                                 period := period u; callback := callback u |}
                         else u) ts
  end.

(** ** The agent dashboard: [client_agent_fastapi/static/dashboard.js] *)

Module AgentDashboard.

(** The callbacks the class passes to [setTimeout]. *)
Inductive Callback :=
| CbConnect                  (* () => this.connectWebSocket() *)
| CbRemoveAlert (node : nat) (* removes alertDiv when it still has a parent *).

(** A socket as the script sees it through its events. *)
Inductive ReadyState := Connecting | Open | Closed.

(** Calls to the outside, newest first in the trace. *)
Inductive Effect :=
| ConsoleLog (line : Html)
| ConsoleError (line : Html)
| NewWebSocket (url : string) (sock : nat)
| WsSend (sock : nat) (payload : JValue)   (* ws.send(JSON.stringify(payload)) *)
| SetTimeout (id : nat) (delay : N) (cb : Callback).

(** The fields of the [AgentDashboard] object. *)
Record Fields := {
  ws : option nat;              (* this.ws: null or a socket *)
  isConnected : bool;
  reconnectAttempts : nat;
  maxReconnectAttempts : nat }.

(** The elements the class looks up by id; [None] when the page has no such
    element.  Containers hold their element children, first child first. *)
Record Dom := {
  agent_status : option Html;
  system_info : option Html;
  threat_stats : option Html;
  alerts_container : option (list Element);
  event_log : option (list Element);
  next_node : nat }.

Record Browser := {
  location_protocol : string;
  location_host : string;
  sockets : list ReadyState;    (* indexed by socket *)
  timers : list (Timer Callback);
  next_timer : nat;
  now : N;
  trace : list Effect }.

Record World := { this : Fields; document : Dom; window : Browser }.

Definition M (A : Type) : Type := World -> Completion A * World.

Definition ret {A} (a : A) : M A := fun w => (Normal a, w).
Definition throw {A} (e : Exn) : M A := fun w => (Throw e, w).
Definition lift {A} (c : Completion A) : M A := fun w => (c, w).
Definition bind {A B} (m : M A) (k : A -> M B) : M B :=
  fun w => match m w with
           | (Normal a, w') => k a w'
           | (Throw e, w') => (Throw e, w')
           end.
Definition try_catch {A} (body : M A) (handler : Exn -> M A) : M A :=
  fun w => match body w with
           | (Normal a, w') => (Normal a, w')
           | (Throw e, w') => handler e w'
           end.
Definition get : M World := fun w => (Normal w, w).
Definition modify (f : World -> World) : M unit := fun w => (Normal tt, f w).

Notation "'do' x <- m ; k" := (bind m (fun x => k))
  (at level 10, x name, m at level 100, k at level 200).
Notation "'do_' m ; k" := (bind m (fun _ => k))
  (at level 10, m at level 100, k at level 200).

(** Field updates. *)
Definition with_this (f : Fields -> Fields) (w : World) : World :=
  {| this := f (this w); document := document w; window := window w |}.
Definition with_document (f : Dom -> Dom) (w : World) : World :=
  {| this := this w; document := f (document w); window := window w |}.
Definition with_window (f : Browser -> Browser) (w : World) : World :=
  {| this := this w; document := document w; window := f (window w) |}.

Definition set_ws (v : option nat) (o : Fields) : Fields :=
  {| ws := v; isConnected := isConnected o;
     reconnectAttempts := reconnectAttempts o;
     maxReconnectAttempts := maxReconnectAttempts o |}.
Definition set_isConnected (v : bool) (o : Fields) : Fields :=
  {| ws := ws o; isConnected := v;
     reconnectAttempts := reconnectAttempts o;
     maxReconnectAttempts := maxReconnectAttempts o |}.
Definition set_reconnectAttempts (v : nat) (o : Fields) : Fields :=
  {| ws := ws o; isConnected := isConnected o;
     reconnectAttempts := v;
     maxReconnectAttempts := maxReconnectAttempts o |}.

Definition set_agent_status (v : option Html) (d : Dom) : Dom :=
  {| agent_status := v; system_info := system_info d;
     threat_stats := threat_stats d; alerts_container := alerts_container d;
     event_log := event_log d; next_node := next_node d |}.
Definition set_system_info (v : option Html) (d : Dom) : Dom :=
  {| agent_status := agent_status d; system_info := v;
     threat_stats := threat_stats d; alerts_container := alerts_container d;
     event_log := event_log d; next_node := next_node d |}.
Definition set_threat_stats (v : option Html) (d : Dom) : Dom :=
  {| agent_status := agent_status d; system_info := system_info d;
     threat_stats := v; alerts_container := alerts_container d;
     event_log := event_log d; next_node := next_node d |}.
Definition set_alerts_container (v : option (list Element)) (d : Dom) : Dom :=
  {| agent_status := agent_status d; system_info := system_info d;
     threat_stats := threat_stats d; alerts_container := v;
     event_log := event_log d; next_node := next_node d |}.
Definition set_event_log (v : option (list Element)) (d : Dom) : Dom :=
  {| agent_status := agent_status d; system_info := system_info d;
     threat_stats := threat_stats d; alerts_container := alerts_container d;
     event_log := v; next_node := next_node d |}.
Definition set_next_node (v : nat) (d : Dom) : Dom :=
  {| agent_status := agent_status d; system_info := system_info d;
     threat_stats := threat_stats d; alerts_container := alerts_container d;
     event_log := event_log d; next_node := v |}.

Definition set_sockets (v : list ReadyState) (b : Browser) : Browser :=
  {| location_protocol := location_protocol b; location_host := location_host b;
     sockets := v; timers := timers b; next_timer := next_timer b;
     now := now b; trace := trace b |}.
Definition set_timers (v : list (Timer Callback)) (b : Browser) : Browser :=
  {| location_protocol := location_protocol b; location_host := location_host b;
     sockets := sockets b; timers := v; next_timer := next_timer b;
     now := now b; trace := trace b |}.
Definition set_next_timer (v : nat) (b : Browser) : Browser :=
  {| location_protocol := location_protocol b; location_host := location_host b;
     sockets := sockets b; timers := timers b; next_timer := v;
     now := now b; trace := trace b |}.
Definition set_now (v : N) (b : Browser) : Browser :=
  {| location_protocol := location_protocol b; location_host := location_host b;
     sockets := sockets b; timers := timers b; next_timer := next_timer b;
     now := v; trace := trace b |}.
Definition set_trace (v : list Effect) (b : Browser) : Browser :=
  {| location_protocol := location_protocol b; location_host := location_host b;
     sockets := sockets b; timers := timers b; next_timer := next_timer b;
     now := now b; trace := v |}.

(** *** Browser primitives *)

Definition emit (e : Effect) : M unit :=
  modify (with_window (fun b => set_trace (e :: trace b) b)).

Definition console_log (line : Html) : M unit := emit (ConsoleLog line).
Definition console_error (line : Html) : M unit := emit (ConsoleError line).

(** [setTimeout(cb, delay)]: a fresh handle, the timer due [delay] ms from now. *)
Definition setTimeout (cb : Callback) (delay : N) : M nat :=
  do w <- get;
  let id := next_timer (window w) in
  do_ modify (with_window (fun b =>
        set_next_timer (S id)
          (set_timers (timers b ++ [{| tid := id; due := (now b + delay)%N;
                                       period := None; callback := cb |}]) b)));
  do_ emit (SetTimeout id delay cb);
  ret id.

(** [new WebSocket(url)]: the constructor throws on a URL it rejects (the
    environment decides, [accepted]); otherwise a new socket, connecting. *)
Definition new_WebSocket (url : string) (accepted : bool) : M nat :=
  if accepted then
    do w <- get;
    let sock := length (sockets (window w)) in
    do_ modify (with_window (fun b => set_sockets (sockets b ++ [Connecting]) b));
    do_ emit (NewWebSocket url sock);
    ret sock
  else throw SyntaxError.

(** [sock.send(data)]: throws while the socket is still connecting, transmits
    on an open socket, and drops the data on a closed one. *)
Definition ws_send (sock : nat) (payload : JValue) : M unit :=
  do w <- get;
  match sockets (window w) !! sock with
  | Some Connecting => throw InvalidStateError
  | Some Open => emit (WsSend sock payload)
  | _ => ret tt
  end.

(** [document.createElement('div')]. *)
Definition createElement : M nat :=
  do w <- get;
  let id := next_node (document w) in
  do_ modify (with_document (set_next_node (S id)));
  ret id.

(** *** Methods of the class, in the order of the source

    Quotation marks inside the markup of a template are dropped and its white
    space is not kept; the interpolated values are. *)

Definition status_html (status : string) (connected : bool) : Html :=
  [Lit "<div class=status-"; Lit status; Lit "><h4>Agent Status: ";
   Upper status; Lit "</h4><p>WebSocket: ";
   Lit (if connected then "Connected" else "Disconnected"); Lit "</p></div>"].

Definition updateStatus (status : string) : M unit :=
  do w <- get;
  match agent_status (document w) with
  | Some _ =>
      modify (with_document
                (set_agent_status (Some (status_html status (isConnected (this w))))))
  | None => ret tt
  end.

Definition exn_name (e : Exn) : string :=
  match e with
  | TypeError => "TypeError"
  | SyntaxError => "SyntaxError"
  | InvalidStateError => "InvalidStateError"
  end.

Definition attemptReconnect : M unit :=
  do w <- get;
  if decide (reconnectAttempts (this w) < maxReconnectAttempts (this w)) then
    do_ modify (with_this (fun o => set_reconnectAttempts (S (reconnectAttempts o)) o));
    do w' <- get;
    do_ console_log [Lit "Attempting reconnect (";
                     Hole (JNat (reconnectAttempts (this w'))); Lit "/";
                     Hole (JNat (maxReconnectAttempts (this w'))); Lit ")..."];
    do_ setTimeout CbConnect 3000;
    ret tt
  else
    do_ console_error [Lit "Max reconnection attempts reached"];
    updateStatus "failed".

(** The handlers [onopen], [onmessage], [onclose] and [onerror] installed in
    the [try] block are the functions [onopen] ... [onerror] further down: they
    close over [this], not over the socket. *)
Definition connectWebSocket (accepted : bool) : M unit :=
  do w <- get;
  let protocol :=
    if String.eqb (location_protocol (window w)) "https:" then "wss:" else "ws:" in
  let wsUrl := protocol +:+ "//" +:+ location_host (window w) +:+ "/ws/dashboard" in
  try_catch
    (do sock <- new_WebSocket wsUrl accepted;
     modify (with_this (set_ws (Some sock))))
    (fun error =>
       do_ console_error [Lit "Failed to connect WebSocket:"; Lit (exn_name error)];
       attemptReconnect).

Definition sendMessage (message : JValue) : M unit :=
  do w <- get;
  match ws (this w) with
  | Some sock =>
      if isConnected (this w) then ws_send sock message
      else console_error [Lit "WebSocket not connected"]
  | None => console_error [Lit "WebSocket not connected"]
  end.

Definition command (type : string) : JValue := JObj [("type", JStr type)].

Definition startMonitoring : M unit := sendMessage (command "START_MONITORING").
Definition stopMonitoring : M unit := sendMessage (command "STOP_MONITORING").
Definition simulateThreat : M unit := sendMessage (command "SIMULATE_THREAT").
Definition requestStatusUpdate : M unit := sendMessage (command "GET_STATUS").

Definition titles : gmap string string :=
  {[ "threat" := "🚨 THREAT DETECTED";
     "emergency" := "🛑 EMERGENCY RESPONSE";
     "high" := "⚠️ HIGH ALERT";
     "info" := "🔍 ENHANCED MONITORING" ]}.

Definition getAlertTitle (type : string) : string :=
  default "ALERT" (titles !! type).

Definition formatAlertContent (data : JValue) : Completion Html :=
  match get_prop "threat_level" data with
  | Throw e => Throw e
  | Normal level =>
      if truthy level then
        match toUpperCase level with
        | Throw e => Throw e
        | Normal up =>
            Normal [Lit "Level: "; up; Lit " | Confidence: ";
                    Percent (get_prop_opt "confidence" data); Lit "%"]
        end
      else
        let actions := get_prop_opt "actions" data in
        if truthy actions then
          match join ", " actions with
          | Throw e => Throw e
          | Normal joined => Normal [Lit "Actions taken: "; joined]
          end
        else Normal [Json data]
  end.

Definition alert_html (type : string) (content : Html) (t : N) : Html :=
  [Lit "<strong>"; Lit (getAlertTitle type); Lit "</strong><div>"]
  ++ content ++ [Lit "</div><small>"; TimeOfDay t; Lit "</small>"].

Definition showAlert (type : string) (data : JValue) : M unit :=
  do alertDiv <- createElement;
  do content <- lift (formatAlertContent data);
  do w <- get;
  let el := {| node_id := alertDiv; className := "alert alert-" +:+ type;
               innerHTML := alert_html type content (now (window w)) |} in
  match alerts_container (document w) with
  | None => throw TypeError
  | Some children =>
      do_ modify (with_document (set_alerts_container (Some (el :: children))));
      (* Remove alert after 10 seconds *)
      do_ setTimeout (CbRemoveAlert alertDiv) 10000;
      ret tt
  end.

(** The callback of the timer set by [showAlert]. *)
Definition removeAlert (node : nat) : M unit :=
  do w <- get;
  match alerts_container (document w) with
  | Some children =>
      modify (with_document
                (set_alerts_container
                   (Some (List.filter (fun e => negb (Nat.eqb (node_id e) node))
                            children))))
  | None => ret tt
  end.

Definition system_html (statusData agent_status : JValue) : Html :=
  let stats := get_prop_opt "stats" statusData in
  [Lit "<p><strong>Status:</strong> "; Hole agent_status;
   Lit "</p><p><strong>Monitoring:</strong> ";
   Lit (if truthy (get_prop_opt "monitoring_active" statusData)
        then "Active" else "Inactive");
   Lit "</p><p><strong>Files Monitored:</strong> ";
   Hole (js_or (get_prop_opt "files_monitored" stats) (JInt 0));
   Lit "</p><p><strong>Last Detection:</strong> ";
   Hole (js_or (get_prop_opt "last_detection" stats) (JStr "Never"));
   Lit "</p>"].

Definition updateSystemInfo (statusData : JValue) : M unit :=
  do w <- get;
  match system_info (document w) with
  | None => ret tt
  | Some _ =>
      do agent_status <- lift (get_prop "agent_status" statusData);
      if truthy agent_status then
        modify (with_document
                  (set_system_info (Some (system_html statusData agent_status))))
      else ret tt
  end.

(** The template of [updateThreatStats]; [stats] is truthy where it is used,
    so that reading its properties cannot throw. *)
Definition stats_html (stats : JValue) : Html :=
  [Lit "<p><strong>Total Detections:</strong> ";
   Hole (js_or (get_prop_opt "total_detections" stats) (JInt 0));
   Lit "</p><p><strong>Supervised ML:</strong> ";
   Hole (js_or (get_prop_opt "layer1_supervised" stats) (JInt 0));
   Lit "</p><p><strong>Anomaly Detection:</strong> ";
   Hole (js_or (get_prop_opt "layer2_anomaly" stats) (JInt 0));
   Lit "</p><p><strong>Rule-based:</strong> ";
   Hole (js_or (get_prop_opt "layer3_rules" stats) (JInt 0));
   Lit "</p><p><strong>Slow Ransomware:</strong> ";
   Hole (js_or (get_prop_opt "layer4_slow" stats) (JInt 0));
   Lit "</p>"].

Definition updateThreatStats (stats : JValue) : M unit :=
  do w <- get;
  match threat_stats (document w) with
  | Some _ =>
      if truthy stats then
        modify (with_document (set_threat_stats (Some (stats_html stats))))
      else ret tt
  | None => ret tt
  end.

(** [this.updateCharts] is not defined anywhere in the class: calling it
    throws a TypeError. *)
Definition updateCharts (statusData : JValue) : M unit := throw TypeError.

Definition updateDashboard (statusData : JValue) : M unit :=
  do_ updateSystemInfo statusData;
  do stats <- lift (get_prop "detection_stats" statusData);
  do_ updateThreatStats stats;
  updateCharts statusData.

(** [while (eventLog.children.length > 50) eventLog.removeChild(eventLog.lastChild)] *)
Equations trim_log (children : list Element) : list Element
  by wf (length children) lt :=
  trim_log children with decide (50 < length children) => {
    | left _ => trim_log (removelast children)
    | right _ => children }.
Next Obligation.
  destruct children as [|e children]; [simpl in *; lia|].
  rewrite (app_removelast_last e (l := e :: children)) at 2 by discriminate.
  rewrite length_app. simpl. lia.
Qed.

Definition log_html (eventType : string) (message : Html) (t : N) : Html :=
  [Lit "<strong>"; Lit eventType; Lit "</strong><div>"]
  ++ message ++ [Lit "</div><small>"; TimeOfDay t; Lit "</small>"].

Definition addToEventLog (eventType : string) (message : Html) (level : string)
  : M unit :=
  do logEntry <- createElement;
  do w <- get;
  let el := {| node_id := logEntry; className := "log-entry log-" +:+ level;
               innerHTML := log_html eventType message (now (window w)) |} in
  match event_log (document w) with
  | None => throw TypeError
  | Some children =>
      (* Keep only last 50 entries *)
      modify (with_document (set_event_log (Some (trim_log (el :: children)))))
  end.

Definition handleThreatDetected (message : JValue) : M unit :=
  do data <- lift (get_prop "data" message);
  do_ showAlert "threat" data;
  do stats <- lift (get_prop "detection_stats" message);
  do_ updateThreatStats stats;
  do data' <- lift (get_prop "data" message);
  addToEventLog "THREAT_DETECTED" [Hole data'] "critical".

(** [`Actions: ${message.actions.join(', ')}`] and its like. *)
Definition joined_field (label field : string) (message : JValue) : Completion Html :=
  match get_prop field message with
  | Throw e => Throw e
  | Normal items =>
      match items with
      | JUndefined | JNull => Throw TypeError
      | _ => match join ", " items with
             | Throw e => Throw e
             | Normal joined => Normal [Lit label; joined]
             end
      end
  end.

Definition handleEmergencyResponse (message : JValue) : M unit :=
  do_ showAlert "emergency" message;
  do text <- lift (joined_field "Actions: " "actions" message);
  addToEventLog "EMERGENCY_RESPONSE" text "critical".

Definition handleHighAlertResponse (message : JValue) : M unit :=
  do_ showAlert "high" message;
  do text <- lift (joined_field "Actions: " "actions" message);
  addToEventLog "HIGH_ALERT" text "warning".

Definition handleEnhancedMonitoring (message : JValue) : M unit :=
  do_ showAlert "info" message;
  addToEventLog "ENHANCED_MONITORING" [Lit "Enhanced monitoring activated"] "info".

Definition handleStatusUpdate (message : JValue) : M unit :=
  updateDashboard message.

Definition handleCommandExecuted (message : JValue) : M unit :=
  do text <- lift (joined_field "Executed: " "commands" message);
  addToEventLog "COMMAND_EXECUTED" text "info".

Definition handleMessage (message : JValue) : M unit :=
  do messageType <- lift (get_prop "type" message);
  if is_str "THREAT_DETECTED" messageType then handleThreatDetected message
  else if is_str "EMERGENCY_RESPONSE" messageType then handleEmergencyResponse message
  else if is_str "HIGH_ALERT_RESPONSE" messageType then handleHighAlertResponse message
  else if is_str "ENHANCED_MONITORING" messageType then handleEnhancedMonitoring message
  else if is_str "STATUS_UPDATE" messageType then handleStatusUpdate message
  else if is_str "COMMAND_EXECUTED" messageType then handleCommandExecuted message
  else console_log [Lit "Unknown message type:"; Hole messageType].

(** *** The socket handlers installed by [connectWebSocket] *)

Definition onopen : M unit :=
  do_ console_log [Lit "✅ Connected to agent dashboard"];
  do_ modify (with_this (set_isConnected true));
  do_ modify (with_this (set_reconnectAttempts 0));
  do_ updateStatus "connected";
  requestStatusUpdate.

(** [event.data] is text; [None] stands for text that [JSON.parse] rejects. *)
Definition onmessage (data : option JValue) : M unit :=
  match data with
  | Some message => handleMessage message
  | None => throw SyntaxError
  end.

Definition onclose : M unit :=
  do_ console_log [Lit "❌ Disconnected from agent dashboard"];
  do_ modify (with_this (set_isConnected false));
  do_ updateStatus "disconnected";
  attemptReconnect.

Definition onerror : M unit :=
  do_ console_error [Lit "WebSocket error:"; Lit "[object Event]"];
  updateStatus "error".

Definition initializeDashboard : M unit := updateStatus "initializing".

(** [new AgentDashboard()] on a page with document [page], loaded from
    [protocol]//[host] at time [t0]. *)
Definition constructor (page : Dom) (protocol host : string) (t0 : N)
    (accepted : bool) : World :=
  let w0 :=
    {| this := {| ws := None; isConnected := false; reconnectAttempts := 0;
                  maxReconnectAttempts := 5 |};
       document := page;
       window := {| location_protocol := protocol; location_host := host;
                    sockets := []; timers := []; next_timer := 1; now := t0;
                    trace := [] |} |} in
  snd ((do_ initializeDashboard; connectWebSocket accepted) w0).

(** *** The event loop

    What the browser may deliver to the page.  A socket opens at most once and
    closes exactly once, after which it is silent; a timer fires no earlier
    than it is due; the four buttons call the four command methods. *)

Inductive Button := BtnStart | BtnStop | BtnSimulate | BtnStatus.

Inductive Event :=
| EvOpen (sock : nat)
| EvMessage (sock : nat) (data : option JValue)
| EvError (sock : nat)
| EvClose (sock : nat)
| EvTimer (id : nat) (accepted : bool)
| EvTick (dt : N)
| EvClick (b : Button).

Definition set_socket (sock : nat) (st : ReadyState) (w : World) : World :=
  with_window (fun b => set_sockets (<[sock := st]> (sockets b)) b) w.

Definition run_callback (cb : Callback) (accepted : bool) : M unit :=
  match cb with
  | CbConnect => connectWebSocket accepted
  | CbRemoveAlert node => removeAlert node
  end.

Definition click (b : Button) : M unit :=
  match b with
  | BtnStart => startMonitoring
  | BtnStop => stopMonitoring
  | BtnSimulate => simulateThreat
  | BtnStatus => requestStatusUpdate
  end.

(** One turn of the event loop: [None] when the browser cannot deliver the
    event in this state.  An exception that escapes a handler is reported by
    the browser and the page goes on. *)
Definition step (e : Event) (w : World) : option World :=
  match e with
  | EvOpen sock =>
      match sockets (window w) !! sock with
      | Some Connecting => Some (snd (onopen (set_socket sock Open w)))
      | _ => None
      end
  | EvMessage sock data =>
      match sockets (window w) !! sock with
      | Some Open => Some (snd (onmessage data w))
      | _ => None
      end
  | EvError sock =>
      match sockets (window w) !! sock with
      | Some Connecting | Some Open => Some (snd (onerror w))
      | _ => None
      end
  | EvClose sock =>
      match sockets (window w) !! sock with
      | Some Connecting | Some Open => Some (snd (onclose (set_socket sock Closed w)))
      | _ => None
      end
  | EvTimer id accepted =>
      match find_timer id (timers (window w)) with
      | Some t =>
          if decide (due t <= now (window w))%N then
            Some (snd (run_callback (callback t) accepted
                         (with_window
                            (fun b => set_timers (after_fire t (timers b)) b) w)))
          else None
      | None => None
      end
  | EvTick dt => Some (with_window (fun b => set_now (now b + dt)%N b) w)
  | EvClick b => Some (snd (click b w))
  end.

Fixpoint run (es : list Event) (w : World) : option World :=
  match es with
  | [] => Some w
  | e :: es' =>
      match step e w with
      | Some w' => run es' w'
      | None => None
      end
  end.

End AgentDashboard.

(** ** The admin dashboard: [central_system/admin/static/js/dashboard.js]

    [DashboardUpdater] polls three REST endpoints every five seconds.  The
    requests are kept as effects; what the page does with the responses (text
    of four elements, one chart) is not modelled. *)

Module DashboardUpdater.

Inductive Callback :=
| CbPoll (* () => { updateStats(); updateIncidents(); updateAgents(); } *).

Inductive Effect :=
| Fetch (url : string)
| SetInterval (id : nat) (delay : N)
| ClearInterval (id : nat).

Record World := {
  statsInterval : option nat;   (* this.statsInterval: null or a handle *)
  timers : list (Timer Callback);
  next_timer : nat;
  now : N;
  trace : list Effect }.

Definition emit (e : Effect) (w : World) : World :=
  {| statsInterval := statsInterval w; timers := timers w;
     next_timer := next_timer w; now := now w; trace := e :: trace w |}.

(** [new DashboardUpdater()] in a window whose next timer handle is [next]. *)
Definition constructor (next : nat) (t0 : N) : World :=
  {| statsInterval := None; timers := []; next_timer := next; now := t0;
     trace := [] |}.

Definition updateStats (w : World) : World := emit (Fetch "/admin/api/stats") w.
Definition updateIncidents (w : World) : World :=
  emit (Fetch "/admin/api/incidents/recent") w.
Definition updateAgents (w : World) : World :=
  emit (Fetch "/admin/api/agents/status") w.

(** The callback of the interval. *)
Definition poll (w : World) : World :=
  updateAgents (updateIncidents (updateStats w)).

Definition startRealTimeUpdates (w : World) : World :=
  let id := next_timer w in
  (* Update stats every 5 seconds *)
  let w1 :=
    {| statsInterval := Some id;
       timers := timers w ++ [{| tid := id; due := (now w + 5000)%N;
                                 period := Some 5000%N; callback := CbPoll |}];
       next_timer := S id; now := now w;
       trace := SetInterval id 5000 :: trace w |} in
  updateStats w1 (* Initial call *).

Definition initialize (w : World) : World := startRealTimeUpdates w.

(** [if (this.statsInterval) clearInterval(this.statsInterval)]: the handle 0
    would be falsy. *)
Definition stop (w : World) : World :=
  match statsInterval w with
  | Some id =>
      if Nat.eqb id 0 then w
      else {| statsInterval := statsInterval w;
              timers := clear_timer id (timers w);
              next_timer := next_timer w; now := now w;
              trace := ClearInterval id :: trace w |}
  | None => w
  end.

Inductive Event := EvTimer (id : nat) | EvTick (dt : N).

Definition step (e : Event) (w : World) : option World :=
  match e with
  | EvTimer id =>
      match find_timer id (timers w) with
      | Some t =>
          if decide (due t <= now w)%N then
            Some (poll {| statsInterval := statsInterval w;
                          timers := after_fire t (timers w);
                          next_timer := next_timer w; now := now w;
                          trace := trace w |})
          else None
      | None => None
      end
  | EvTick dt =>
      Some {| statsInterval := statsInterval w; timers := timers w;
              next_timer := next_timer w; now := (now w + dt)%N;
              trace := trace w |}
  end.

End DashboardUpdater.

(** ** The console dashboard: [central_system/console/static/js/dashboard.js]

    [currentTab] and [updateDashboard] are globals defined outside the file:
    the first is a field of the state here, the second an effect. *)

Module Console.

Inductive Callback :=
| CbPoll                     (* the callback of startRealTimeUpdates *)
| CbRemoveToast (node : nat) (* () => toast.remove() *).

Inductive Effect :=
| UpdateDashboard
| SetInterval (id : nat) (delay : N)
| SetTimeout (id : nat) (delay : N) (cb : Callback).

Record World := {
  currentTab : string;
  body : list Element;          (* the toasts among the children of <body> *)
  next_node : nat;
  timers : list (Timer Callback);
  next_timer : nat;
  now : N;
  trace : list Effect }.

(** [setInterval(..., 10000)]: the handle is dropped. *)
Definition startRealTimeUpdates (w : World) : World :=
  {| currentTab := currentTab w; body := body w; next_node := next_node w;
     timers := timers w ++ [{| tid := next_timer w; due := (now w + 10000)%N;
                               period := Some 10000%N; callback := CbPoll |}];
     next_timer := S (next_timer w); now := now w;
     trace := SetInterval (next_timer w) 10000 :: trace w |}.

Definition poll (w : World) : World :=
  if String.eqb (currentTab w) "dashboard" then
    {| currentTab := currentTab w; body := body w; next_node := next_node w;
       timers := timers w; next_timer := next_timer w; now := now w;
       trace := UpdateDashboard :: trace w |}
  else w.

Definition toast_html (message : JValue) : Html :=
  [Lit "<div class=toast-content><span class=toast-message>"; Hole message;
   Lit "</span><button class=toast-close>Ã—</button></div>"].

(** [showToast(message, type = 'info')]; [None] is a call without [type]. *)
Definition showToast (message : JValue) (type : option string) (w : World) : World :=
  let toast := {| node_id := next_node w;
                  className := "toast toast-" +:+ default "info" type;
                  innerHTML := toast_html message |} in
  {| currentTab := currentTab w; body := body w ++ [toast];
     next_node := S (next_node w);
     timers := timers w ++ [{| tid := next_timer w; due := (now w + 5000)%N;
                               period := None;
                               callback := CbRemoveToast (next_node w) |}];
     next_timer := S (next_timer w); now := now w;
     trace := SetTimeout (next_timer w) 5000 (CbRemoveToast (next_node w))
              :: trace w |}.

(** [toast.remove()], from the timer or from the close button of the toast
    ([this.parentElement.parentElement.remove()]). *)
Definition remove (node : nat) (w : World) : World :=
  {| currentTab := currentTab w;
     body := List.filter (fun e => negb (Nat.eqb (node_id e) node)) (body w);
     next_node := next_node w; timers := timers w; next_timer := next_timer w;
     now := now w; trace := trace w |}.

Definition run_callback (cb : Callback) (w : World) : World :=
  match cb with
  | CbPoll => poll w
  | CbRemoveToast node => remove node w
  end.

Inductive Event :=
| EvTimer (id : nat)
| EvTick (dt : N)
| EvClose (node : nat)                              (* click on a toast's × *)
| EvToast (message : JValue) (type : option string) (* a call of showToast *)
| EvTab (tab : string).                             (* currentTab = tab *)

Definition step (e : Event) (w : World) : option World :=
  match e with
  | EvTimer id =>
      match find_timer id (timers w) with
      | Some t =>
          if decide (due t <= now w)%N then
            Some (run_callback (callback t)
                    {| currentTab := currentTab w; body := body w;
                       next_node := next_node w;
                       timers := after_fire t (timers w);
                       next_timer := next_timer w; now := now w;
                       trace := trace w |})
          else None
      | None => None
      end
  | EvTick dt =>
      Some {| currentTab := currentTab w; body := body w;
              next_node := next_node w; timers := timers w;
              next_timer := next_timer w; now := (now w + dt)%N;
              trace := trace w |}
  | EvClose node =>
      if existsb (fun e => Nat.eqb (node_id e) node) (body w)
      then Some (remove node w) else None
  | EvToast message type => Some (showToast message type w)
  | EvTab tab =>
      Some {| currentTab := tab; body := body w; next_node := next_node w;
              timers := timers w; next_timer := next_timer w; now := now w;
              trace := trace w |}
  end.

Fixpoint run (es : list Event) (w : World) : option World :=
  match es with
  | [] => Some w
  | e :: es' =>
      match step e w with
      | Some w' => run es' w'
      | None => None
      end
  end.

End Console.

(** ** The REST helpers of the agent script

    [configureAgent] and the global functions [startMonitoring] and
    [simulateThreat] at the end of [client_agent_fastapi/static/dashboard.js]
    talk to the user ([prompt], [alert]) and to the backend ([fetch]) and touch
    nothing else.  Each is a task: a tree of its calls to the outside, which
    branches on what [prompt] returns and on how the awaited [fetch] ends. *)

Module AgentApi.

(** The argument of [fetch]; [body] is the value given to [JSON.stringify]. *)
Record Request := {
  url : string;
  method : string;
  headers : list (string * string);
  body : option JValue }.

(** How [await fetch(...)] ends: the promise is rejected, or it resolves to a
    response whose [ok] flag tells whether the HTTP status was 2xx. *)
Inductive Outcome := Rejected | Resolved (ok : bool).

(** A task: each call to the outside with what the function does next,
    given what the call returns. *)
Inductive Task :=
| Return
| Prompt (text : string) (k : option string -> Task) (* null when cancelled *)
| Fetch (req : Request) (k : Outcome -> Task)
| Alert (text : string) (k : Task)
| ConsoleError (label : string) (k : Task).

(** ToBoolean of what [prompt] returned. *)
Definition given (answer : option string) : bool :=
  match answer with
  | Some s => negb (String.eqb s "")
  | None => false
  end.

(** An answer as it goes into the body of the request; where the body is
    built both answers are strings. *)
Definition answer_value (answer : option string) : JValue :=
  match answer with
  | Some s => JStr s
  | None => JNull
  end.

(** [headers: {'Content-Type': 'application/json'}] *)
Definition json_headers : list (string * string) :=
  [("Content-Type", "application/json")].

Definition configureAgent : Task :=
  Prompt "Enter directory to monitor:" (fun monitorDir =>
  Prompt "Enter backup directory:" (fun backupDir =>
  if given monitorDir && given backupDir then
    Fetch {| url := "/api/v1/configure"; method := "POST"; headers := json_headers;
             body := Some (JObj [("monitor_directory", answer_value monitorDir);
                                 ("backup_directory", answer_value backupDir);
                                 ("important_folders", JArr [])]) |}
      (fun response =>
         match response with
         | Resolved true => Alert "Agent configured successfully!" Return
         | Resolved false => Alert "Configuration failed!" Return
         | Rejected =>
             ConsoleError "Configuration error:" (Alert "Configuration error!" Return)
         end)
  else Return)).

Definition startMonitoring : Task :=
  Fetch {| url := "/api/v1/start-monitoring"; method := "POST"; headers := [];
           body := None |}
    (fun response =>
       match response with
       | Resolved true => Alert "Monitoring started!" Return
       | Resolved false => Alert "Failed to start monitoring!" Return
       | Rejected =>
           ConsoleError "Start monitoring error:"
             (Alert "Start monitoring error!" Return)
       end).

Definition simulateThreat : Task :=
  Fetch {| url := "/api/v1/simulate-threat"; method := "POST";
           headers := json_headers;
           body := Some (JObj [("threat_type", JStr "DEMO_RANSOMWARE");
                               ("threat_level", JStr "critical");
                               ("confidence", JNum (95 # 100))]) |}
    (fun response =>
       match response with
       | Resolved true => Alert "Threat simulation started!" Return
       | Resolved false => Alert "Failed to simulate threat!" Return
       | Rejected =>
           ConsoleError "Threat simulation error:"
             (Alert "Threat simulation error!" Return)
       end).

(** What happened, in order, when a task has run to its end. *)
Inductive Event :=
| Prompted (text : string) (answer : option string)
| Fetched (req : Request) (response : Outcome)
| Alerted (text : string)
| Logged (label : string).

(** A task run against a user who gives [answers] to the prompts, one after
    the other (and cancels the prompts beyond them), and a backend whose
    response is [response]. *)
Fixpoint run (t : Task) (answers : list (option string)) (response : Outcome)
  : list Event :=
  match t with
  | Return => []
  | Prompt text k =>
      let answer := mjoin (head answers) in
      Prompted text answer :: run (k answer) (tail answers) response
  | Fetch req k => Fetched req response :: run (k response) answers response
  | Alert text k => Alerted text :: run k answers response
  | ConsoleError label k => Logged label :: run k answers response
  end.

End AgentApi.

(** ** The admin dashboard: what it does with the responses

    [updateStats] and [updateAgents] of [DashboardUpdater] are [async]: the
    request goes out when the method is called (module [DashboardUpdater]
    above), the rest of the body runs when the response arrives.  That rest
    is modelled here, as a function of the response, together with
    [initializeCharts] and [updateAgentChart].  Chart.js is taken to be
    loaded; the chart it makes is kept as the data of its one dataset. *)

Module AdminPage.

Inductive Effect :=
| ConsoleError (label : string) (error : Exn)
| ChartUpdate (* this.charts.agent.update() *).

(** The four elements [updateStats] writes to, each [None] when the page has
    no such element and otherwise the value last assigned to its
    [textContent]; the canvas of the chart; and [this.charts.agent]. *)
Record World := {
  liveAgents : option JValue;
  liveIncidents : option JValue;
  responseTime : option JValue;
  systemHealth : option JValue;
  agentChart : bool;
  charts_agent : option (list nat);
  trace : list Effect }.

Definition M (A : Type) : Type := World -> Completion A * World.

Definition ret {A} (a : A) : M A := fun w => (Normal a, w).
Definition throw {A} (e : Exn) : M A := fun w => (Throw e, w).
Definition lift {A} (c : Completion A) : M A := fun w => (c, w).
Definition bind {A B} (m : M A) (k : A -> M B) : M B :=
  fun w => match m w with
           | (Normal a, w') => k a w'
           | (Throw e, w') => (Throw e, w')
           end.
Definition try_catch {A} (body : M A) (handler : Exn -> M A) : M A :=
  fun w => match body w with
           | (Normal a, w') => (Normal a, w')
           | (Throw e, w') => handler e w'
           end.
Definition get : M World := fun w => (Normal w, w).

Notation "'do' x <- m ; k" := (bind m (fun x => k))
  (at level 10, x name, m at level 100, k at level 200).
Notation "'do_' m ; k" := (bind m (fun _ => k))
  (at level 10, m at level 100, k at level 200).

Definition emit (e : Effect) : M unit :=
  fun w => (Normal tt,
            {| liveAgents := liveAgents w; liveIncidents := liveIncidents w;
               responseTime := responseTime w; systemHealth := systemHealth w;
               agentChart := agentChart w; charts_agent := charts_agent w;
               trace := e :: trace w |}).

(** The ids of the four elements. *)
Inductive Field := LiveAgents | LiveIncidents | ResponseTime | SystemHealth.

Definition element (f : Field) (w : World) : option JValue :=
  match f with
  | LiveAgents => liveAgents w
  | LiveIncidents => liveIncidents w
  | ResponseTime => responseTime w
  | SystemHealth => systemHealth w
  end.

Definition set_element (f : Field) (v : JValue) (w : World) : World :=
  {| liveAgents := if f is LiveAgents then Some v else liveAgents w;
     liveIncidents := if f is LiveIncidents then Some v else liveIncidents w;
     responseTime := if f is ResponseTime then Some v else responseTime w;
     systemHealth := if f is SystemHealth then Some v else systemHealth w;
     agentChart := agentChart w; charts_agent := charts_agent w;
     trace := trace w |}.

(** [document.getElementById(f).textContent = value]: a TypeError when the
    page has no such element or when evaluating [value] throws. *)
Definition set_textContent (f : Field) (value : Completion JValue) : M unit :=
  do w <- get;
  match element f w with
  | None => throw TypeError
  | Some _ =>
      do v <- lift value;
      fun w' => (Normal tt, set_element f v w')
  end.

(** How the awaited [fetch] and [response.json()] end: the request fails,
    the body is not JSON, or the body parses to [data]. *)
Inductive Response := NetworkError | NotJson | Body (data : JValue).

Definition json (r : Response) : Completion JValue :=
  match r with
  | NetworkError => Throw TypeError
  | NotJson => Throw SyntaxError
  | Body data => Normal data
  end.

(** [updateStats], from the response on. *)
Definition updateStats (r : Response) : M unit :=
  try_catch
    (do data <- lift (json r);
     do_ set_textContent LiveAgents (get_prop "online_agents" data);
     do_ set_textContent LiveIncidents (get_prop "critical_incidents" data);
     do_ set_textContent ResponseTime (Normal (JStr "125ms")) (* Mock data *);
     set_textContent SystemHealth (Normal (JStr "95%")))
    (fun error => emit (ConsoleError "Error updating stats:" error)).

(** [agents.filter(a => a.status === status).length] on the elements of an
    array. *)
Fixpoint count_status (status : string) (agents : list JValue) : Completion nat :=
  match agents with
  | [] => Normal 0
  | a :: rest =>
      match get_prop "status" a with
      | Throw e => Throw e
      | Normal s =>
          match count_status status rest with
          | Throw e => Throw e
          | Normal n => Normal (if is_str status s then S n else n)
          end
      end
  end.

(** Only an array has [filter]. *)
Definition filter_count (status : string) (agents : JValue) : Completion nat :=
  match agents with
  | JArr items => count_status status items
  | _ => Throw TypeError
  end.

Definition set_charts_agent (v : option (list nat)) : M unit :=
  fun w => (Normal tt,
            {| liveAgents := liveAgents w; liveIncidents := liveIncidents w;
               responseTime := responseTime w; systemHealth := systemHealth w;
               agentChart := agentChart w; charts_agent := v;
               trace := trace w |}).

(** On a page with the canvas the chart starts with mock data; without it
    [getElementById] gives [null] and [getContext] throws. *)
Definition initializeCharts : M unit :=
  do w <- get;
  if agentChart w then set_charts_agent (Some [8; 2; 1] (* Mock data *))
  else throw TypeError.

Definition updateAgentChart (data : JValue) : M unit :=
  do w <- get;
  match charts_agent w with
  | Some _ =>
      do agents <- lift (get_prop "agents" data);
      do online <- lift (filter_count "online" agents);
      do agents <- lift (get_prop "agents" data);
      do offline <- lift (filter_count "offline" agents);
      do agents <- lift (get_prop "agents" data);
      do quarantined <- lift (filter_count "quarantined" agents);
      do_ set_charts_agent (Some [online; offline; quarantined]);
      emit ChartUpdate
  | None => ret tt
  end.

(** [updateAgents], from the response on. *)
Definition updateAgents (r : Response) : M unit :=
  try_catch
    (do data <- lift (json r);
     (* Update agent chart *)
     updateAgentChart data)
    (fun error => emit (ConsoleError "Error updating agents:" error)).

(** *** [getSeverityBadge] *)

(** The own properties of [classes]. *)
Definition classes : gmap string string :=
  {[ "critical" := "bg-danger";
     "high" := "bg-warning";
     "medium" := "bg-info";
     "low" := "bg-secondary" ]}.

(** The properties [classes] inherits from [Object.prototype]: [classes[level]]
    finds them as well, and each of them is truthy. *)
Definition object_prototype : list string :=
  ["constructor"; "hasOwnProperty"; "isPrototypeOf"; "propertyIsEnumerable";
   "toLocaleString"; "toString"; "valueOf"; "__proto__"; "__defineGetter__";
   "__defineSetter__"; "__lookupGetter__"; "__lookupSetter__"].

(** What [classes[level] || 'bg-secondary'] puts into the class attribute: a
    class name, or the text of the inherited member [name]. *)
Inductive BadgeClass :=
| Class (name : string)
| Member (name : string).

Definition lookup_class (level : string) : BadgeClass :=
  match classes !! level with
  | Some name => Class name
  | None =>
      if bool_decide (level ∈ object_prototype) then Member level
      else Class "bg-secondary"
  end.

(** The badge: a span of class [badge] and [badge_class] around [badge_text]. *)
Record Badge := { badge_class : BadgeClass; badge_text : Piece }.

(** Whatever [level] is, [classes[level]] can be read; only a string has
    [toUpperCase]. *)
Definition getSeverityBadge (level : JValue) : Completion Badge :=
  match level with
  | JStr s => Normal {| badge_class := lookup_class s; badge_text := Upper s |}
  | _ => Throw TypeError
  end.

End AdminPage.

(** ** Sample pages and inputs *)

Import AgentDashboard.

(** A page that has every element the agent script looks up, all of them
    empty. *)
Definition blank_page : Dom :=
  {| agent_status := Some []; system_info := Some []; threat_stats := Some [];
     alerts_container := Some []; event_log := Some []; next_node := 0 |}.

(** The dashboard just constructed on [blank_page]: socket 0 is connecting. *)
Definition fresh_world : World :=
  constructor blank_page "http:" "localhost:8000" 0 true.

(** The same dashboard once socket 0 has opened. *)
Definition connected_world : World :=
  default fresh_world (run [EvOpen 0] fresh_world).

Definition stats_ab : JValue :=
  JObj [("total_detections", JInt 5); ("layer1_supervised", JInt 3)].



(** The element [addToEventLog] builds in world [w]. *)
Definition log_entry (eventType : string) (message : Html) (level : string)
    (w : World) : Element :=
  {| node_id := next_node (document w); className := "log-entry log-" +:+ level;
     innerHTML := log_html eventType message (now (window w)) |}.

(** Node identities are issued once: the children of a container are distinct
    nodes made before [next_node]. *)
Definition distinct_nodes (next : nat) (children : list Element) : Prop :=
  NoDup (node_id <$> children) /\ Forall (fun e => node_id e < next) children.

(** The element and the timer [showAlert] makes in world [w], and the world
    it leaves when it succeeds. *)
Definition alert_element (type : string) (content : Html) (w : World) : Element :=
  {| node_id := next_node (document w); className := "alert alert-" +:+ type;
     innerHTML := alert_html type content (now (window w)) |}.

Definition alert_timer (w : World) : Timer Callback :=
  {| tid := next_timer (window w); due := (now (window w) + 10000)%N;
     period := None; callback := CbRemoveAlert (next_node (document w)) |}.

Definition alert_shown (type : string) (content : Html) (children : list Element)
    (w : World) : World :=
  with_window
    (fun b => set_trace (SetTimeout (next_timer b) 10000
                           (CbRemoveAlert (next_node (document w))) :: trace b)
                (set_next_timer (S (next_timer b))
                   (set_timers (timers b ++ [alert_timer w]) b)))
    (with_document
       (fun d => set_alerts_container
                   (Some (alert_element type content w :: children))
                   (set_next_node (S (next_node d)) d)) w).

(** The world after one more line of trace. *)
Definition traced (e : Effect) (w : World) : World :=
  with_window (fun b => set_trace (e :: trace b) b) w.

(** The world with its trace replaced. *)
Definition retrace (tr : list Effect) (w : World) : World :=
  with_window (set_trace tr) w.

(** The message types [handleMessage] has a case for. *)
Definition handled_types : list string :=
  ["THREAT_DETECTED"; "EMERGENCY_RESPONSE"; "HIGH_ALERT_RESPONSE";
   "ENHANCED_MONITORING"; "STATUS_UPDATE"; "COMMAND_EXECUTED"].

Definition not_connected : Html := [Lit "WebSocket not connected"].

(** The world with older history [old] beneath its trace. *)
Definition under (old : list Effect) (w : World) : World :=
  with_window (fun b => set_trace (trace b ++ old) b) w.

(** A method that never reads the trace: it does the same on a longer
    history. *)
Definition oblivious {A} (m : M A) : Prop :=
  forall old w, m (under old w) = (fst (m w), under old (snd (m w))).

(** A threat report as the agent sends it, and one that carries no [data]. *)
Definition threat_data : JValue :=
  JObj [("threat_level", JStr "critical"); ("confidence", JNum (95 # 100))].
Definition threat_message : JValue :=
  JObj [("type", JStr "THREAT_DETECTED"); ("data", threat_data);
        ("detection_stats", stats_ab)].

(** A page as the browser hands it to the script: the children of the two
    containers are distinct nodes, made before any node of the script. *)
Definition page_wf (page : Dom) : Prop :=
  (forall children, alerts_container page = Some children ->
                    distinct_nodes (next_node page) children)
  /\ (forall children, event_log page = Some children ->
                       distinct_nodes (next_node page) children).

(** ** The connection, as the browser sees it *)

Definition live (st : ReadyState) : bool :=
  match st with Closed => false | _ => true end.

Definition is_connect (t : Timer Callback) : bool :=
  match callback t with CbConnect => true | CbRemoveAlert _ => false end.

(** Sockets that may still deliver an event, and pending calls of
    [connectWebSocket]. *)
Definition n_live (w : World) : nat :=
  length (List.filter live (sockets (window w))).
Definition n_reconnect (w : World) : nat :=
  length (List.filter is_connect (timers (window w))).

(** The terminal state: no socket can deliver an event any more and no
    reconnection is pending. *)
Definition Failed (w : World) : Prop := n_live w = 0 /\ n_reconnect w = 0.

Definition connected_line : string := "✅ Connected to agent dashboard".

(** Reconnections scheduled since the last successful connection (or since
    the page was loaded), read off the trace. *)
Fixpoint reconnects_made (tr : list Effect) : nat :=
  match tr with
  | [] => 0
  | ConsoleLog [Lit s] :: rest =>
      if String.eqb s connected_line then 0 else reconnects_made rest
  | SetTimeout _ _ CbConnect :: rest => S (reconnects_made rest)
  | _ :: rest => reconnects_made rest
  end.

(** [updateStatus], as a function on worlds. *)
Definition shows (status : string) (w : World) : World :=
  match agent_status (document w) with
  | Some _ =>
      with_document
        (set_agent_status (Some (status_html status (isConnected (this w))))) w
  | None => w
  end.

(** The world after [attemptReconnect] has scheduled a reconnection. *)
Definition reconnect_timer (w : World) : Timer Callback :=
  {| tid := next_timer (window w); due := (now (window w) + 3000)%N;
     period := None; callback := CbConnect |}.

Definition reconnect_scheduled (w : World) : World :=
  let n := S (reconnectAttempts (this w)) in
  with_window
    (fun b =>
       set_trace
         (SetTimeout (next_timer b) 3000 CbConnect
          :: ConsoleLog [Lit "Attempting reconnect ("; Hole (JNat n); Lit "/";
                         Hole (JNat (maxReconnectAttempts (this w))); Lit ")..."]
          :: trace b)
         (set_next_timer (S (next_timer b))
            (set_timers (timers b ++ [reconnect_timer w]) b)))
    (with_this (set_reconnectAttempts n) w).

(** The world after [new WebSocket(url)] has succeeded in [connectWebSocket]. *)
Definition socket_url (w : World) : string :=
  (if String.eqb (location_protocol (window w)) "https:" then "wss:" else "ws:")
  +:+ "//" +:+ location_host (window w) +:+ "/ws/dashboard".

Definition socket_created (w : World) : World :=
  with_this (set_ws (Some (length (sockets (window w)))))
    (with_window
       (fun b => set_trace (NewWebSocket (socket_url w) (length (sockets b))
                            :: trace b)
                   (set_sockets (sockets b ++ [Connecting]) b)) w).

(** Timer handles are issued once. *)
Definition timers_ok (next : nat) (ts : list (Timer Callback)) : Prop :=
  NoDup (tid <$> ts) /\ Forall (fun t => tid t < next /\ period t = None) ts.

Definition timers_wf (w : World) : Prop :=
  timers_ok (next_timer (window w)) (timers (window w)).

(** What holds of the connection in every state the page can reach. *)
Record conn_inv (w : World) : Prop := {
  inv_token : n_live w + n_reconnect w <= 1;
  inv_ws : forall k st, sockets (window w) !! k = Some st -> live st = true ->
                        ws (this w) = Some k;
  inv_open : forall k, sockets (window w) !! k = Some Open ->
                       isConnected (this w) = true;
  inv_connected : isConnected (this w) = true ->
                  exists k, ws (this w) = Some k
                            /\ sockets (window w) !! k = Some Open;
  inv_max : maxReconnectAttempts (this w) = 5;
  inv_attempts : reconnectAttempts (this w) <= maxReconnectAttempts (this w);
  inv_count : reconnectAttempts (this w) = reconnects_made (trace (window w));
  inv_failed : Failed w -> forall panel, agent_status (document w) = Some panel ->
                           panel = status_html "failed" false;
  inv_timers : timers_wf w }.

(** The states the page can reach: the constructor, then any events the
    browser can deliver. *)
Definition reachable (w : World) : Prop :=
  exists page protocol host t0 accepted es,
    page_wf page
    /\ run es (constructor page protocol host t0 accepted) = Some w.

(** What the connection invariant reads of a world. *)
Definition conn_view (w : World) :=
  (this w, sockets (window w), List.filter is_connect (timers (window w)),
   agent_status (document w), reconnects_made (trace (window w))).

(** A method keeps a property of the world, whether it returns or throws. *)
Definition keeps (I : World -> Prop) {A} (m : M A) : Prop :=
  forall w, I w -> I (snd (m w)).

(** A method that leaves the connection alone. *)
Definition quiet {A} (m : M A) : Prop :=
  forall w, conn_view (snd (m w)) = conn_view w
            /\ (timers_wf w -> timers_wf (snd (m w))).

(** The world in which [onclose] calls [attemptReconnect] when socket [k]
    closes. *)
Definition after_close (k : nat) (w : World) : World :=
  shows "disconnected"
    (with_this (set_isConnected false)
       (traced (ConsoleLog [Lit "❌ Disconnected from agent dashboard"])
          (set_socket k Closed w))).

(** Connection attempts that all fail: socket 0, made by the constructor,
    closes; then, [n] times over, three seconds pass, the reconnection timer
    fires and the socket it makes closes too.  On a page that shows no alert
    the reconnection timer that makes socket [i] has handle [i]. *)
Fixpoint retries (n first : nat) : list Event :=
  match n with
  | 0 => []
  | S n' => [EvTick 3000; EvTimer first true; EvClose first] ++ retries n' (S first)
  end.

Definition failed_attempts (n : nat) : list Event :=
  match n with
  | 0 => []
  | S n' => EvClose 0 :: retries n' 1
  end.

(** A connection that opens and is lost, followed by [n] reconnection
    attempts that all fail. *)
Definition lost_then_failed (n : nat) : list Event :=
  EvOpen 0 :: EvClose 0 :: retries n 1.

(** The dashboard on [blank_page] after the events [es]. *)
Definition world_after (es : list Event) : World :=
  default fresh_world (run es fresh_world).

(** ** Alerts and their timers *)

(** The nodes in the alert container. *)
Definition alert_ids (w : World) : list nat :=
  match alerts_container (document w) with
  | Some children => node_id <$> children
  | None => []
  end.

(** What every method of the class other than the removal callback does to
    nodes, timers and alerts: the clock stands still, timers are only added
    (with fresh handles, never cancelled), alerts are only added (fresh nodes
    at the head), and a timer that removes an alert is set for a node made in
    the same call, 10 s ahead. *)
Record grows (w w' : World) : Prop := {
  g_node : next_node (document w) <= next_node (document w');
  g_timer : next_timer (window w) <= next_timer (window w');
  g_now : now (window w') = now (window w);
  g_timers :
    exists new, timers (window w') = timers (window w) ++ new
      /\ NoDup (tid <$> new)
      /\ Forall (fun t =>
                   next_timer (window w) <= tid t < next_timer (window w')
                   /\ period t = None
                   /\ forall m, callback t = CbRemoveAlert m ->
                        next_node (document w) <= m < next_node (document w')
                        /\ due t = (now (window w) + 10000)%N) new;
  g_alerts :
    exists fresh, alert_ids w' = fresh ++ alert_ids w
      /\ Forall (fun x => next_node (document w) <= x < next_node (document w'))
           fresh }.

Definition steady {A} (m : M A) : Prop := forall w, grows w (snd (m w)).


(** Nodes and handles are issued once, and a removal timer is for a node
    that exists. *)
Record sound (w : World) : Prop := {
  s_timers : timers_wf w;
  s_nodes : Forall (fun t => forall m, callback t = CbRemoveAlert m ->
                                        m < next_node (document w))
              (timers (window w));
  s_page : page_wf (document w) }.

(** ** Toasts and their timers *)

Definition toast_ids (w : Console.World) : list nat :=
  node_id <$> Console.body w.

(** Nodes and handles of the console page are issued once. *)
Record console_sound (w : Console.World) : Prop := {
  cs_nodup : NoDup (tid <$> Console.timers w);
  cs_below : Forall (fun t => tid t < Console.next_timer w) (Console.timers w);
  cs_nodes : Forall (fun t => forall m, callback t = Console.CbRemoveToast m ->
                                         m < Console.next_node w)
               (Console.timers w);
  cs_toasts : Forall (fun x => x < Console.next_node w) (toast_ids w) }.


(** The console page before any toast, polling started. *)
Definition console_start : Console.World :=
  Console.startRealTimeUpdates
    {| Console.currentTab := "dashboard"; Console.body := [];
       Console.next_node := 0; Console.timers := []; Console.next_timer := 1;
       Console.now := 0; Console.trace := [] |}.

(** ** Every way into the agent dashboard

    The methods of [AgentDashboard] that touch the state, the four socket
    handlers and the callback of an alert's timer, with their arguments. *)
Inductive Call :=
| CallInitializeDashboard
| CallConnectWebSocket (accepted : bool)
| CallAttemptReconnect
| CallHandleMessage (message : JValue)
| CallHandleThreatDetected (message : JValue)
| CallHandleEmergencyResponse (message : JValue)
| CallHandleHighAlertResponse (message : JValue)
| CallHandleEnhancedMonitoring (message : JValue)
| CallHandleStatusUpdate (message : JValue)
| CallHandleCommandExecuted (message : JValue)
| CallShowAlert (type : string) (data : JValue)
| CallUpdateStatus (status : string)
| CallUpdateDashboard (statusData : JValue)
| CallUpdateSystemInfo (statusData : JValue)
| CallUpdateThreatStats (stats : JValue)
| CallAddToEventLog (eventType : string) (message : Html) (level : string)
| CallStartMonitoring
| CallStopMonitoring
| CallSimulateThreat
| CallRequestStatusUpdate
| CallSendMessage (message : JValue)
| CallOnopen
| CallOnmessage (data : option JValue)
| CallOnclose
| CallOnerror
| CallRemoveAlert (node : nat).

Definition invoke (c : Call) : M unit :=
  match c with
  | CallInitializeDashboard => initializeDashboard
  | CallConnectWebSocket accepted => connectWebSocket accepted
  | CallAttemptReconnect => attemptReconnect
  | CallHandleMessage message => handleMessage message
  | CallHandleThreatDetected message => handleThreatDetected message
  | CallHandleEmergencyResponse message => handleEmergencyResponse message
  | CallHandleHighAlertResponse message => handleHighAlertResponse message
  | CallHandleEnhancedMonitoring message => handleEnhancedMonitoring message
  | CallHandleStatusUpdate message => handleStatusUpdate message
  | CallHandleCommandExecuted message => handleCommandExecuted message
  | CallShowAlert type data => showAlert type data
  | CallUpdateStatus status => updateStatus status
  | CallUpdateDashboard statusData => updateDashboard statusData
  | CallUpdateSystemInfo statusData => updateSystemInfo statusData
  | CallUpdateThreatStats stats => updateThreatStats stats
  | CallAddToEventLog eventType message level => addToEventLog eventType message level
  | CallStartMonitoring => startMonitoring
  | CallStopMonitoring => stopMonitoring
  | CallSimulateThreat => simulateThreat
  | CallRequestStatusUpdate => requestStatusUpdate
  | CallSendMessage message => sendMessage message
  | CallOnopen => onopen
  | CallOnmessage data => onmessage data
  | CallOnclose => onclose
  | CallOnerror => onerror
  | CallRemoveAlert node => removeAlert node
  end.

(** The agent dashboard with an alert on show and a reconnection pending:
    socket 0 opened, reported a threat and closed. *)
Definition busy_world : World :=
  world_after [EvOpen 0; EvMessage 0 (Some threat_message); EvClose 0].

(** The admin page after [initialize] has run twice, then [stop]. *)
Definition stopped_updater : DashboardUpdater.World :=
  DashboardUpdater.stop
    (DashboardUpdater.initialize
       (DashboardUpdater.initialize (DashboardUpdater.constructor 1 0))).

(** An unknown message, and further sample worlds. *)
Definition foo_message : JValue := JObj [("type", JStr "FOO_UNKNOWN")].

(** The dashboard showing one threat alert. *)
Definition alerted_world : World :=
  world_after [EvOpen 0; EvMessage 0 (Some threat_message)].

(** The dashboard whose fifth reconnection has just been started. *)
Definition last_chance_world : World :=
  world_after (failed_attempts 5 ++ [EvTick 3000; EvTimer 5 true]).


(** ** The agent dashboard: what else holds of it *)



(** What the status panel may say: the text [updateStatus] writes for one of
    the five statuses the class passes to it, with the connection flag as it
    is now.  While connected the status is 'connected' or 'error'. *)
Definition panel_ok (w : World) : Prop :=
  forall panel, agent_status (document w) = Some panel ->
    exists status,
      panel = status_html status (isConnected (this w))
      /\ status ∈ (if isConnected (this w)
                   then ["connected"; "error"]
                   else ["initializing"; "disconnected"; "error"; "failed"]).

(** The class gives up only when its budget is spent. *)
Definition exhausted_ok (w : World) : Prop :=
  n_live w + n_reconnect w = 0 -> reconnectAttempts (this w) = 5.

(** The URL [connectWebSocket] builds on a page loaded from
    [protocol]//[host]. *)
Definition dashboard_url (protocol host : string) : string :=
  (if String.eqb protocol "https:" then "wss:" else "ws:")
  +:+ "//" +:+ host +:+ "/ws/dashboard".

(** The types of the commands the class sends. *)
Definition command_types : list string :=
  ["START_MONITORING"; "STOP_MONITORING"; "SIMULATE_THREAT"; "GET_STATUS"].

(** What the class does to the outside on a page whose socket URL is [url]:
    console lines, sockets to [url], the four commands, a reconnection 3 s
    ahead and the removal of an alert 10 s ahead. *)
Definition allowed (url : string) (e : Effect) : Prop :=
  match e with
  | ConsoleLog _ | ConsoleError _ => True
  | NewWebSocket u _ => u = url
  | WsSend _ payload => exists type, type ∈ command_types /\ payload = command type
  | SetTimeout _ delay cb =>
      (delay = 3000%N /\ cb = CbConnect)
      \/ (delay = 10000%N /\ exists node, cb = CbRemoveAlert node)
  end.

(** The same without any transmission. *)
Definition silent (url : string) (e : Effect) : Prop :=
  match e with
  | WsSend _ _ => False
  | _ => allowed url e
  end.

(** A method whose calls to the outside all satisfy [P]; the trace only
    grows and the location of the page stays. *)
Definition emits (P : string -> Effect -> Prop) {A} (m : M A) : Prop :=
  forall w,
    socket_url (snd (m w)) = socket_url w
    /\ exists new, trace (window (snd (m w))) = new ++ trace (window w)
                   /\ Forall (P (socket_url w)) new.

(** The events whose handlers call [sendMessage]: a socket that opens
    ([requestStatusUpdate]) and a click on one of the four buttons. *)
Definition transmits (e : Event) : bool :=
  match e with
  | EvOpen _ | EvClick _ => true
  | _ => false
  end.

(** ** The REST helpers: what a run shows *)

(** The requests, the alerts and the console lines of a run, in order. *)
Definition requests (tr : list AgentApi.Event) : list AgentApi.Request :=
  omap (fun e => match e with AgentApi.Fetched req _ => Some req | _ => None end) tr.
Definition alerts (tr : list AgentApi.Event) : list string :=
  omap (fun e => match e with AgentApi.Alerted text => Some text | _ => None end) tr.
Definition console_lines (tr : list AgentApi.Event) : list string :=
  omap (fun e => match e with AgentApi.Logged label => Some label | _ => None end) tr.

(** The three helpers, each with the alert it shows on success. *)
Definition rest_helpers : list (AgentApi.Task * string) :=
  [(AgentApi.configureAgent, "Agent configured successfully!");
   (AgentApi.startMonitoring, "Monitoring started!");
   (AgentApi.simulateThreat, "Threat simulation started!")].

(** The request [configureAgent] makes for the two directories. *)
Definition configure_request (monitorDir backupDir : string) : AgentApi.Request :=
  {| AgentApi.url := "/api/v1/configure"; AgentApi.method := "POST";
     AgentApi.headers := [("Content-Type", "application/json")];
     AgentApi.body := Some (JObj [("monitor_directory", JStr monitorDir);
                                  ("backup_directory", JStr backupDir);
                                  ("important_folders", JArr [])]) |}.

(** ** The admin page: what the responses show *)




(** The status an agent of the response reports, and whether the chart has a
    segment for it. *)
Definition agent_status_of (a : JValue) : JValue := get_prop_opt "status" a.

Definition charted (a : JValue) : bool :=
  is_str "online" (agent_status_of a) || is_str "offline" (agent_status_of a)
  || is_str "quarantined" (agent_status_of a).

Definition with_status (status : string) (agents : list JValue) : nat :=
  length (List.filter (fun a => is_str status (agent_status_of a)) agents).

(** A value whose properties can be read. *)
Definition readable (a : JValue) : Prop := a <> JNull /\ a <> JUndefined.

(** An admin page with every element and a chart showing the mock data, and
    one without the canvas of the chart. *)
Definition admin_page : AdminPage.World :=
  {| AdminPage.liveAgents := Some (JStr "-"); AdminPage.liveIncidents := Some (JStr "-");
     AdminPage.responseTime := Some (JStr "-"); AdminPage.systemHealth := Some (JStr "-");
     AdminPage.agentChart := true; AdminPage.charts_agent := Some [8; 2; 1];
     AdminPage.trace := [] |}.

Definition admin_page_without_canvas : AdminPage.World :=
  {| AdminPage.liveAgents := Some (JStr "-"); AdminPage.liveIncidents := Some (JStr "-");
     AdminPage.responseTime := Some (JStr "-"); AdminPage.systemHealth := Some (JStr "-");
     AdminPage.agentChart := false; AdminPage.charts_agent := None;
     AdminPage.trace := [] |}.

(** A response of the agents endpoint: one agent reports a status the chart
    has no segment for. *)
Definition sample_agents : list JValue :=
  [JObj [("id", JStr "a1"); ("status", JStr "online")];
   JObj [("id", JStr "a2"); ("status", JStr "isolated")];
   JObj [("id", JStr "a3"); ("status", JStr "quarantined")]].
Definition agents_response : JValue := JObj [("agents", JArr sample_agents)].

(** [initialize()] of [DashboardUpdater] on the timers of the window and on
    the page: [startRealTimeUpdates] first, then [initializeCharts]. *)
Definition admin_initialize (u : DashboardUpdater.World) (p : AdminPage.World)
  : Completion unit * DashboardUpdater.World * AdminPage.World :=
  let u' := DashboardUpdater.startRealTimeUpdates u in
  let r := AdminPage.initializeCharts p in
  (fst r, u', snd r).

(** The four Bootstrap classes of a badge. *)
Definition badge_classes : list string :=
  ["bg-danger"; "bg-warning"; "bg-info"; "bg-secondary"].

(** ** Polling *)

(** The admin page from [new DashboardUpdater()] and [initialize()] on. *)
Definition updater_start (next : nat) (t0 : N) : DashboardUpdater.World :=
  DashboardUpdater.initialize (DashboardUpdater.constructor next t0).

Fixpoint updater_run (es : list DashboardUpdater.Event) (w : DashboardUpdater.World)
  : option DashboardUpdater.World :=
  match es with
  | [] => Some w
  | e :: es' =>
      match DashboardUpdater.step e w with
      | Some w' => updater_run es' w'
      | None => None
      end
  end.

(** How often [url] was requested. *)
Definition fetches (url : string) (tr : list DashboardUpdater.Effect) : nat :=
  length (List.filter (fun e => match e with
                                | DashboardUpdater.Fetch u => String.eqb u url
                                | _ => false
                                end) tr).

(** What holds of the admin page between [initialize] and [stop]: the one
    timer is the interval, and every round of polling so far took its five
    seconds. *)
Definition updater_inv (next : nat) (t0 : N) (w : DashboardUpdater.World) : Prop :=
  let n := fetches "/admin/api/incidents/recent" (DashboardUpdater.trace w) in
  DashboardUpdater.statsInterval w = Some next
  /\ fetches "/admin/api/stats" (DashboardUpdater.trace w) = S n
  /\ fetches "/admin/api/agents/status" (DashboardUpdater.trace w) = n
  /\ (t0 + 5000 * N.of_nat n <= DashboardUpdater.now w)%N
  /\ exists d, DashboardUpdater.timers w
               = [{| tid := next; due := d; period := Some 5000%N;
                     callback := DashboardUpdater.CbPoll |}]
               /\ (t0 + 5000 * N.of_nat n + 5000 <= d)%N.

(** The console page with [currentTab] set to [tab], before anything ran. *)
Definition console_page (tab : string) (t0 : N) : Console.World :=
  {| Console.currentTab := tab; Console.body := []; Console.next_node := 0;
     Console.timers := []; Console.next_timer := 1; Console.now := t0;
     Console.trace := [] |}.

(** How often the console script called [updateDashboard]. *)
Definition updates (tr : list Console.Effect) : nat :=
  length (List.filter (fun e => match e with
                                | Console.UpdateDashboard => true
                                | _ => false
                                end) tr).

(** What holds of the console page once polling has started at [t0]: every
    call of [updateDashboard] so far took its ten seconds, the one interval is
    pending and due no earlier than ten seconds after the time accounted
    for. *)
Record console_inv (t0 : N) (w : Console.World) : Prop := {
  ci_sound : console_sound w;
  ci_rate : (t0 + 10000 * N.of_nat (updates (Console.trace w)) <= Console.now w)%N;
  ci_poll : forall t, t ∈ Console.timers w -> callback t = Console.CbPoll ->
              period t = Some 10000%N
              /\ (t0 + 10000 * N.of_nat (updates (Console.trace w)) + 10000 <= due t)%N;
  ci_one : forall t u, t ∈ Console.timers w -> u ∈ Console.timers w ->
             callback t = Console.CbPoll -> callback u = Console.CbPoll -> t = u;
  ci_pending : exists t, t ∈ Console.timers w /\ callback t = Console.CbPoll }.



(** ** Commands and the occasions to send them *)

(** The command each button sends. *)
Definition button_command (b : Button) : string :=
  match b with
  | BtnStart => "START_MONITORING"
  | BtnStop => "STOP_MONITORING"
  | BtnSimulate => "SIMULATE_THREAT"
  | BtnStatus => "GET_STATUS"
  end.

(** Whether [payload] is the command of [type], and how often that command
    was transmitted. *)
Definition is_command (type : string) (payload : JValue) : bool :=
  match payload with
  | JObj [(key, JStr t)] => String.eqb key "type" && String.eqb t type
  | _ => false
  end.

Definition sends (type : string) (tr : list Effect) : nat :=
  length (List.filter (fun e => match e with
                                | WsSend _ payload => is_command type payload
                                | _ => false
                                end) tr).

(** How often an event can have made the class transmit the command of
    [type]: once for a click on its button, once for a socket that opens when
    the command is GET_STATUS. *)
Definition occasions (type : string) (es : list Event) : nat :=
  length (List.filter (fun e => match e with
                                | EvClick b => String.eqb (button_command b) type
                                | EvOpen _ => String.eqb "GET_STATUS" type
                                | _ => false
                                end) es).

(** ** Property reads *)

(** On a truthy value a property read cannot throw: this is what lets the
    templates below read the fields of [stats] and [statusData] directly. *)
Lemma get_prop_truthy name v :
  truthy v = true -> get_prop name v = Normal (get_prop_opt name v).
Proof. destruct v; simpl; intros; congruence. Qed.

(** ** The statistics panel *)

Lemma updateThreatStats_spec stats w :
  updateThreatStats stats w =
  (Normal tt,
   match threat_stats (document w) with
   | Some _ => if truthy stats
               then with_document (set_threat_stats (Some (stats_html stats))) w
               else w
   | None => w
   end).
Proof.
  unfold updateThreatStats, bind, get, modify, ret.
  destruct (threat_stats (document w)); [destruct (truthy stats)|]; reflexivity.
Qed.



(** ** The event log *)

Lemma trim_log_take children : trim_log children = take 50 children.
Proof.
  funelim (trim_log children).
  - rewrite H. rewrite removelast_firstn_len, take_take. f_equal. lia.
  - symmetry. apply take_ge. lia.
Qed.

Lemma addToEventLog_spec eventType message level w :
  addToEventLog eventType message level w =
  match event_log (document w) with
  | None => (Throw TypeError,
             with_document (set_next_node (S (next_node (document w)))) w)
  | Some children =>
      (Normal tt,
       with_document
         (fun d => set_event_log
                     (Some (take 50 (log_entry eventType message level w :: children)))
                     (set_next_node (S (next_node d)) d)) w)
  end.
Proof.
  unfold addToEventLog, createElement, bind, get, modify, ret, throw. simpl.
  destruct (event_log (document w)); [|reflexivity].
  rewrite trim_log_take. reflexivity.
Qed.



(** ** Outbound commands *)

Lemma sendMessage_spec message w :
  sendMessage message w =
  match ws (this w) with
  | Some sock =>
      if isConnected (this w) then
        match sockets (window w) !! sock with
        | Some Connecting => (Throw InvalidStateError, w)
        | Some Open => (Normal tt, traced (WsSend sock message) w)
        | _ => (Normal tt, w)
        end
      else (Normal tt, traced (ConsoleError not_connected) w)
  | None => (Normal tt, traced (ConsoleError not_connected) w)
  end.
Proof.
  unfold sendMessage, ws_send, console_error, emit, bind, get, modify, ret, throw.
  destruct (ws (this w)) as [sock|]; [|reflexivity].
  destruct (isConnected (this w)); [|reflexivity].
  destruct (sockets (window w) !! sock) as [[]|]; reflexivity.
Qed.

(** ** Alerts *)

Lemma showAlert_spec type data w :
  showAlert type data w =
  match formatAlertContent data with
  | Throw e => (Throw e, with_document (set_next_node (S (next_node (document w)))) w)
  | Normal content =>
      match alerts_container (document w) with
      | None => (Throw TypeError,
                 with_document (set_next_node (S (next_node (document w)))) w)
      | Some children => (Normal tt, alert_shown type content children w)
      end
  end.
Proof.
  unfold showAlert, createElement, setTimeout, emit, lift, bind, get, modify, ret, throw.
  simpl. destruct (formatAlertContent data) as [content|e]; [|reflexivity].
  destruct (alerts_container (document w)); reflexivity.
Qed.

(** ** Methods that do not read the trace *)

Lemma oblivious_bind {A B} (m : M A) (k : A -> M B) :
  oblivious m -> (forall a, oblivious (k a)) -> oblivious (bind m k).
Proof.
  intros Hm Hk old w. unfold bind. rewrite Hm.
  destruct (m w) as [[a|e] w']; simpl; [apply Hk|reflexivity].
Qed.

Lemma oblivious_lift {A} (c : Completion A) : oblivious (lift c).
Proof. intros old w. reflexivity. Qed.

Lemma oblivious_emit e : oblivious (emit e).
Proof. intros old w. reflexivity. Qed.

Lemma oblivious_throw {A} e : oblivious (@throw A e).
Proof. intros old w. reflexivity. Qed.

Lemma oblivious_showAlert type data : oblivious (showAlert type data).
Proof.
  intros old w. rewrite !showAlert_spec.
  destruct (formatAlertContent data); [|reflexivity]. simpl.
  destruct (alerts_container (document w)); reflexivity.
Qed.

Lemma oblivious_updateThreatStats stats : oblivious (updateThreatStats stats).
Proof.
  intros old w. rewrite !updateThreatStats_spec. simpl.
  destruct (threat_stats (document w)); [destruct (truthy stats)|]; reflexivity.
Qed.

Lemma oblivious_addToEventLog eventType message level :
  oblivious (addToEventLog eventType message level).
Proof.
  intros old w. rewrite !addToEventLog_spec. simpl.
  destruct (event_log (document w)); reflexivity.
Qed.

Lemma oblivious_updateSystemInfo statusData : oblivious (updateSystemInfo statusData).
Proof.
  intros old w. unfold updateSystemInfo, lift, bind, get, modify, ret. simpl.
  destruct (system_info (document w)); [|reflexivity].
  destruct (get_prop "agent_status" statusData) as [v|]; [|reflexivity].
  destruct (truthy v); reflexivity.
Qed.

Ltac oblivious_step :=
  first
    [ apply oblivious_showAlert
    | apply oblivious_updateThreatStats
    | apply oblivious_addToEventLog
    | apply oblivious_updateSystemInfo
    | apply oblivious_lift
    | apply oblivious_emit
    | apply oblivious_throw
    | apply oblivious_bind; [|intros ?]
    | match goal with
      | |- oblivious (if ?c then _ else _) => destruct c
      end ].

Lemma oblivious_handleMessage message : oblivious (handleMessage message).
Proof.
  unfold handleMessage, handleThreatDetected, handleEmergencyResponse,
    handleHighAlertResponse, handleEnhancedMonitoring, handleStatusUpdate,
    handleCommandExecuted, updateDashboard, updateCharts, console_log.
  repeat oblivious_step.
Qed.

(** ** Dispatch *)

Lemma is_str_false lit v : v <> JStr lit -> is_str lit v = false.
Proof.
  destruct v; simpl; try reflexivity. intros H.
  destruct (String.eqb_spec s lit); congruence.
Qed.

Lemma under_retrace w : w = under (trace (window w)) (retrace [] w).
Proof. destruct w as [o d []]. reflexivity. Qed.

(** The one decoded frame without a readable [type] is [null]: reading the
    property throws before the switch is reached. *)
Remark handleMessage_null w : handleMessage JNull w = (Throw TypeError, w).
Proof. reflexivity. Qed.

(** C6: a message whose [type] can be read and is none of the six handled
    types reaches the default case of the switch: [handleMessage] returns
    normally, calls no handler, and changes nothing of the page (so neither the
    event log nor any timer) except for one console line carrying the type.
    A message handled next is handled exactly as it would have been without
    the unknown one: same completion, same resulting page, same effects. *)
Theorem handleMessage_unknown (message messageType : JValue) (w : World) :
  get_prop "type" message = Normal messageType ->
  (forall t, t ∈ handled_types -> messageType <> JStr t) ->
  let line := ConsoleLog [Lit "Unknown message type:"; Hole messageType] in
  handleMessage message w = (Normal tt, traced line w)
  /\ event_log (document (traced line w)) = event_log (document w)
  /\ (forall next, exists c core effs,
        handleMessage next w = (c, retrace (effs ++ trace (window w)) core)
        /\ handleMessage next (traced line w)
           = (c, retrace (effs ++ line :: trace (window w)) core)).
Proof.
  intros Htype Hnot line. split; [|split; [reflexivity|]].
  - unfold handleMessage, bind, lift. rewrite Htype.
    rewrite !is_str_false by (apply Hnot; unfold handled_types; set_solver).
    reflexivity.
  - intros next.
    pose proof (oblivious_handleMessage next (trace (window w)) (retrace [] w)) as H1.
    pose proof (oblivious_handleMessage next (line :: trace (window w)) (retrace [] w)) as H2.
    rewrite <- under_retrace in H1.
    assert (Heq : under (line :: trace (window w)) (retrace [] w) = traced line w)
      by (destruct w as [o d []]; reflexivity).
    rewrite Heq in H2.
    destruct (handleMessage next (retrace [] w)) as [c core]. simpl in H1, H2.
    exists c, core, (trace (window core)). rewrite H1, H2.
    split; destruct core as [o d []]; reflexivity.
Qed.



(** ** The connection methods, as functions on worlds *)

Lemma updateStatus_spec status w : updateStatus status w = (Normal tt, shows status w).
Proof.
  unfold updateStatus, shows, bind, get, modify, ret.
  destruct (agent_status (document w)); reflexivity.
Qed.

Lemma shows_this status w : this (shows status w) = this w.
Proof. unfold shows. destruct (agent_status (document w)); reflexivity. Qed.

Lemma shows_window status w : window (shows status w) = window w.
Proof. unfold shows. destruct (agent_status (document w)); reflexivity. Qed.

Lemma shows_agent_status status w :
  agent_status (document (shows status w))
  = (fun _ => status_html status (isConnected (this w))) <$> agent_status (document w).
Proof. unfold shows. destruct (agent_status (document w)) eqn:E; simpl; rewrite ?E; reflexivity. Qed.

Arguments shows : simpl never.

Ltac shows_simpl :=
  simpl;
  repeat (match goal with
          | |- context [shows ?s ?x] =>
              first [ rewrite (shows_window s x) | rewrite (shows_this s x) ]
          end; simpl).

Lemma attemptReconnect_spec w :
  attemptReconnect w =
  (Normal tt,
   if decide (reconnectAttempts (this w) < maxReconnectAttempts (this w))
   then reconnect_scheduled w
   else shows "failed" (traced (ConsoleError [Lit "Max reconnection attempts reached"]) w)).
Proof.
  unfold attemptReconnect, bind, get.
  destruct (decide (reconnectAttempts (this w) < maxReconnectAttempts (this w))).
  - reflexivity.
  - unfold console_error, emit, modify. simpl. rewrite updateStatus_spec. reflexivity.
Qed.

Lemma connectWebSocket_spec accepted w :
  connectWebSocket accepted w =
  if accepted then (Normal tt, socket_created w)
  else attemptReconnect
         (traced (ConsoleError [Lit "Failed to connect WebSocket:"; Lit "SyntaxError"]) w).
Proof.
  unfold connectWebSocket, try_catch, new_WebSocket, bind, get.
  destruct accepted; reflexivity.
Qed.

Lemma onopen_spec w :
  onopen w =
  requestStatusUpdate
    (shows "connected"
       (with_this (fun o => set_reconnectAttempts 0 (set_isConnected true o))
          (traced (ConsoleLog [Lit connected_line]) w))).
Proof.
  unfold onopen, bind, console_log, emit, modify. simpl.
  rewrite updateStatus_spec. reflexivity.
Qed.

Lemma onclose_spec w :
  onclose w =
  attemptReconnect
    (shows "disconnected"
       (with_this (set_isConnected false)
          (traced (ConsoleLog [Lit "❌ Disconnected from agent dashboard"]) w))).
Proof.
  unfold onclose, bind, console_log, emit, modify. simpl.
  rewrite updateStatus_spec. reflexivity.
Qed.

Lemma onerror_spec w :
  onerror w =
  (Normal tt,
   shows "error" (traced (ConsoleError [Lit "WebSocket error:"; Lit "[object Event]"]) w)).
Proof.
  unfold onerror, bind, console_error, emit, modify. simpl.
  rewrite updateStatus_spec. reflexivity.
Qed.

(** ** Sockets and timers: counting *)

Lemma live_insert (l : list ReadyState) k st st' :
  l !! k = Some st ->
  length (List.filter live (<[k:=st']> l)) + Nat.b2n (live st)
  = length (List.filter live l) + Nat.b2n (live st').
Proof.
  revert k. induction l as [|x l IH]; intros [|k] H; simpl in *; try discriminate.
  - injection H as ->. destruct (live st), (live st'); simpl; lia.
  - specialize (IH k H). destruct (live x); simpl; lia.
Qed.

Lemma live_none (l : list ReadyState) :
  length (List.filter live l) = 0 ->
  forall k st, l !! k = Some st -> live st = false.
Proof.
  induction l as [|x l IH]; intros Hlen [|k] st H; simpl in *; try discriminate.
  - injection H as <-. destruct (live x); [discriminate|reflexivity].
  - destruct (live x); [discriminate|]. eapply IH; eauto.
Qed.

Lemma live_pos (l : list ReadyState) k st :
  l !! k = Some st -> live st = true -> 0 < length (List.filter live l).
Proof.
  intros H Hl. destruct (length (List.filter live l)) eqn:E; [|lia].
  rewrite (live_none l E k st H) in Hl. discriminate.
Qed.

Lemma find_timer_Some {C} id (ts : list (Timer C)) t :
  find_timer id ts = Some t -> t ∈ ts /\ tid t = id.
Proof.
  intros H. apply List.find_some in H. destruct H as [Hin Heq].
  split; [apply list_elem_of_In; exact Hin|]. apply Nat.eqb_eq. exact Heq.
Qed.

Lemma clear_timer_connect (ts : list (Timer Callback)) t :
  t ∈ ts -> is_connect t = true ->
  length (List.filter is_connect (clear_timer (tid t) ts))
  < length (List.filter is_connect ts).
Proof.
  induction ts as [|u ts IH]; intros Hin Hc; [inversion Hin|].
  assert (Hle : forall l : list (Timer Callback),
             length (List.filter is_connect (clear_timer (tid t) l))
             <= length (List.filter is_connect l)).
  { induction l as [|v l IHl]; simpl; [lia|].
    destruct (negb (tid v =? tid t)); simpl; destruct (is_connect v); simpl; lia. }
  apply elem_of_cons in Hin. destruct Hin as [<- | Hin].
  - simpl. rewrite Nat.eqb_refl. simpl. rewrite Hc. simpl.
    specialize (Hle ts). lia.
  - specialize (IH Hin Hc). simpl.
    destruct (negb (tid u =? tid t)); simpl; destruct (is_connect u); simpl;
      specialize (Hle ts); lia.
Qed.

Lemma clear_timer_other (ts : list (Timer Callback)) t :
  NoDup (tid <$> ts) -> t ∈ ts -> is_connect t = false ->
  List.filter is_connect (clear_timer (tid t) ts) = List.filter is_connect ts.
Proof.
  induction ts as [|u ts IH]; intros Hnd Hin Hc; [reflexivity|].
  rewrite fmap_cons in Hnd. apply NoDup_cons in Hnd. destruct Hnd as [Hu Hnd].
  assert (Hfresh : forall l : list (Timer Callback), tid t ∉ (tid <$> l) ->
             clear_timer (tid t) l = l).
  { induction l as [|v l IHl]; intros Hn; [reflexivity|].
    rewrite fmap_cons in Hn. apply not_elem_of_cons in Hn. destruct Hn as [Hne Hn].
    simpl. destruct (Nat.eqb_spec (tid v) (tid t)); [congruence|].
    simpl. f_equal. apply IHl. exact Hn. }
  apply elem_of_cons in Hin. destruct Hin as [<- | Hin].
  - simpl. rewrite Nat.eqb_refl. simpl. rewrite Hc. rewrite Hfresh by exact Hu.
    reflexivity.
  - simpl. destruct (Nat.eqb_spec (tid u) (tid t)) as [Heq|Hne].
    + exfalso. apply Hu. rewrite Heq. apply list_elem_of_fmap_2. exact Hin.
    + simpl. rewrite (IH Hnd Hin Hc). reflexivity.
Qed.

Lemma timers_ok_add next ts t :
  timers_ok next ts -> tid t = next -> period t = None ->
  timers_ok (S next) (ts ++ [t]).
Proof.
  intros [Hnd Hall] Hid Hp. split.
  - rewrite fmap_app. apply NoDup_app. split; [exact Hnd|]. split.
    + intros x Hx Hin. simpl in Hin. apply list_elem_of_singleton in Hin.
      apply list_elem_of_fmap in Hx. destruct Hx as (u & -> & Hu).
      rewrite Forall_forall in Hall. apply Hall in Hu. lia.
    + simpl. apply NoDup_singleton.
  - apply Forall_app. split.
    + eapply Forall_impl; [exact Hall|]. simpl. intros u [? ?]. split; [lia|assumption].
    + constructor; [|constructor]. split; [lia|assumption].
Qed.

Lemma timers_ok_clear next ts id :
  timers_ok next ts -> timers_ok next (clear_timer id ts).
Proof.
  intros [Hnd Hall]. induction ts as [|t ts IH]; [split; constructor|].
  rewrite fmap_cons in Hnd. apply NoDup_cons in Hnd. destruct Hnd as [Ht Hnd].
  apply Forall_cons in Hall. destruct Hall as [Hlt Hall].
  destruct (IH Hnd Hall) as [IHnd IHall]. simpl.
  destruct (negb (tid t =? id)); [|split; assumption]. split.
  - rewrite fmap_cons. apply NoDup_cons. split; [|exact IHnd].
    intros Hin. apply Ht. apply list_elem_of_fmap in Hin.
    destruct Hin as (u & -> & Hu). apply list_elem_of_fmap_2.
    apply list_elem_of_In. apply list_elem_of_In, List.filter_In in Hu. tauto.
  - constructor; assumption.
Qed.

(** ** Methods that leave the connection alone *)

Lemma quiet_bind {A B} (m : M A) (k : A -> M B) :
  quiet m -> (forall a, quiet (k a)) -> quiet (bind m k).
Proof.
  intros Hm Hk w. unfold bind. destruct (Hm w) as [Hv Hw].
  destruct (m w) as [[a|e] w']; simpl in *; [|split; assumption].
  destruct (Hk a w') as [Hv' Hw']. split; [congruence|auto].
Qed.

Lemma quiet_lift {A} (c : Completion A) : quiet (lift c).
Proof. intros w. split; auto. Qed.

Lemma quiet_throw {A} e : quiet (@throw A e).
Proof. intros w. split; auto. Qed.

Lemma quiet_showAlert type data : quiet (showAlert type data).
Proof.
  intros w. rewrite showAlert_spec.
  destruct (formatAlertContent data); [|split; auto].
  destruct (alerts_container (document w)); [|split; auto].
  split.
  - unfold conn_view. simpl. rewrite List.filter_app. simpl.
    rewrite app_nil_r. reflexivity.
  - intros H. apply timers_ok_add; [exact H|reflexivity|reflexivity].
Qed.

Lemma quiet_updateThreatStats stats : quiet (updateThreatStats stats).
Proof.
  intros w. rewrite updateThreatStats_spec. simpl.
  destruct (threat_stats (document w)); [destruct (truthy stats)|]; split; auto.
Qed.

Lemma quiet_addToEventLog eventType message level :
  quiet (addToEventLog eventType message level).
Proof.
  intros w. rewrite addToEventLog_spec.
  destruct (event_log (document w)); split; auto.
Qed.

Lemma quiet_updateSystemInfo statusData : quiet (updateSystemInfo statusData).
Proof.
  intros w. unfold updateSystemInfo, lift, bind, get, modify, ret. simpl.
  destruct (system_info (document w)); [|split; auto].
  destruct (get_prop "agent_status" statusData) as [v|]; [|split; auto].
  destruct (truthy v); split; auto.
Qed.

Lemma quiet_unknown messageType :
  quiet (console_log [Lit "Unknown message type:"; Hole messageType]).
Proof. intros w. split; auto. Qed.

Lemma quiet_sendMessage message : quiet (sendMessage message).
Proof.
  intros w. rewrite sendMessage_spec.
  destruct (ws (this w)) as [sock|]; [|split; auto].
  destruct (isConnected (this w)); [|split; auto].
  destruct (sockets (window w) !! sock) as [[]|]; split; auto.
Qed.

Lemma quiet_removeAlert node : quiet (removeAlert node).
Proof.
  intros w. unfold removeAlert, bind, get, modify, ret.
  destruct (alerts_container (document w)); split; auto.
Qed.

Ltac quiet_step :=
  first
    [ apply quiet_showAlert
    | apply quiet_updateThreatStats
    | apply quiet_addToEventLog
    | apply quiet_updateSystemInfo
    | apply quiet_unknown
    | apply quiet_lift
    | apply quiet_throw
    | apply quiet_bind; [|intros ?]
    | match goal with
      | |- quiet (if ?c then _ else _) => destruct c
      end ].

Lemma quiet_handleMessage message : quiet (handleMessage message).
Proof.
  unfold handleMessage, handleThreatDetected, handleEmergencyResponse,
    handleHighAlertResponse, handleEnhancedMonitoring, handleStatusUpdate,
    handleCommandExecuted, updateDashboard, updateCharts.
  repeat quiet_step.
Qed.

Lemma quiet_onmessage data : quiet (onmessage data).
Proof. destruct data; [apply quiet_handleMessage|apply quiet_throw]. Qed.

Lemma quiet_click b : quiet (click b).
Proof. destruct b; apply quiet_sendMessage. Qed.

Lemma conn_inv_quiet w w' :
  conn_view w' = conn_view w -> timers_wf w' -> conn_inv w -> conn_inv w'.
Proof.
  unfold conn_view. intros Hv Hwf [].
  injection Hv as Hthis Hsock Htim Hstat Htr.
  assert (Hl : n_live w' = n_live w) by (unfold n_live; congruence).
  assert (Hr : n_reconnect w' = n_reconnect w) by (unfold n_reconnect; congruence).
  constructor; unfold Failed in *; rewrite ?Hthis, ?Hsock, ?Hstat, ?Htr, ?Hl, ?Hr;
    assumption.
Qed.

(** ** The connection invariant *)

Lemma no_live_socket w :
  n_live w = 0 -> forall k st, sockets (window w) !! k = Some st -> live st = false.
Proof. unfold n_live. apply live_none. Qed.

(** [attemptReconnect] from a state with nothing outstanding. *)
Lemma conn_inv_attemptReconnect w :
  n_live w = 0 -> n_reconnect w = 0 -> isConnected (this w) = false ->
  maxReconnectAttempts (this w) = 5 ->
  reconnectAttempts (this w) <= maxReconnectAttempts (this w) ->
  reconnectAttempts (this w) = reconnects_made (trace (window w)) ->
  timers_wf w ->
  conn_inv (snd (attemptReconnect w)).
Proof.
  intros Hl Hr Hc Hmax Hle Hcount Hwf. rewrite attemptReconnect_spec. simpl.
  pose proof (no_live_socket w Hl) as Hdead.
  destruct (decide (reconnectAttempts (this w) < maxReconnectAttempts (this w)))
    as [Hlt|Hge].
  - constructor; unfold Failed, n_live, n_reconnect in *; simpl.
    + rewrite List.filter_app, length_app. simpl. lia.
    + intros k st H Hlive. rewrite (Hdead k st H) in Hlive. discriminate.
    + intros k H. specialize (Hdead k Open H). discriminate.
    + intros H. congruence.
    + exact Hmax.
    + lia.
    + congruence.
    + rewrite List.filter_app, length_app. simpl. intros [_ H]. lia.
    + apply timers_ok_add; [exact Hwf|reflexivity|reflexivity].
  - constructor; unfold Failed, n_live, n_reconnect in *;
      rewrite ?shows_this, ?shows_window; simpl.
    + lia.
    + intros k st H Hlive. rewrite (Hdead k st H) in Hlive. discriminate.
    + intros k H. specialize (Hdead k Open H). discriminate.
    + intros H. congruence.
    + exact Hmax.
    + exact Hle.
    + exact Hcount.
    + intros _ panel. rewrite shows_agent_status. simpl. rewrite Hc.
      destruct (agent_status (document w)); simpl; congruence.
    + unfold timers_wf. rewrite shows_window. exact Hwf.
Qed.

Lemma conn_inv_constructor page protocol host t0 accepted :
  conn_inv (constructor page protocol host t0 accepted).
Proof.
  unfold constructor, initializeDashboard, bind. rewrite updateStatus_spec.
  rewrite connectWebSocket_spec. destruct accepted.
  - cbn [snd]. constructor; unfold Failed, n_live, n_reconnect, timers_wf, socket_created;
      cbn; shows_simpl; cbn; try (reflexivity || lia).
    + intros [|k] st H Hl; [reflexivity|destruct k; discriminate].
    + intros [|k] H; [discriminate|destruct k; discriminate].
    + split; constructor.
  - apply conn_inv_attemptReconnect; unfold n_live, n_reconnect, timers_wf; cbn;
      shows_simpl; cbn; try (reflexivity || lia).
    split; constructor.
Qed.

Lemma conn_inv_open w k :
  conn_inv w -> sockets (window w) !! k = Some Connecting ->
  conn_inv (snd (onopen (set_socket k Open w))).
Proof.
  intros [] Hk. rewrite onopen_spec. unfold requestStatusUpdate.
  destruct (quiet_sendMessage (command "GET_STATUS")
    (shows "connected"
       (with_this (fun o => set_reconnectAttempts 0 (set_isConnected true o))
          (traced (ConsoleLog [Lit connected_line]) (set_socket k Open w)))))
    as [Hv Hwf].
  eapply conn_inv_quiet; [exact Hv| |].
  { apply Hwf. unfold timers_wf. rewrite shows_window. exact inv_timers0. }
  pose proof (live_insert _ k Connecting Open Hk) as Hins. simpl in Hins.
  constructor; unfold Failed, n_live, n_reconnect in *;
    rewrite ?shows_this, ?shows_window; simpl.
  - lia.
  - intros k' st H Hlive. destruct (decide (k = k')) as [<-|Hne].
    + apply (inv_ws0 k Connecting Hk). reflexivity.
    + rewrite list_lookup_insert_ne in H by exact Hne. eauto.
  - reflexivity.
  - intros _. exists k. split; [apply (inv_ws0 k Connecting Hk); reflexivity|].
    apply list_lookup_insert_eq. eapply lookup_lt_Some. exact Hk.
  - exact inv_max0.
  - lia.
  - reflexivity.
  - intros [H _]. exfalso.
    assert (0 < length (List.filter live (<[k:=Open]> (sockets (window w))))).
    { eapply (live_pos _ k Open); [|reflexivity].
      apply list_lookup_insert_eq. eapply lookup_lt_Some. exact Hk. }
    lia.
  - unfold timers_wf. rewrite shows_window. exact inv_timers0.
Qed.

Lemma conn_inv_close w k st :
  conn_inv w -> sockets (window w) !! k = Some st -> live st = true ->
  conn_inv (snd (onclose (set_socket k Closed w))).
Proof.
  intros [] Hk Hlive. rewrite onclose_spec.
  pose proof (live_insert _ k st Closed Hk) as Hins. rewrite Hlive in Hins.
  simpl in Hins. unfold n_live, n_reconnect in *.
  apply conn_inv_attemptReconnect; unfold n_live, n_reconnect, timers_wf;
    rewrite ?shows_this, ?shows_window; simpl; try assumption; lia.
Qed.

Lemma conn_inv_error w k st :
  conn_inv w -> sockets (window w) !! k = Some st -> live st = true ->
  conn_inv (snd (onerror w)).
Proof.
  intros [] Hk Hlive. rewrite onerror_spec. simpl.
  constructor; unfold Failed, n_live, n_reconnect, timers_wf in *;
    rewrite ?shows_this, ?shows_window; simpl; try assumption.
  intros [H _]. exfalso. pose proof (live_pos _ k st Hk Hlive). lia.
Qed.

Lemma after_fire_timeout (ts : list (Timer Callback)) next t :
  timers_ok next ts -> t ∈ ts -> after_fire t ts = clear_timer (tid t) ts.
Proof.
  intros [_ Hall] Hin. rewrite Forall_forall in Hall.
  destruct (Hall t Hin) as [_ Hp]. unfold after_fire. rewrite Hp. reflexivity.
Qed.

Lemma conn_inv_timer w id accepted t :
  conn_inv w -> find_timer id (timers (window w)) = Some t ->
  conn_inv (snd (run_callback (callback t) accepted
                   (with_window (fun b => set_timers (after_fire t (timers b)) b) w))).
Proof.
  intros Hinv Hfind. pose proof Hinv as [].
  apply find_timer_Some in Hfind. destruct Hfind as [Hin _].
  set (w1 := with_window _ w).
  assert (Htimers : timers (window w1) = clear_timer (tid t) (timers (window w))).
  { subst w1. simpl. eapply after_fire_timeout; eauto. }
  assert (Hwf1 : timers_wf w1).
  { unfold timers_wf. rewrite Htimers. apply timers_ok_clear. exact inv_timers0. }
  destruct (callback t) eqn:Hcb; simpl.
  - (* () => this.connectWebSocket() *)
    assert (Hc : is_connect t = true) by (unfold is_connect; rewrite Hcb; reflexivity).
    pose proof (clear_timer_connect _ t Hin Hc) as Hless.
    assert (Hr1 : n_reconnect w1 = 0).
    { unfold n_reconnect in *. rewrite Htimers. lia. }
    assert (Hl1 : n_live w1 = 0) by (unfold n_live, n_reconnect in *; simpl; lia).
    assert (Hoff : isConnected (this w) = false).
    { destruct (isConnected (this w)) eqn:E; [|reflexivity].
      destruct (inv_connected0 eq_refl) as (k & _ & Hk).
      pose proof (live_pos _ k Open Hk eq_refl). unfold n_live in *. simpl in *. lia. }
    pose proof (no_live_socket w1 Hl1) as Hdead.
    rewrite connectWebSocket_spec. destruct accepted.
    + simpl. constructor; unfold Failed, n_live, n_reconnect in *; simpl in *.
      * rewrite List.filter_app, length_app. simpl. lia.
      * intros k st H Hlive. apply lookup_app_Some in H.
        destruct H as [H | [Hlen H]].
        -- rewrite (Hdead k st H) in Hlive. discriminate.
        -- destruct (k - length (sockets (window w))) eqn:E; [|destruct n; discriminate].
           f_equal. lia.
      * intros k H. apply lookup_app_Some in H. destruct H as [H | [Hlen H]].
        -- specialize (Hdead k Open H). discriminate.
        -- destruct (k - length (sockets (window w))); [discriminate|].
           destruct n; discriminate.
      * intros H. congruence.
      * exact inv_max0.
      * exact inv_attempts0.
      * exact inv_count0.
      * rewrite List.filter_app, length_app. simpl. intros [H _]. lia.
      * exact Hwf1.
    + apply conn_inv_attemptReconnect; try assumption.
  - (* the removal of an alert *)
    assert (Hc : is_connect t = false) by (unfold is_connect; rewrite Hcb; reflexivity).
    destruct (quiet_removeAlert node w1) as [Hv Hwf].
    eapply conn_inv_quiet; [| apply Hwf; exact Hwf1 | exact Hinv].
    rewrite Hv. unfold conn_view. rewrite Htimers.
    rewrite (clear_timer_other _ t (proj1 inv_timers0) Hin Hc). reflexivity.
Qed.

Lemma step_conn_inv e w w' : step e w = Some w' -> conn_inv w -> conn_inv w'.
Proof.
  intros Hstep Hinv. destruct e as [k|k data|k|k|id accepted|dt|b]; simpl in Hstep.
  - destruct (sockets (window w) !! k) as [[]|] eqn:Hk; try discriminate.
    injection Hstep as <-. apply conn_inv_open; assumption.
  - destruct (sockets (window w) !! k) as [[]|] eqn:Hk; try discriminate.
    injection Hstep as <-. destruct (quiet_onmessage data w) as [Hv Hwf].
    eapply conn_inv_quiet; [exact Hv|apply Hwf, Hinv|exact Hinv].
  - destruct (sockets (window w) !! k) as [[]|] eqn:Hk; try discriminate;
      injection Hstep as <-; eapply conn_inv_error; eauto.
  - destruct (sockets (window w) !! k) as [[]|] eqn:Hk; try discriminate;
      injection Hstep as <-; eapply conn_inv_close; eauto.
  - destruct (find_timer id (timers (window w))) as [t|] eqn:Hfind; [|discriminate].
    destruct (decide (due t <= now (window w))%N); [|discriminate].
    injection Hstep as <-. eapply conn_inv_timer; eauto.
  - injection Hstep as <-. eapply conn_inv_quiet; [|apply Hinv|exact Hinv]. reflexivity.
  - injection Hstep as <-. destruct (quiet_click b w) as [Hv Hwf].
    eapply conn_inv_quiet; [exact Hv|apply Hwf, Hinv|exact Hinv].
Qed.

Lemma run_conn_inv es : forall w w', run es w = Some w' -> conn_inv w -> conn_inv w'.
Proof.
  induction es as [|e es IH]; simpl; intros w w' Hrun Hinv.
  - injection Hrun as <-. exact Hinv.
  - destruct (step e w) as [w1|] eqn:Hstep; [|discriminate].
    eapply IH; [exact Hrun|]. eapply step_conn_inv; eauto.
Qed.

Lemma reachable_conn_inv w : reachable w -> conn_inv w.
Proof.
  intros (page & protocol & host & t0 & accepted & es & _ & Hrun).
  eapply run_conn_inv; [exact Hrun|]. apply conn_inv_constructor.
Qed.

(** ** Reconnection *)

Lemma step_close w k w' :
  step (EvClose k) w = Some w' ->
  (exists st, sockets (window w) !! k = Some st /\ live st = true)
  /\ w' = if decide (reconnectAttempts (this w) < maxReconnectAttempts (this w))
          then reconnect_scheduled (after_close k w)
          else shows "failed"
                 (traced (ConsoleError [Lit "Max reconnection attempts reached"])
                    (after_close k w)).
Proof.
  simpl. intros H.
  assert (Hw : w' = snd (onclose (set_socket k Closed w))
               /\ exists st, sockets (window w) !! k = Some st /\ live st = true).
  { destruct (sockets (window w) !! k) as [[]|]; try discriminate;
      injection H as <-; (split; [reflexivity|eexists; split; reflexivity]). }
  destruct Hw as [-> Hst]. split; [exact Hst|].
  rewrite onclose_spec, attemptReconnect_spec. fold (after_close k w). cbn [snd].
  assert (Ha : reconnectAttempts (this (after_close k w)) = reconnectAttempts (this w))
    by (unfold after_close; rewrite shows_this; reflexivity).
  assert (Hm : maxReconnectAttempts (this (after_close k w))
               = maxReconnectAttempts (this w))
    by (unfold after_close; rewrite shows_this; reflexivity).
  destruct (decide (reconnectAttempts (this (after_close k w))
                    < maxReconnectAttempts (this (after_close k w)))),
    (decide (reconnectAttempts (this w) < maxReconnectAttempts (this w)));
    try reflexivity; exfalso; lia.
Qed.

Lemma step_open w k w' :
  step (EvOpen k) w = Some w' ->
  sockets (window w) !! k = Some Connecting
  /\ w' = snd (onopen (set_socket k Open w)).
Proof.
  simpl. destruct (sockets (window w) !! k) as [[]|]; try discriminate.
  intros H. injection H as <-. split; reflexivity.
Qed.

Lemma reachable_step e w w' : reachable w -> step e w = Some w' -> reachable w'.
Proof.
  intros (page & protocol & host & t0 & accepted & es & Hpage & Hrun) Hstep.
  exists page, protocol, host, t0, accepted, (es ++ [e]). split; [exact Hpage|].
  revert Hrun. generalize (constructor page protocol host t0 accepted).
  induction es as [|e' es IH]; simpl; intros w0 Hrun.
  - injection Hrun as ->. rewrite Hstep. reflexivity.
  - destruct (step e' w0); [|discriminate]. apply IH. exact Hrun.
Qed.

(** C2: in every state the page can reach, [reconnectAttempts] is the number
    of reconnections scheduled since the last successful connection (since the
    page was loaded when there was none) and is at most [maxReconnectAttempts],
    which is 5.  A close event adds one to it exactly when it schedules a
    reconnection, and every open event sets it back to 0. *)
Theorem reconnectAttempts_counts (w : World) :
  reachable w ->
  reconnectAttempts (this w) = reconnects_made (trace (window w))
  /\ reconnectAttempts (this w) <= maxReconnectAttempts (this w)
  /\ maxReconnectAttempts (this w) = 5
  /\ (forall k w', step (EvClose k) w = Some w' ->
        reconnectAttempts (this w') = Nat.min (S (reconnectAttempts (this w))) 5
        /\ reconnects_made (trace (window w'))
           = Nat.min (S (reconnects_made (trace (window w)))) 5)
  /\ (forall k w', step (EvOpen k) w = Some w' ->
        isConnected (this w') = true
        /\ reconnectAttempts (this w') = 0
        /\ reconnects_made (trace (window w')) = 0).
Proof.
  intros Hreach. pose proof (reachable_conn_inv w Hreach) as [].
  split; [assumption|]. split; [assumption|]. split; [assumption|]. split.
  - intros k w' Hstep.
    pose proof (reachable_conn_inv w' (reachable_step _ _ _ Hreach Hstep)) as Hinv'.
    rewrite <- (inv_count _ Hinv'), <- inv_count0.
    assert (reconnectAttempts (this w') = Nat.min (S (reconnectAttempts (this w))) 5);
      [|split; assumption].
    apply step_close in Hstep. destruct Hstep as [_ ->].
    destruct (decide (reconnectAttempts (this w) < maxReconnectAttempts (this w))).
    + rewrite Nat.min_l by lia.
      unfold after_close. simpl. shows_simpl. reflexivity.
    + rewrite Nat.min_r by lia.
      unfold after_close. shows_simpl. simpl. lia.
  - intros k w' Hstep.
    pose proof (reachable_conn_inv w' (reachable_step _ _ _ Hreach Hstep)) as Hinv'.
    rewrite <- (inv_count _ Hinv').
    apply step_open in Hstep. destruct Hstep as [_ ->].
    rewrite onopen_spec. unfold requestStatusUpdate.
    match goal with
    | |- context [sendMessage ?m ?x] =>
        destruct (quiet_sendMessage m x) as [Hv _]
    end.
    unfold conn_view in Hv. injection Hv as Hthis _ _ _ _.
    rewrite Hthis, shows_this. simpl. auto.
Qed.

Lemma find_timer_fresh (ts : list (Timer Callback)) t next :
  timers_ok next ts -> tid t = next -> find_timer next (ts ++ [t]) = Some t.
Proof.
  intros [_ Hall] Hid. unfold find_timer.
  induction ts as [|u ts IH]; simpl.
  - rewrite Hid, Nat.eqb_refl. reflexivity.
  - apply Forall_cons in Hall. destruct Hall as [[Hlt _] Hall].
    destruct (Nat.eqb_spec (tid u) next); [lia|]. apply IH. exact Hall.
Qed.

(** Once failed, nothing the browser can deliver touches the connection. *)
Lemma failed_step e w w' :
  conn_inv w -> Failed w -> step e w = Some w' -> conn_view w' = conn_view w.
Proof.
  intros Hinv [Hl Hr] Hstep. pose proof Hinv as [].
  pose proof (no_live_socket w Hl) as Hdead.
  destruct e as [k|k data|k|k|id accepted|dt|b]; simpl in Hstep.
  - destruct (sockets (window w) !! k) as [[]|] eqn:Hk; try discriminate.
    specialize (Hdead _ _ Hk). discriminate.
  - destruct (sockets (window w) !! k) as [[]|] eqn:Hk; try discriminate.
    specialize (Hdead _ _ Hk). discriminate.
  - destruct (sockets (window w) !! k) as [[]|] eqn:Hk; try discriminate;
      specialize (Hdead _ _ Hk); discriminate.
  - destruct (sockets (window w) !! k) as [[]|] eqn:Hk; try discriminate;
      specialize (Hdead _ _ Hk); discriminate.
  - destruct (find_timer id (timers (window w))) as [t|] eqn:Hfind; [|discriminate].
    destruct (decide (due t <= now (window w))%N); [|discriminate].
    injection Hstep as <-. apply find_timer_Some in Hfind. destruct Hfind as [Hin _].
    assert (Hc : is_connect t = false).
    { destruct (is_connect t) eqn:E; [|reflexivity]. exfalso.
      pose proof (clear_timer_connect _ t Hin E). unfold n_reconnect in Hr. lia. }
    unfold is_connect in Hc. destruct (callback t) eqn:Hcb; [discriminate|]. simpl.
    match goal with
    | |- context [removeAlert ?n ?x] => destruct (quiet_removeAlert n x) as [Hv _]
    end.
    rewrite Hv. unfold conn_view. simpl.
    rewrite (after_fire_timeout _ _ t inv_timers0 Hin).
    rewrite (clear_timer_other _ t (proj1 inv_timers0) Hin);
      [reflexivity|unfold is_connect; rewrite Hcb; reflexivity].
  - injection Hstep as <-. reflexivity.
  - injection Hstep as <-. apply quiet_click.
Qed.

Lemma failed_view w w' : conn_view w' = conn_view w -> Failed w -> Failed w'.
Proof.
  unfold conn_view, Failed, n_live, n_reconnect. intros Hv H.
  injection Hv as _ -> -> _ _. exact H.
Qed.

Lemma failed_run es : forall w w',
  conn_inv w -> Failed w -> run es w = Some w' -> conn_view w' = conn_view w.
Proof.
  induction es as [|e es IH]; simpl; intros w w' Hinv Hf Hrun.
  - injection Hrun as <-. reflexivity.
  - destruct (step e w) as [w1|] eqn:Hstep; [|discriminate].
    pose proof (failed_step e w w1 Hinv Hf Hstep) as Hv.
    rewrite <- Hv. apply IH; [|eapply failed_view; eauto|exact Hrun].
    eapply step_conn_inv; eauto.
Qed.

(** C3, as the code has it.  A close event with [reconnectAttempts] below 5
    adds one to the counter at once and schedules exactly one call of
    [connectWebSocket], due 3000 ms later whatever the counter is; that timer
    cannot fire before then.  A close event with the counter at 5 schedules
    nothing and leaves the page failed: the status panel says 'failed', no
    socket is alive and no reconnection is pending.  The failed state is
    terminal: whatever the browser delivers afterwards, the page stays failed
    and no socket is ever made again.  Counting from the page load, the sixth
    connection attempt in a row to fail (the first one and five reconnections)
    is the one that leaves the page failed; after fewer it is not.  After a
    connection that had opened is lost, it is the fifth failed attempt. *)
Theorem reconnect_policy (w : World) :
  reachable w ->
  (forall k w', step (EvClose k) w = Some w' -> reconnectAttempts (this w) < 5 ->
     reconnectAttempts (this w') = S (reconnectAttempts (this w))
     /\ timers (window w')
        = timers (window w)
          ++ [{| tid := next_timer (window w); due := (now (window w) + 3000)%N;
                 period := None; callback := CbConnect |}]
     /\ n_reconnect w' = 1
     /\ (forall accepted, step (EvTimer (next_timer (window w)) accepted) w' = None))
  /\ (forall k w', step (EvClose k) w = Some w' -> reconnectAttempts (this w) = 5 ->
        Failed w'
        /\ timers (window w') = timers (window w)
        /\ agent_status (document w')
           = (fun _ => status_html "failed" false) <$> agent_status (document w))
  /\ (Failed w -> forall es w', run es w = Some w' ->
        Failed w'
        /\ sockets (window w') = sockets (window w)
        /\ this w' = this w
        /\ agent_status (document w') = agent_status (document w))
  /\ (forall n, n < 6 ->
        is_Some (run (failed_attempts n) fresh_world)
        /\ ~ Failed (world_after (failed_attempts n)))
  /\ is_Some (run (failed_attempts 6) fresh_world)
  /\ Failed (world_after (failed_attempts 6))
  /\ agent_status (document (world_after (failed_attempts 6)))
     = Some (status_html "failed" false)
  /\ is_Some (run (lost_then_failed 4) fresh_world)
  /\ ~ Failed (world_after (lost_then_failed 4))
  /\ is_Some (run (lost_then_failed 5) fresh_world)
  /\ Failed (world_after (lost_then_failed 5)).
Proof.
  intros Hreach. pose proof (reachable_conn_inv w Hreach) as Hinv.
  pose proof Hinv as [].
  split; [|split; [|split; [|split; [|split;
    [|split; [|split; [|split; [|split; [|split]]]]]]]]].
  - intros k w' Hstep Hlt.
    pose proof (reachable_conn_inv w' (reachable_step _ _ _ Hreach Hstep)) as Hinv'.
    apply step_close in Hstep. destruct Hstep as [(st & Hk & Hlive) ->].
    destruct (decide (reconnectAttempts (this w) < maxReconnectAttempts (this w)));
      [|lia].
    pose proof (live_insert _ k st Closed Hk) as Hins. rewrite Hlive in Hins.
    simpl in Hins. unfold n_live, n_reconnect in *.
    unfold after_close, reconnect_scheduled, reconnect_timer. shows_simpl.
    split; [reflexivity|]. split; [reflexivity|]. split.
    + rewrite List.filter_app, length_app. simpl. lia.
    + intros accepted.
      rewrite (find_timer_fresh (timers (window w))
                 {| tid := next_timer (window w); due := (now (window w) + 3000)%N;
                    period := None; callback := CbConnect |}
                 _ inv_timers0 eq_refl).
      simpl.
      destruct (decide (now (window w) + 3000 <= now (window w))%N); [lia|reflexivity].
  - intros k w' Hstep Heq.
    apply step_close in Hstep. destruct Hstep as [(st & Hk & Hlive) ->].
    destruct (decide (reconnectAttempts (this w) < maxReconnectAttempts (this w)));
      [lia|].
    pose proof (live_insert _ k st Closed Hk) as Hins. rewrite Hlive in Hins.
    simpl in Hins. unfold Failed, n_live, n_reconnect in *.
    rewrite shows_agent_status. unfold after_close. shows_simpl.
    split; [lia|]. split; [reflexivity|].
    rewrite shows_agent_status. shows_simpl.
    destruct (agent_status (document w)); reflexivity.
  - intros Hf es w' Hrun. pose proof (failed_run es w w' Hinv Hf Hrun) as Hv.
    split; [eapply failed_view; eauto|].
    unfold conn_view in Hv. injection Hv as -> -> _ -> _. auto.
  - intros n Hn.
    assert (Hcases : n = 0 \/ n = 1 \/ n = 2 \/ n = 3 \/ n = 4 \/ n = 5) by lia.
    destruct Hcases as [-> | [-> | [-> | [-> | [-> | ->]]]]];
      (split; [vm_compute; eexists; reflexivity|];
       intros [H1 H2]; vm_compute in H1, H2; discriminate).
  - vm_compute. eexists. reflexivity.
  - split; vm_compute; reflexivity.
  - vm_compute. reflexivity.
  - vm_compute. eexists. reflexivity.
  - intros [H1 H2]. vm_compute in H2. discriminate.
  - vm_compute. eexists. reflexivity.
  - split; vm_compute; reflexivity.
Qed.

(** C3 as the specification states it fails when the attempts are counted
    from the page load: after exactly five consecutive failed connection
    attempts (the first one and four reconnections) the page is not failed.  The counter has just reached 5, the panel says
    'disconnected', and a fifth reconnection is scheduled. *)
Lemma five_failures_not_failed :
  let w := world_after (failed_attempts 5) in
  is_Some (run (failed_attempts 5) fresh_world)
  /\ length (sockets (window w)) = 5
  /\ reconnectAttempts (this w) = 5
  /\ agent_status (document w) = Some (status_html "disconnected" false)
  /\ n_reconnect w = 1
  /\ ~ Failed w.
Proof.
  cbv zeta. split; [vm_compute; eexists; reflexivity|].
  repeat split; try (vm_compute; reflexivity).
  intros [H1 H2]. vm_compute in H2. discriminate.
Qed.

(** ** The gate on outbound commands *)

(** C5, as the code has it: while [this.ws] is null or [isConnected] is false,
    [sendMessage] passes nothing to the socket, throws nothing and returns
    nothing: its only effect is the console line 'WebSocket not connected'.
    With [this.ws] set, [isConnected] true and the socket open, its only effect
    is [ws.send] of the command on that socket; in every state the page can
    reach, [isConnected] alone implies the rest. *)
Theorem sendMessage_gated (message : JValue) (w : World) :
  (ws (this w) = None \/ isConnected (this w) = false ->
     sendMessage message w = (Normal tt, traced (ConsoleError not_connected) w))
  /\ (forall sock, ws (this w) = Some sock -> isConnected (this w) = true ->
        sockets (window w) !! sock = Some Open ->
        sendMessage message w = (Normal tt, traced (WsSend sock message) w))
  /\ (reachable w -> isConnected (this w) = true ->
        exists sock, ws (this w) = Some sock
          /\ sockets (window w) !! sock = Some Open
          /\ sendMessage message w = (Normal tt, traced (WsSend sock message) w)).
Proof.
  rewrite sendMessage_spec. split; [|split].
  - intros [-> | ->]; [reflexivity|]. destruct (ws (this w)); reflexivity.
  - intros sock -> -> ->. reflexivity.
  - intros Hreach Hc. pose proof (reachable_conn_inv w Hreach) as [].
    destruct (inv_connected0 Hc) as (sock & Hws & Hopen).
    exists sock. rewrite Hws, Hc, Hopen. auto.
Qed.

(** C5 as the specification states it fails: the caller of [sendMessage] is
    told nothing.  On the dashboard whose socket has not opened yet the call
    completes normally with no value, exactly as it does on the connected
    dashboard; the condition is only written to the console. *)
Lemma sendMessage_reports_nothing :
  let cmd := command "START_MONITORING" in
  isConnected (this fresh_world) = false
  /\ isConnected (this connected_world) = true
  /\ fst (sendMessage cmd fresh_world) = Normal tt
  /\ fst (sendMessage cmd connected_world) = Normal tt
  /\ snd (sendMessage cmd fresh_world)
     = traced (ConsoleError not_connected) fresh_world
  /\ snd (sendMessage cmd connected_world)
     = traced (WsSend 0 cmd) connected_world.
Proof. cbv zeta. repeat split; reflexivity. Qed.

(** ** Resynchronisation *)

(** C8: whenever a socket opens, be it the first connection or a
    reconnection, [onopen] marks the dashboard connected and, without any
    other trigger, sends the GET_STATUS command on that very socket, which is
    [this.ws] and is open; nothing is thrown. *)
Theorem onopen_requests_status (w : World) (k : nat) (w' : World) :
  reachable w -> step (EvOpen k) w = Some w' ->
  fst (onopen (set_socket k Open w)) = Normal tt
  /\ isConnected (this w') = true
  /\ ws (this w') = Some k
  /\ sockets (window w') !! k = Some Open
  /\ trace (window w')
     = WsSend k (command "GET_STATUS")
       :: ConsoleLog [Lit connected_line] :: trace (window w).
Proof.
  intros Hreach Hstep. pose proof (reachable_conn_inv w Hreach) as [].
  apply step_open in Hstep. destruct Hstep as [Hk ->].
  assert (Hws : ws (this w) = Some k) by (apply (inv_ws0 k Connecting Hk); reflexivity).
  assert (Hopen : <[k:=Open]> (sockets (window w)) !! k = Some Open).
  { apply list_lookup_insert_eq. eapply lookup_lt_Some. exact Hk. }
  rewrite onopen_spec. unfold requestStatusUpdate. rewrite sendMessage_spec.
  shows_simpl. rewrite Hws, Hopen. simpl. shows_simpl. rewrite Hws, Hopen.
  repeat split.
Qed.

(** ** Methods only add timers and alerts *)

Lemma grows_eq w w' :
  next_node (document w') = next_node (document w) ->
  next_timer (window w') = next_timer (window w) ->
  now (window w') = now (window w) ->
  timers (window w') = timers (window w) ->
  alert_ids w' = alert_ids w ->
  grows w w'.
Proof.
  intros Hn Ht Hnow Hts Hal. constructor; try lia; try assumption.
  - exists []. rewrite app_nil_r. split; [exact Hts|]. split; constructor.
  - exists []. split; [exact Hal|constructor].
Qed.

Lemma grows_refl w : grows w w.
Proof. apply grows_eq; reflexivity. Qed.

Lemma grows_trans w1 w2 w3 : grows w1 w2 -> grows w2 w3 -> grows w1 w3.
Proof.
  intros [Hn1 Ht1 Hnow1 (new1 & Hts1 & Hnd1 & Hall1) (fr1 & Hal1 & Hfr1)]
         [Hn2 Ht2 Hnow2 (new2 & Hts2 & Hnd2 & Hall2) (fr2 & Hal2 & Hfr2)].
  constructor; try lia; try congruence.
  - exists (new1 ++ new2). split; [rewrite Hts2, Hts1, app_assoc; reflexivity|].
    rewrite Forall_forall in Hall1, Hall2. split.
    + rewrite fmap_app. apply NoDup_app. split; [exact Hnd1|]. split; [|exact Hnd2].
      intros x Hx1 Hx2. apply list_elem_of_fmap in Hx1, Hx2.
      destruct Hx1 as (t1 & -> & Hin1). destruct Hx2 as (t2 & Heq & Hin2).
      apply Hall1 in Hin1. apply Hall2 in Hin2. lia.
    + apply Forall_app. split; apply Forall_forall; intros t Hin.
      * destruct (Hall1 t Hin) as (Hid & Hp & Hcb). split; [lia|]. split; [exact Hp|].
        intros m Hm. destruct (Hcb m Hm). split; [lia|assumption].
      * destruct (Hall2 t Hin) as (Hid & Hp & Hcb). split; [lia|]. split; [exact Hp|].
        intros m Hm. destruct (Hcb m Hm). split; [lia|congruence].
  - exists (fr2 ++ fr1). split; [rewrite Hal2, Hal1, app_assoc; reflexivity|].
    apply Forall_app. split; (eapply Forall_impl; [eassumption|]); simpl; intros; lia.
Qed.

Lemma steady_bind {A B} (m : M A) (k : A -> M B) :
  steady m -> (forall a, steady (k a)) -> steady (bind m k).
Proof.
  intros Hm Hk w. unfold bind. specialize (Hm w).
  destruct (m w) as [[a|e] w']; simpl in *; [|exact Hm].
  eapply grows_trans; [exact Hm|apply Hk].
Qed.

Lemma steady_lift {A} (c : Completion A) : steady (lift c).
Proof. intros w. apply grows_refl. Qed.

Lemma steady_throw {A} e : steady (@throw A e).
Proof. intros w. apply grows_refl. Qed.

Lemma steady_emit e : steady (emit e).
Proof. intros w. apply grows_eq; reflexivity. Qed.

Lemma grows_bump w :
  grows w (with_document (set_next_node (S (next_node (document w)))) w).
Proof.
  constructor; simpl; try lia; try reflexivity.
  - exists []. rewrite app_nil_r. split; [reflexivity|]. split; constructor.
  - exists []. split; [reflexivity|constructor].
Qed.

Lemma steady_showAlert type data : steady (showAlert type data).
Proof.
  intros w. rewrite showAlert_spec.
  destruct (formatAlertContent data); [|apply grows_bump].
  destruct (alerts_container (document w)) eqn:E; [|apply grows_bump].
  constructor; simpl; try lia; try reflexivity.
  - exists [alert_timer w]. split; [reflexivity|]. split; [apply NoDup_singleton|].
    constructor; [|constructor]. simpl. split; [lia|]. split; [reflexivity|].
    intros m Hm. injection Hm as <-. split; [lia|reflexivity].
  - exists [next_node (document w)]. unfold alert_ids. simpl. rewrite E.
    split; [reflexivity|]. constructor; [lia|constructor].
Qed.

Lemma steady_updateThreatStats stats : steady (updateThreatStats stats).
Proof.
  intros w. rewrite updateThreatStats_spec. simpl.
  destruct (threat_stats (document w)); [destruct (truthy stats)|];
    apply grows_eq; reflexivity.
Qed.

Lemma steady_addToEventLog eventType message level :
  steady (addToEventLog eventType message level).
Proof.
  intros w. rewrite addToEventLog_spec.
  destruct (event_log (document w)); [|apply grows_bump].
  constructor; simpl; try lia; try reflexivity.
  - exists []. rewrite app_nil_r. split; [reflexivity|]. split; constructor.
  - exists []. split; [reflexivity|constructor].
Qed.

Lemma steady_updateSystemInfo statusData : steady (updateSystemInfo statusData).
Proof.
  intros w. unfold updateSystemInfo, lift, bind, get, modify, ret. simpl.
  destruct (system_info (document w)); [|apply grows_refl].
  destruct (get_prop "agent_status" statusData) as [v|]; [|apply grows_refl].
  destruct (truthy v); apply grows_eq; reflexivity.
Qed.

Lemma grows_shows status w : grows w (shows status w).
Proof.
  unfold shows. destruct (agent_status (document w)); apply grows_eq; reflexivity.
Qed.

Lemma steady_updateStatus status : steady (updateStatus status).
Proof. intros w. rewrite updateStatus_spec. apply grows_shows. Qed.

Lemma steady_sendMessage message : steady (sendMessage message).
Proof.
  intros w. rewrite sendMessage_spec.
  destruct (ws (this w)) as [sock|]; [|apply grows_eq; reflexivity].
  destruct (isConnected (this w)); [|apply grows_eq; reflexivity].
  destruct (sockets (window w) !! sock) as [[]|]; apply grows_eq; reflexivity.
Qed.

Lemma steady_attemptReconnect : steady attemptReconnect.
Proof.
  intros w. rewrite attemptReconnect_spec. simpl.
  destruct (decide (reconnectAttempts (this w) < maxReconnectAttempts (this w))).
  - constructor; simpl; try lia; try reflexivity.
    + exists [reconnect_timer w]. split; [reflexivity|].
      split; [apply NoDup_singleton|].
      constructor; [|constructor]. simpl. split; [lia|]. split; [reflexivity|].
      intros m Hm. discriminate.
    + exists []. split; [reflexivity|constructor].
  - eapply grows_trans; [|apply grows_shows]. apply grows_eq; reflexivity.
Qed.

Lemma steady_connectWebSocket accepted : steady (connectWebSocket accepted).
Proof.
  intros w. rewrite connectWebSocket_spec. destruct accepted.
  - apply grows_eq; reflexivity.
  - eapply grows_trans; [|apply steady_attemptReconnect]. apply grows_eq; reflexivity.
Qed.

Ltac steady_step :=
  first
    [ apply steady_showAlert
    | apply steady_updateThreatStats
    | apply steady_addToEventLog
    | apply steady_updateSystemInfo
    | apply steady_updateStatus
    | apply steady_sendMessage
    | apply steady_attemptReconnect
    | apply steady_emit
    | apply steady_lift
    | apply steady_throw
    | apply steady_bind; [|intros ?]
    | match goal with
      | |- steady (if ?c then _ else _) => destruct c
      end ].

Lemma steady_handleMessage message : steady (handleMessage message).
Proof.
  unfold handleMessage, handleThreatDetected, handleEmergencyResponse,
    handleHighAlertResponse, handleEnhancedMonitoring, handleStatusUpdate,
    handleCommandExecuted, updateDashboard, updateCharts, console_log.
  repeat steady_step.
Qed.

Lemma steady_onmessage data : steady (onmessage data).
Proof. destruct data; [apply steady_handleMessage|apply steady_throw]. Qed.


Lemma steady_onopen : steady onopen.
Proof.
  unfold onopen, requestStatusUpdate, console_log.
  repeat first [ apply steady_updateStatus | apply steady_sendMessage
               | apply steady_emit | apply steady_bind; [|intros ?] ];
    intros w; apply grows_eq; reflexivity.
Qed.

Lemma steady_onclose : steady onclose.
Proof.
  unfold onclose, console_log.
  repeat first [ apply steady_updateStatus | apply steady_attemptReconnect
               | apply steady_emit | apply steady_bind; [|intros ?] ];
    intros w; apply grows_eq; reflexivity.
Qed.

Lemma steady_onerror : steady onerror.
Proof. unfold onerror, console_error. repeat steady_step. Qed.

(** ** The life of an alert *)




Lemma clear_timer_elem {C} id (ts : list (Timer C)) u :
  u ∈ clear_timer id ts -> u ∈ ts.
Proof. intros H. apply list_elem_of_In, List.filter_In in H. apply list_elem_of_In, H. Qed.

Lemma removed_ids node (children : list Element) n :
  n ∈ (node_id <$> List.filter (fun e => negb (node_id e =? node)) children)
  <-> n <> node /\ n ∈ (node_id <$> children).
Proof.
  rewrite !list_elem_of_fmap. split.
  - intros (e & -> & He). apply list_elem_of_In, List.filter_In in He.
    destruct He as [He Hne]. apply negb_true_iff, Nat.eqb_neq in Hne.
    split; [exact Hne|]. exists e. split; [reflexivity|apply list_elem_of_In, He].
  - intros (Hne & e & -> & He). exists e. split; [reflexivity|].
    apply list_elem_of_In, List.filter_In. split; [apply list_elem_of_In, He|].
    apply negb_true_iff, Nat.eqb_neq. exact Hne.
Qed.


Lemma removeAlert_window node w : window (snd (removeAlert node w)) = window w.
Proof.
  unfold removeAlert, bind, get, modify, ret.
  destruct (alerts_container (document w)); reflexivity.
Qed.






(** ** Nodes and handles are issued once *)

Lemma distinct_nodes_mono next next' children :
  next <= next' -> distinct_nodes next children -> distinct_nodes next' children.
Proof.
  intros Hle [Hnd Hall]. split; [exact Hnd|].
  eapply Forall_impl; [exact Hall|]. simpl. intros; lia.
Qed.

Lemma distinct_nodes_cons next children e :
  distinct_nodes next children -> node_id e = next ->
  distinct_nodes (S next) (e :: children).
Proof.
  intros [Hnd Hall] Hid. split.
  - rewrite fmap_cons. apply NoDup_cons. split; [|exact Hnd].
    intros Hin. apply list_elem_of_fmap in Hin. destruct Hin as (u & Heq & Hu).
    rewrite Forall_forall in Hall. apply Hall in Hu. lia.
  - constructor; [lia|]. eapply Forall_impl; [exact Hall|]. simpl. intros; lia.
Qed.

Lemma distinct_nodes_take next children n :
  distinct_nodes next children -> distinct_nodes next (take n children).
Proof.
  intros [Hnd Hall]. split.
  - rewrite fmap_take. eapply sublist_NoDup; [exact Hnd|apply sublist_take].
  - apply Forall_take. exact Hall.
Qed.

Lemma distinct_nodes_filter next children (f : Element -> bool) :
  distinct_nodes next children -> distinct_nodes next (List.filter f children).
Proof.
  intros [Hnd Hall]. induction children as [|e children IH]; [split; constructor|].
  rewrite fmap_cons in Hnd. apply NoDup_cons in Hnd. destruct Hnd as [He Hnd].
  apply Forall_cons in Hall. destruct Hall as [Hlt Hall].
  destruct (IH Hnd Hall) as [IHnd IHall]. simpl.
  destruct (f e); [|split; assumption]. split.
  - rewrite fmap_cons. apply NoDup_cons. split; [|exact IHnd].
    intros Hin. apply He. apply list_elem_of_fmap in Hin.
    destruct Hin as (u & -> & Hu). apply list_elem_of_fmap_2.
    apply list_elem_of_In. apply list_elem_of_In, List.filter_In in Hu. tauto.
  - constructor; assumption.
Qed.

Section Keeps.

Variable I : World -> Prop.

Lemma keeps_bind {A B} (m : M A) (k : A -> M B) :
  keeps I m -> (forall a, keeps I (k a)) -> keeps I (bind m k).
Proof.
  intros Hm Hk w Hw. unfold bind. specialize (Hm w Hw).
  destruct (m w) as [[a|e] w']; simpl in *; [apply Hk; exact Hm|exact Hm].
Qed.

Lemma keeps_lift {A} (c : Completion A) : keeps I (lift c).
Proof. intros w Hw. exact Hw. Qed.

Lemma keeps_throw {A} e : keeps I (@throw A e).
Proof. intros w Hw. exact Hw. Qed.

End Keeps.

Lemma sound_eq w w' :
  next_node (document w') = next_node (document w) ->
  alerts_container (document w') = alerts_container (document w) ->
  event_log (document w') = event_log (document w) ->
  next_timer (window w') = next_timer (window w) ->
  timers (window w') = timers (window w) ->
  sound w -> sound w'.
Proof.
  intros Hn Ha Hl Ht Hts [Hwf Hnodes [Hpa Hpl]].
  constructor; unfold timers_wf, page_wf in *; rewrite ?Hn, ?Ha, ?Hl, ?Ht, ?Hts;
    auto.
Qed.

Lemma sound_bump w :
  sound w -> sound (with_document (set_next_node (S (next_node (document w)))) w).
Proof.
  intros [Hwf Hnodes [Hpa Hpl]]. constructor; [exact Hwf| |]; simpl.
  - eapply Forall_impl; [exact Hnodes|]. simpl. intros t H m Hm.
    specialize (H m Hm). lia.
  - split; simpl; intros children Hc;
      (eapply distinct_nodes_mono; [|eauto]); lia.
Qed.

Lemma keeps_sound_emit e : keeps sound (emit e).
Proof. intros w. apply sound_eq; reflexivity. Qed.

Lemma keeps_sound_showAlert type data : keeps sound (showAlert type data).
Proof.
  intros w Hw. rewrite showAlert_spec.
  destruct (formatAlertContent data); [|apply sound_bump, Hw].
  destruct (alerts_container (document w)) eqn:E; [|apply sound_bump, Hw].
  destruct Hw as [Hwf Hnodes [Hpa Hpl]]. constructor; simpl.
  - apply timers_ok_add; [exact Hwf|reflexivity|reflexivity].
  - apply Forall_app. split.
    + eapply Forall_impl; [exact Hnodes|]. simpl. intros t H m Hm.
      specialize (H m Hm). lia.
    + constructor; [|constructor]. simpl. intros m Hm. injection Hm as <-. lia.
  - split; simpl; intros children Hc.
    + injection Hc as <-. apply distinct_nodes_cons; [auto|reflexivity].
    + eapply distinct_nodes_mono; [|eauto]. lia.
Qed.

Lemma keeps_sound_addToEventLog eventType message level :
  keeps sound (addToEventLog eventType message level).
Proof.
  intros w Hw. rewrite addToEventLog_spec.
  destruct (event_log (document w)) eqn:E; [|apply sound_bump, Hw].
  destruct Hw as [Hwf Hnodes [Hpa Hpl]]. constructor; simpl.
  - exact Hwf.
  - eapply Forall_impl; [exact Hnodes|]. simpl. intros t H m Hm.
    specialize (H m Hm). lia.
  - split; simpl; intros children Hc.
    + eapply distinct_nodes_mono; [|eauto]. lia.
    + injection Hc as <-. apply distinct_nodes_cons; [|reflexivity].
      apply distinct_nodes_take. auto.
Qed.

Lemma keeps_sound_updateThreatStats stats : keeps sound (updateThreatStats stats).
Proof.
  intros w. rewrite updateThreatStats_spec. simpl.
  destruct (threat_stats (document w)); [destruct (truthy stats)|];
    apply sound_eq; reflexivity.
Qed.

Lemma keeps_sound_updateSystemInfo statusData :
  keeps sound (updateSystemInfo statusData).
Proof.
  intros w. unfold updateSystemInfo, lift, bind, get, modify, ret. simpl.
  destruct (system_info (document w)); [|auto].
  destruct (get_prop "agent_status" statusData) as [v|]; [|auto].
  destruct (truthy v); apply sound_eq; reflexivity.
Qed.

Lemma sound_shows status w : sound w -> sound (shows status w).
Proof.
  unfold shows. destruct (agent_status (document w)); [|auto].
  apply sound_eq; reflexivity.
Qed.

Lemma keeps_sound_sendMessage message : keeps sound (sendMessage message).
Proof.
  intros w. rewrite sendMessage_spec.
  destruct (ws (this w)) as [sock|]; [|apply sound_eq; reflexivity].
  destruct (isConnected (this w)); [|apply sound_eq; reflexivity].
  destruct (sockets (window w) !! sock) as [[]|]; apply sound_eq; reflexivity.
Qed.

Lemma keeps_sound_attemptReconnect : keeps sound attemptReconnect.
Proof.
  intros w Hw. rewrite attemptReconnect_spec. simpl.
  destruct (decide (reconnectAttempts (this w) < maxReconnectAttempts (this w))).
  - destruct Hw as [Hwf Hnodes Hp]. constructor; simpl.
    + apply timers_ok_add; [exact Hwf|reflexivity|reflexivity].
    + apply Forall_app. split; [exact Hnodes|].
      constructor; [|constructor]. simpl. intros m Hm. discriminate.
    + exact Hp.
  - apply sound_shows. revert Hw. apply sound_eq; reflexivity.
Qed.

Lemma keeps_sound_connectWebSocket accepted : keeps sound (connectWebSocket accepted).
Proof.
  intros w Hw. rewrite connectWebSocket_spec. destruct accepted.
  - revert Hw. apply sound_eq; reflexivity.
  - apply keeps_sound_attemptReconnect. revert Hw. apply sound_eq; reflexivity.
Qed.

Lemma keeps_sound_removeAlert node : keeps sound (removeAlert node).
Proof.
  intros w Hw. pose proof Hw as [Hwf Hnodes [Hpa Hpl]].
  unfold removeAlert, bind, get, modify, ret.
  destruct (alerts_container (document w)) eqn:E; [|exact Hw].
  constructor; simpl; [exact Hwf|exact Hnodes|]. split; simpl; intros children Hc.
  - injection Hc as <-. apply distinct_nodes_filter. auto.
  - auto.
Qed.

Ltac keeps_sound_step :=
  first
    [ apply keeps_sound_showAlert
    | apply keeps_sound_updateThreatStats
    | apply keeps_sound_addToEventLog
    | apply keeps_sound_updateSystemInfo
    | apply keeps_sound_sendMessage
    | apply keeps_sound_attemptReconnect
    | apply keeps_sound_emit
    | apply keeps_lift
    | apply keeps_throw
    | apply keeps_bind; [|intros ?]
    | match goal with
      | |- keeps _ (if ?c then _ else _) => destruct c
      end ].

Lemma keeps_sound_handleMessage message : keeps sound (handleMessage message).
Proof.
  unfold handleMessage, handleThreatDetected, handleEmergencyResponse,
    handleHighAlertResponse, handleEnhancedMonitoring, handleStatusUpdate,
    handleCommandExecuted, updateDashboard, updateCharts, console_log.
  repeat keeps_sound_step.
Qed.

Lemma sound_constructor page protocol host t0 accepted :
  page_wf page -> sound (constructor page protocol host t0 accepted).
Proof.
  intros Hpage. unfold constructor, initializeDashboard, bind.
  rewrite updateStatus_spec. apply keeps_sound_connectWebSocket, sound_shows.
  constructor; simpl; [split; constructor|constructor|exact Hpage].
Qed.

Lemma step_sound e w w' : step e w = Some w' -> sound w -> sound w'.
Proof.
  intros Hstep Hw.
  assert (Hsock : forall k st, sound (set_socket k st w))
    by (intros; revert Hw; apply sound_eq; reflexivity).
  destruct e as [k|k data|k|k|id accepted|dt|b]; simpl in Hstep.
  - destruct (sockets (window w) !! k) as [[]|]; try discriminate.
    injection Hstep as <-. rewrite onopen_spec.
    apply keeps_sound_sendMessage, sound_shows.
    generalize (Hsock k Open). apply sound_eq; reflexivity.
  - destruct (sockets (window w) !! k) as [[]|]; try discriminate.
    injection Hstep as <-. destruct data; [|exact Hw].
    apply keeps_sound_handleMessage, Hw.
  - destruct (sockets (window w) !! k) as [[]|]; try discriminate;
      injection Hstep as <-; rewrite onerror_spec; apply sound_shows;
      revert Hw; apply sound_eq; reflexivity.
  - destruct (sockets (window w) !! k) as [[]|]; try discriminate;
      injection Hstep as <-; rewrite onclose_spec;
      apply keeps_sound_attemptReconnect, sound_shows;
      generalize (Hsock k Closed); apply sound_eq; reflexivity.
  - destruct (find_timer id (timers (window w))) as [t|] eqn:Hfind; [|discriminate].
    destruct (decide (due t <= now (window w))%N); [|discriminate].
    injection Hstep as <-. apply find_timer_Some in Hfind. destruct Hfind as [Hin _].
    assert (Hw1 : sound (with_window
                          (fun b => set_timers (after_fire t (timers b)) b) w)).
    { destruct Hw as [Hwf Hnodes Hp]. constructor; [| |exact Hp].
      - unfold timers_wf. simpl. rewrite (after_fire_timeout _ _ t Hwf Hin).
        apply timers_ok_clear, Hwf.
      - simpl. rewrite (after_fire_timeout _ _ t Hwf Hin).
        rewrite Forall_forall in *. intros u Hu. apply Hnodes.
        eapply clear_timer_elem. exact Hu. }
    destruct (callback t); simpl.
    + apply keeps_sound_connectWebSocket, Hw1.
    + apply keeps_sound_removeAlert, Hw1.
  - injection Hstep as <-. revert Hw. apply sound_eq; reflexivity.
  - injection Hstep as <-. destruct b; apply keeps_sound_sendMessage, Hw.
Qed.

Lemma reachable_sound w : reachable w -> sound w.
Proof.
  intros (page & protocol & host & t0 & accepted & es & Hpage & Hrun).
  pose proof (sound_constructor page protocol host t0 accepted Hpage) as H0.
  revert Hrun H0. generalize (constructor page protocol host t0 accepted).
  induction es as [|e es IH]; simpl; intros w0 Hrun H0.
  - injection Hrun as <-. exact H0.
  - destruct (step e w0) as [w1|] eqn:Hstep; [|discriminate].
    eapply IH; [exact Hrun|]. eapply step_sound; eauto.
Qed.

(** In every state the page can reach, the entries of the event log are
    distinct nodes. *)
Lemma reachable_log_distinct w children :
  reachable w -> event_log (document w) = Some children ->
  distinct_nodes (next_node (document w)) children.
Proof. intros Hreach. apply (proj2 (s_page _ (reachable_sound w Hreach))). Qed.

(** ** The life of a toast *)

Lemma after_fire_nodup {C} (t : Timer C) ts :
  NoDup (tid <$> ts) -> NoDup (tid <$> after_fire t ts).
Proof.
  intros Hnd. unfold after_fire. destruct (period t).
  - assert (Heq : tid <$> List.map
                    (fun u => if tid u =? tid t
                              then {| tid := tid u; due := (due u + n)%N;
                                      period := period u; callback := callback u |}
                              else u) ts = tid <$> ts).
    { clear Hnd. induction ts as [|u ts IH]; [reflexivity|]. simpl.
      f_equal; [destruct (tid u =? tid t); reflexivity|exact IH]. }
    rewrite Heq. exact Hnd.
  - induction ts as [|u ts IH]; [constructor|].
    rewrite fmap_cons in Hnd. apply NoDup_cons in Hnd. destruct Hnd as [Hu Hnd].
    simpl. destruct (negb (tid u =? tid t)); [|auto].
    rewrite fmap_cons. apply NoDup_cons. split; [|auto].
    intros Hin. apply Hu. apply list_elem_of_fmap in Hin.
    destruct Hin as (v & -> & Hv). apply list_elem_of_fmap_2.
    eapply clear_timer_elem. exact Hv.
Qed.

(** A timer of the table after [t] has fired was in the table before, with
    the same handle and callback; it kept its due time unless it is [t]
    itself, armed again. *)
Lemma after_fire_elem {C} (t : Timer C) ts u :
  u ∈ after_fire t ts ->
  exists v, v ∈ ts /\ tid v = tid u /\ callback v = callback u
            /\ period v = period u
            /\ (tid v <> tid t -> v = u).
Proof.
  unfold after_fire. destruct (period t) as [p|]; intros Hu.
  - apply list_elem_of_In, List.in_map_iff in Hu. destruct Hu as (v & <- & Hv).
    exists v. split; [apply list_elem_of_In, Hv|].
    destruct (Nat.eqb_spec (tid v) (tid t)); simpl; repeat split; congruence.
  - exists u. split; [eapply clear_timer_elem; exact Hu|]. repeat split.
Qed.

(** A timer other than the one that fired is still in the table. *)
Lemma after_fire_keeps {C} (t : Timer C) ts u :
  u ∈ ts -> tid u <> tid t -> u ∈ after_fire t ts.
Proof.
  intros Hu Hne. unfold after_fire. destruct (period t) as [p|].
  - apply list_elem_of_In, List.in_map_iff. exists u.
    split; [|apply list_elem_of_In, Hu].
    destruct (Nat.eqb_spec (tid u) (tid t)); [contradiction|reflexivity].
  - apply list_elem_of_In, List.filter_In. split; [apply list_elem_of_In, Hu|].
    apply negb_true_iff, Nat.eqb_neq. exact Hne.
Qed.

Lemma same_tid_same_timer {C} (ts : list (Timer C)) t u :
  NoDup (tid <$> ts) -> t ∈ ts -> u ∈ ts -> tid t = tid u -> t = u.
Proof.
  intros Hnd Ht Hu Heq.
  apply list_elem_of_lookup in Ht, Hu. destruct Ht as [i Hi]. destruct Hu as [j Hj].
  assert (i = j).
  { eapply NoDup_lookup; [exact Hnd| |]; rewrite list_lookup_fmap.
    - rewrite Hi. reflexivity.
    - rewrite Hj. simpl. rewrite Heq. reflexivity. }
  subst j. congruence.
Qed.

Lemma console_sound_fire t w :
  console_sound w -> t ∈ Console.timers w ->
  console_sound
    {| Console.currentTab := Console.currentTab w; Console.body := Console.body w;
       Console.next_node := Console.next_node w;
       Console.timers := after_fire t (Console.timers w);
       Console.next_timer := Console.next_timer w; Console.now := Console.now w;
       Console.trace := Console.trace w |}.
Proof.
  intros [Hnd Hbelow Hnodes Htoasts] Hin. rewrite Forall_forall in Hbelow, Hnodes.
  constructor; simpl.
  - apply after_fire_nodup, Hnd.
  - apply Forall_forall. intros u Hu.
    destruct (after_fire_elem _ _ _ Hu) as (v & Hv & Hid & _). rewrite <- Hid. auto.
  - apply Forall_forall. intros u Hu m Hm.
    destruct (after_fire_elem _ _ _ Hu) as (v & Hv & _ & Hcb & _).
    apply (Hnodes v Hv). congruence.
  - exact Htoasts.
Qed.

Lemma console_sound_remove node w :
  console_sound w -> console_sound (Console.remove node w).
Proof.
  intros [Hnd Hbelow Hnodes Htoasts]. constructor; simpl; try assumption.
  apply Forall_forall. intros x Hx. apply removed_ids in Hx.
  rewrite Forall_forall in Htoasts. apply Htoasts, Hx.
Qed.

Lemma console_sound_showToast message type w :
  console_sound w -> console_sound (Console.showToast message type w).
Proof.
  intros [Hnd Hbelow Hnodes Htoasts]. rewrite Forall_forall in Hbelow.
  constructor; simpl.
  - rewrite fmap_app. apply NoDup_app. split; [exact Hnd|]. split.
    + intros x Hx Hin. apply list_elem_of_singleton in Hin.
      apply list_elem_of_fmap in Hx. destruct Hx as (u & -> & Hu).
      apply Hbelow in Hu. simpl in Hin. lia.
    + apply NoDup_singleton.
  - apply Forall_app. split; [|constructor; [simpl; lia|constructor]].
    apply Forall_forall. intros u Hu. apply Hbelow in Hu. lia.
  - apply Forall_app. split.
    + eapply Forall_impl; [exact Hnodes|]. simpl. intros u H m Hm.
      specialize (H m Hm). lia.
    + constructor; [|constructor]. simpl. intros m Hm. injection Hm as <-. lia.
  - unfold toast_ids. simpl. rewrite fmap_app. apply Forall_app. split.
    + eapply Forall_impl; [exact Htoasts|]. simpl. intros; lia.
    + constructor; [simpl; lia|constructor].
Qed.

Lemma console_step_sound e w w' :
  Console.step e w = Some w' -> console_sound w -> console_sound w'.
Proof.
  intros Hstep Hw. destruct e as [id|dt|node|message type|tab]; simpl in Hstep.
  - destruct (find_timer id (Console.timers w)) as [t|] eqn:Hfind; [|discriminate].
    destruct (decide (due t <= Console.now w)%N); [|discriminate].
    injection Hstep as <-. apply find_timer_Some in Hfind. destruct Hfind as [Hin _].
    pose proof (console_sound_fire t w Hw Hin) as Hw1.
    destruct (callback t); simpl.
    + unfold Console.poll. simpl.
      destruct (String.eqb (Console.currentTab w) "dashboard"); [|exact Hw1].
      destruct Hw1. constructor; assumption.
    + apply console_sound_remove, Hw1.
  - injection Hstep as <-. destruct Hw. constructor; assumption.
  - destruct (existsb _ _); [|discriminate]. injection Hstep as <-.
    apply console_sound_remove, Hw.
  - injection Hstep as <-. apply console_sound_showToast, Hw.
  - injection Hstep as <-. destruct Hw. constructor; assumption.
Qed.










(** ** Timers are never cancelled by the agent dashboard *)

Lemma invoke_keeps_timers c w :
  exists new, timers (window (snd (invoke c w))) = timers (window w) ++ new.
Proof.
  assert (Hsteady : forall (m : M unit), steady m ->
            exists new, timers (window (snd (m w))) = timers (window w) ++ new).
  { intros m Hm. destruct (Hm w) as [_ _ _ (new & Hts & _) _]. exists new. exact Hts. }
  destruct c; simpl;
    try solve
        [apply Hsteady;
         first [ apply steady_handleMessage | apply steady_onopen
               | apply steady_onmessage | apply steady_onclose
               | apply steady_onerror | apply steady_connectWebSocket
               | unfold initializeDashboard, handleThreatDetected,
                   handleEmergencyResponse, handleHighAlertResponse,
                   handleEnhancedMonitoring, handleStatusUpdate,
                   handleCommandExecuted, updateDashboard, updateCharts,
                   startMonitoring, stopMonitoring, simulateThreat,
                   requestStatusUpdate;
                 repeat steady_step ]].
  exists []. rewrite removeAlert_window, app_nil_r. reflexivity.
Qed.

(** C7, as the code has it.  The one teardown operation of the source,
    [DashboardUpdater.stop], cancels the one interval whose handle is in
    [statsInterval] and nothing else: that timer can no longer fire, every
    other timer is left pending.  The agent dashboard has no teardown: no
    method, socket handler or timer callback of [AgentDashboard] cancels any
    timer, each of them leaves the pending timers pending.  The console script
    drops the handles of its interval and of its toast timers. *)
Theorem stop_cancels_its_own_interval_only :
  (forall (w : DashboardUpdater.World) id,
     DashboardUpdater.statsInterval w = Some id -> id <> 0 ->
     DashboardUpdater.timers (DashboardUpdater.stop w)
     = clear_timer id (DashboardUpdater.timers w)
     /\ DashboardUpdater.step (DashboardUpdater.EvTimer id) (DashboardUpdater.stop w)
        = None
     /\ (forall t, t ∈ DashboardUpdater.timers w -> tid t <> id ->
                   t ∈ DashboardUpdater.timers (DashboardUpdater.stop w)))
  /\ (forall w : DashboardUpdater.World,
        DashboardUpdater.statsInterval w = None -> DashboardUpdater.stop w = w)
  /\ (forall (w : DashboardUpdater.World),
        DashboardUpdater.statsInterval (DashboardUpdater.startRealTimeUpdates w)
        = Some (DashboardUpdater.next_timer w))
  /\ (forall c w, exists new,
        timers (window (snd (invoke c w))) = timers (window w) ++ new)
  /\ (forall w : Console.World, exists new,
        Console.timers (Console.startRealTimeUpdates w) = Console.timers w ++ new)
  /\ (forall message type (w : Console.World), exists new,
        Console.timers (Console.showToast message type w) = Console.timers w ++ new).
Proof.
  split; [|split; [|split; [|split; [|split]]]].
  - intros w id Hid Hne. unfold DashboardUpdater.stop. rewrite Hid.
    destruct (Nat.eqb_spec id 0); [contradiction|]. simpl.
    split; [reflexivity|]. split.
    + destruct (find_timer id (clear_timer id (DashboardUpdater.timers w)))
        as [t|] eqn:Hfind; [|reflexivity].
      exfalso. apply find_timer_Some in Hfind. destruct Hfind as [Hin Heq].
      apply list_elem_of_In, List.filter_In in Hin. destruct Hin as [_ Hin].
      apply negb_true_iff, Nat.eqb_neq in Hin. contradiction.
    + intros t Hin Ht. apply list_elem_of_In, List.filter_In.
      split; [apply list_elem_of_In, Hin|]. apply negb_true_iff, Nat.eqb_neq, Ht.
  - intros w Hnone. unfold DashboardUpdater.stop. rewrite Hnone. reflexivity.
  - reflexivity.
  - apply invoke_keeps_timers.
  - intros w. eexists. reflexivity.
  - intros message type w. eexists. reflexivity.
Qed.

(** C7 as the specification states it fails.  On the agent dashboard with an
    alert on show and a reconnection pending, two timers are outstanding and
    no call into the class leaves fewer: there is no teardown.  On the admin
    page, after [initialize] has run twice, [stop] cancels the second interval
    only: the first one is still pending and fires five seconds later. *)
Lemma teardown_leaves_timers :
  (callback <$> timers (window busy_world))
  = [CbRemoveAlert 0; CbConnect]
  /\ ~ (exists c, length (timers (window (snd (invoke c busy_world)))) < 2)
  /\ (tid <$> DashboardUpdater.timers stopped_updater) = [1]
  /\ DashboardUpdater.statsInterval stopped_updater = Some 2
  /\ is_Some (DashboardUpdater.step (DashboardUpdater.EvTimer 1)
                (default stopped_updater
                   (DashboardUpdater.step (DashboardUpdater.EvTick 5000)
                      stopped_updater))).
Proof.
  split; [vm_compute; reflexivity|]. split.
  - intros [c Hc]. destruct (invoke_keeps_timers c busy_world) as [new Hnew].
    rewrite Hnew, length_app in Hc.
    assert (length (timers (window busy_world)) = 2) by (vm_compute; reflexivity).
    lia.
  - split; [vm_compute; reflexivity|]. split; [vm_compute; reflexivity|].
    vm_compute. eexists. reflexivity.
Qed.

(** ** The theorems at work on sample worlds *)

Lemma page_wf_blank : page_wf blank_page.
Proof. split; intros children H; injection H as <-; split; constructor. Qed.

Lemma reachable_world_after es :
  is_Some (run es fresh_world) -> reachable (world_after es).
Proof.
  intros [w Hw]. exists blank_page, "http:", "localhost:8000", 0%N, true, es.
  split; [apply page_wf_blank|]. unfold world_after. fold fresh_world.
  rewrite Hw. reflexivity.
Qed.


Lemma reconnectAttempts_counts_witness :
  reachable (world_after (failed_attempts 3))
  /\ reconnectAttempts (this (world_after (failed_attempts 3)))
     = reconnects_made (trace (window (world_after (failed_attempts 3)))).
Proof.
  assert (H : reachable (world_after (failed_attempts 3))).
  { apply reachable_world_after. vm_compute. eexists. reflexivity. }
  split; [exact H|].
  exact (proj1 (reconnectAttempts_counts (world_after (failed_attempts 3)) H)).
Defined.

Lemma reconnect_policy_witness :
  reachable last_chance_world
  /\ reconnectAttempts (this last_chance_world) = 5
  /\ Failed (world_after (failed_attempts 6)).
Proof.
  assert (H : reachable last_chance_world).
  { apply reachable_world_after. vm_compute. eexists. reflexivity. }
  split; [exact H|]. split; [vm_compute; reflexivity|].
  apply (proj1 (proj2 (reconnect_policy last_chance_world H)) 5);
    vm_compute; reflexivity.
Defined.


Lemma sendMessage_gated_witness :
  isConnected (this fresh_world) = false
  /\ sendMessage (command "GET_STATUS") fresh_world
     = (Normal tt, traced (ConsoleError not_connected) fresh_world).
Proof.
  split; [reflexivity|].
  exact (proj1 (sendMessage_gated (command "GET_STATUS") fresh_world)
           (or_intror eq_refl)).
Defined.

Lemma handleMessage_unknown_witness :
  get_prop "type" foo_message = Normal (JStr "FOO_UNKNOWN")
  /\ handleMessage foo_message connected_world
     = (Normal tt,
        traced (ConsoleLog [Lit "Unknown message type:"; Hole (JStr "FOO_UNKNOWN")])
          connected_world).
Proof.
  split; [reflexivity|].
  refine (proj1 (handleMessage_unknown foo_message (JStr "FOO_UNKNOWN")
                   connected_world eq_refl _)).
  intros t Ht Heq. injection Heq as <-. vm_compute in Ht.
  repeat (apply elem_of_cons in Ht; destruct Ht as [Ht|Ht]; [discriminate Ht|]).
  inversion Ht.
Defined.

Lemma onopen_requests_status_witness :
  reachable fresh_world
  /\ step (EvOpen 0) fresh_world = Some connected_world
  /\ trace (window connected_world)
     = WsSend 0 (command "GET_STATUS")
       :: ConsoleLog [Lit connected_line] :: trace (window fresh_world).
Proof.
  assert (H : reachable fresh_world).
  { apply (reachable_world_after []). eexists. reflexivity. }
  assert (Hstep : step (EvOpen 0) fresh_world = Some connected_world)
    by (vm_compute; reflexivity).
  split; [exact H|]. split; [exact Hstep|].
  exact (proj2 (proj2 (proj2 (proj2
           (onopen_requests_status fresh_world 0 connected_world H Hstep))))).
Defined.



Lemma stop_cancels_its_own_interval_only_witness :
  let w := DashboardUpdater.initialize (DashboardUpdater.constructor 1 0) in
  DashboardUpdater.statsInterval w = Some 1
  /\ (tid <$> DashboardUpdater.timers w) = [1]
  /\ DashboardUpdater.timers (DashboardUpdater.stop w) = [].
Proof.
  cbv zeta. split; [reflexivity|]. split; [reflexivity|].
  destruct (proj1 stop_cancels_its_own_interval_only
              (DashboardUpdater.initialize (DashboardUpdater.constructor 1 0)) 1
              eq_refl (fun H : 1 = 0 => O_S 0 (eq_sym H))) as (-> & _).
  reflexivity.
Defined.


(** ** A status update *)


(** ** The response handlers *)





(** ** Alerts are all or nothing *)


(** ** Messages and the connection *)

(** X5: whatever frame arrives on the open socket, handling it changes none
    of [ws], [isConnected] and [reconnectAttempts], closes or opens no socket,
    leaves the status panel and the clock alone, cancels no timer and
    schedules no reconnection: the only timers it adds remove an alert
    10000 ms later.  A frame that is not JSON, or that is [null], changes
    nothing at all. *)
Theorem messages_never_disturb_the_connection
    (sock : nat) (data : option JValue) (w w' : World) :
  step (EvMessage sock data) w = Some w' ->
  this w' = this w
  /\ sockets (window w') = sockets (window w)
  /\ agent_status (document w') = agent_status (document w)
  /\ now (window w') = now (window w)
  /\ (exists new, timers (window w') = timers (window w) ++ new
                  /\ Forall (fun t => exists node, callback t = CbRemoveAlert node
                                        /\ due t = (now (window w) + 10000)%N) new)
  /\ (data = None \/ data = Some JNull -> w' = w).
Proof.
  simpl. destruct (sockets (window w) !! sock) as [[]|]; try discriminate.
  intros H. injection H as <-.
  destruct (quiet_onmessage data w) as [Hv _]. unfold conn_view in Hv.
  injection Hv as Hthis Hsock Htim Hstat _.
  destruct (steady_onmessage data w) as [_ _ Hnow (new & Hts & _ & Hall) _].
  split; [exact Hthis|]. split; [exact Hsock|]. split; [exact Hstat|].
  split; [exact Hnow|]. split.
  - exists new. split; [exact Hts|].
    assert (Hfilter : List.filter is_connect new = []).
    { rewrite Hts, List.filter_app in Htim.
      apply (f_equal (@length _)) in Htim. rewrite length_app in Htim.
      destruct (List.filter is_connect new); [reflexivity|simpl in Htim; lia]. }
    rewrite Forall_forall in Hall. apply Forall_forall. intros t Ht.
    destruct (Hall t Ht) as (_ & _ & Hcb).
    destruct (callback t) eqn:E.
    + exfalso.
      assert (Hin : t ∈ List.filter is_connect new).
      { apply list_elem_of_In, List.filter_In.
        split; [apply list_elem_of_In, Ht|]. unfold is_connect. rewrite E. reflexivity. }
      rewrite Hfilter in Hin. inversion Hin.
    + exists node. split; [reflexivity|]. apply (Hcb node eq_refl).
  - intros [->| ->]; reflexivity.
Qed.

(** ** The status panel and the reconnection budget *)

Lemma view_transfer w w' :
  conn_view w' = conn_view w ->
  (panel_ok w -> panel_ok w') /\ (exhausted_ok w -> exhausted_ok w').
Proof.
  unfold conn_view, panel_ok, exhausted_ok, n_live, n_reconnect.
  intros Hv. injection Hv as Hthis Hsock Htim Hstat Htr.
  rewrite Hthis, Hsock, Htim, Hstat. auto.
Qed.

Lemma panel_ok_shows status w :
  status ∈ (if isConnected (this w)
            then ["connected"; "error"]
            else ["initializing"; "disconnected"; "error"; "failed"]) ->
  panel_ok (shows status w).
Proof.
  intros Hs panel. rewrite shows_agent_status, shows_this.
  destruct (agent_status (document w)); [|discriminate].
  simpl. intros H. injection H as <-. exists status. split; [reflexivity|exact Hs].
Qed.

Lemma status_attemptReconnect w :
  isConnected (this w) = false ->
  maxReconnectAttempts (this w) = 5 ->
  reconnectAttempts (this w) <= maxReconnectAttempts (this w) ->
  panel_ok w ->
  panel_ok (snd (attemptReconnect w)) /\ exhausted_ok (snd (attemptReconnect w)).
Proof.
  intros Hoff Hmax Hle Hpanel. rewrite attemptReconnect_spec. cbn [snd].
  destruct (decide (reconnectAttempts (this w) < maxReconnectAttempts (this w))).
  - split.
    + exact Hpanel.
    + unfold exhausted_ok, n_reconnect. simpl.
      rewrite List.filter_app, length_app. simpl. lia.
  - split.
    + apply panel_ok_shows. simpl. rewrite Hoff. repeat constructor.
    + unfold exhausted_ok. rewrite shows_this. simpl. lia.
Qed.

Lemma timer_remove_view w t node :
  conn_inv w -> t ∈ timers (window w) -> callback t = CbRemoveAlert node ->
  conn_view (snd (removeAlert node
                    (with_window (fun b => set_timers (after_fire t (timers b)) b) w)))
  = conn_view w.
Proof.
  intros Hinv Hin Hcb. pose proof (inv_timers _ Hinv) as Hwf.
  match goal with
  | |- context [removeAlert ?n ?x] => destruct (quiet_removeAlert n x) as [Hv _]
  end.
  rewrite Hv. unfold conn_view. simpl.
  rewrite (after_fire_timeout _ _ t Hwf Hin).
  rewrite (clear_timer_other _ t (proj1 Hwf) Hin);
    [reflexivity|unfold is_connect; rewrite Hcb; reflexivity].
Qed.

Lemma status_constructor page protocol host t0 accepted :
  panel_ok (constructor page protocol host t0 accepted)
  /\ exhausted_ok (constructor page protocol host t0 accepted).
Proof.
  unfold constructor, initializeDashboard, bind. rewrite updateStatus_spec.
  rewrite connectWebSocket_spec. destruct accepted.
  - cbn [snd]. split.
    + unfold socket_created. intros panel. cbn. intros H.
      apply (panel_ok_shows "initializing") in H; [exact H|]. cbn. repeat constructor.
    + unfold exhausted_ok, n_live, socket_created. cbn. shows_simpl.
      cbn. lia.
  - apply status_attemptReconnect; shows_simpl; try (reflexivity || lia).
    intros panel H.
    apply (panel_ok_shows "initializing") in H; [exact H|]. cbn. repeat constructor.
Qed.

Lemma step_status e w w' :
  step e w = Some w' -> conn_inv w -> panel_ok w -> exhausted_ok w ->
  panel_ok w' /\ exhausted_ok w'.
Proof.
  intros Hstep Hinv Hpanel Hex.
  pose proof (inv_token _ Hinv) as Htoken.
  pose proof (inv_connected _ Hinv) as Hconn.
  pose proof (inv_max _ Hinv) as Hmax.
  pose proof (inv_attempts _ Hinv) as Hatt.
  destruct e as [k|k data|k|k|id accepted|dt|b]; simpl in Hstep.
  - (* open *)
    destruct (sockets (window w) !! k) as [[]|] eqn:Hk; try discriminate.
    injection Hstep as <-. rewrite onopen_spec. unfold requestStatusUpdate.
    match goal with
    | |- context [sendMessage ?m ?x] =>
        destruct (quiet_sendMessage m x) as [Hv _];
        destruct (view_transfer x (snd (sendMessage m x)) Hv) as [Hp He]
    end.
    split.
    + apply Hp. apply panel_ok_shows. simpl. repeat constructor.
    + apply He. unfold exhausted_ok, n_live. shows_simpl. intros H. exfalso.
      assert (0 < length (List.filter live (<[k:=Open]> (sockets (window w))))).
      { eapply (live_pos _ k Open); [|reflexivity].
        apply list_lookup_insert_eq. eapply lookup_lt_Some. exact Hk. }
      lia.
  - (* message *)
    destruct (sockets (window w) !! k) as [[]|] eqn:Hk; try discriminate.
    injection Hstep as <-. destruct (quiet_onmessage data w) as [Hv _].
    destruct (view_transfer _ _ Hv). auto.
  - (* error *)
    assert (Hw : w' = snd (onerror w)
                 /\ exists st, sockets (window w) !! k = Some st /\ live st = true).
    { destruct (sockets (window w) !! k) as [[]|]; try discriminate;
        injection Hstep as <-; (split; [reflexivity|eexists; split; reflexivity]). }
    destruct Hw as [-> (st & Hk & Hlive)]. rewrite onerror_spec. cbn [snd]. split.
    + apply panel_ok_shows. simpl. destruct (isConnected (this w)); repeat constructor.
    + unfold exhausted_ok, n_live, n_reconnect. shows_simpl. intros H. exfalso.
      pose proof (live_pos _ k st Hk Hlive). lia.
  - (* close *)
    assert (Hw : w' = snd (onclose (set_socket k Closed w))).
    { destruct (sockets (window w) !! k) as [[]|]; try discriminate;
        injection Hstep as <-; reflexivity. }
    subst w'. rewrite onclose_spec.
    apply status_attemptReconnect; shows_simpl; try assumption; try reflexivity.
    apply panel_ok_shows. simpl. repeat constructor.
  - (* timer *)
    destruct (find_timer id (timers (window w))) as [t|] eqn:Hfind; [|discriminate].
    destruct (decide (due t <= now (window w))%N); [|discriminate].
    injection Hstep as <-. apply find_timer_Some in Hfind. destruct Hfind as [Hin _].
    destruct (callback t) eqn:Hcb; simpl.
    + assert (Hc : is_connect t = true) by (unfold is_connect; rewrite Hcb; reflexivity).
      pose proof (clear_timer_connect _ t Hin Hc) as Hless.
      assert (Hoff : isConnected (this w) = false).
      { destruct (isConnected (this w)) eqn:E; [|reflexivity].
        destruct (Hconn eq_refl) as (k & _ & Hk).
        pose proof (live_pos _ k Open Hk eq_refl).
        unfold n_live, n_reconnect in *. lia. }
      rewrite connectWebSocket_spec. destruct accepted.
      * cbn [snd]. split.
        -- exact Hpanel.
        -- unfold exhausted_ok, n_live, socket_created. simpl.
           rewrite List.filter_app, length_app. simpl. lia.
      * apply status_attemptReconnect; simpl; assumption.
    + pose proof (timer_remove_view w t node Hinv Hin Hcb) as Hv.
      destruct (view_transfer _ _ Hv). auto.
  - injection Hstep as <-. split; [exact Hpanel|exact Hex].
  - injection Hstep as <-. destruct (quiet_click b w) as [Hv _].
    destruct (view_transfer _ _ Hv). auto.
Qed.

Lemma run_status es : forall w w',
  run es w = Some w' -> conn_inv w -> panel_ok w -> exhausted_ok w ->
  panel_ok w' /\ exhausted_ok w'.
Proof.
  induction es as [|e es IH]; simpl; intros w w' Hrun Hinv Hp He.
  - injection Hrun as <-. auto.
  - destruct (step e w) as [w1|] eqn:Hstep; [|discriminate].
    destruct (step_status e w w1 Hstep Hinv Hp He).
    eapply IH; eauto. eapply step_conn_inv; eauto.
Qed.

Lemma reachable_status w : reachable w -> panel_ok w /\ exhausted_ok w.
Proof.
  intros (page & protocol & host & t0 & accepted & es & _ & Hrun).
  destruct (status_constructor page protocol host t0 accepted).
  eapply run_status; eauto. apply conn_inv_constructor.
Qed.

(** X6: in every state the page can reach, the status panel (when the page
    has one) is the text [updateStatus] writes for one of the five statuses
    of the class, and its 'WebSocket:' line agrees with [isConnected]: while
    connected the status is 'connected' or 'error', otherwise it is
    'initializing', 'disconnected', 'error' or 'failed', and it is 'failed'
    once no socket is alive and no reconnection is pending. *)
Theorem status_panel_tracks_connection (w : World) (panel : Html) :
  reachable w ->
  agent_status (document w) = Some panel ->
  exists status,
    panel = status_html status (isConnected (this w))
    /\ (isConnected (this w) = true -> status = "connected" \/ status = "error")
    /\ (isConnected (this w) = false ->
        status ∈ ["initializing"; "disconnected"; "error"; "failed"])
    /\ (Failed w -> status = "failed").
Proof.
  intros Hreach Hpanel. destruct (reachable_status w Hreach) as [Hp _].
  destruct (Hp panel Hpanel) as (status & -> & Hs).
  exists status. split; [reflexivity|]. split; [|split].
  - intros Hc. rewrite Hc in Hs.
    apply elem_of_cons in Hs. destruct Hs as [Hs|Hs]; [auto|].
    apply list_elem_of_singleton in Hs. auto.
  - intros Hc. rewrite Hc in Hs. exact Hs.
  - intros Hf.
    pose proof (inv_failed _ (reachable_conn_inv w Hreach) Hf _ Hpanel) as H.
    unfold status_html in H. congruence.
Qed.

(** X7: in every state the page can reach there is at most one live socket
    or pending reconnection, never both; a live socket is [this.ws].  As long
    as [reconnectAttempts] is below 5 there is exactly one of them, and when
    there is none the counter is at 5 and [isConnected] is false: the class
    gives up only when its budget is spent. *)
Theorem one_connection_or_exhausted (w : World) :
  reachable w ->
  n_live w + n_reconnect w <= 1
  /\ (forall k st, sockets (window w) !! k = Some st -> live st = true ->
        ws (this w) = Some k /\ n_reconnect w = 0)
  /\ (reconnectAttempts (this w) < 5 -> n_live w + n_reconnect w = 1)
  /\ (n_live w + n_reconnect w = 0 ->
        reconnectAttempts (this w) = 5 /\ isConnected (this w) = false).
Proof.
  intros Hreach. pose proof (reachable_conn_inv w Hreach) as Hinv.
  pose proof (inv_token _ Hinv) as Htoken.
  pose proof (inv_connected _ Hinv) as Hconn.
  destruct (reachable_status w Hreach) as [_ Hex]. unfold exhausted_ok in Hex.
  split; [exact Htoken|]. split; [|split].
  - intros k st Hk Hlive. split; [exact (inv_ws _ Hinv k st Hk Hlive)|].
    pose proof (live_pos _ k st Hk Hlive). unfold n_live in *. lia.
  - intros Hlt. destruct (decide (n_live w + n_reconnect w = 0)) as [H0|H0]; [|lia].
    apply Hex in H0. lia.
  - intros H0. split; [auto|].
    destruct (isConnected (this w)) eqn:E; [|reflexivity].
    destruct (Hconn eq_refl) as (k & _ & Hk).
    pose proof (live_pos _ k Open Hk eq_refl). unfold n_live in *. lia.
Qed.

(** ** What the class does to the outside *)

Section Emits.

Variable P : string -> Effect -> Prop.

Lemma emits_bind {A B} (m : M A) (k : A -> M B) :
  emits P m -> (forall a, emits P (k a)) -> emits P (bind m k).
Proof.
  intros Hm Hk w. unfold bind. destruct (Hm w) as (Hu & new & Ht & Hall).
  destruct (m w) as [[a|e] w1]; simpl in *.
  - destruct (Hk a w1) as (Hu' & new' & Ht' & Hall').
    split; [congruence|]. exists (new' ++ new).
    split; [rewrite Ht', Ht, app_assoc; reflexivity|].
    apply Forall_app. split; [rewrite <- Hu; exact Hall'|exact Hall].
  - split; [exact Hu|]. exists new. split; assumption.
Qed.

Lemma emits_same_window {A} (m : M A) :
  (forall w, window (snd (m w)) = window w) -> emits P m.
Proof.
  intros H w. unfold socket_url. rewrite H. split; [reflexivity|].
  exists []. split; [reflexivity|constructor].
Qed.

Lemma emits_lift {A} (c : Completion A) : emits P (lift c).
Proof. apply emits_same_window. reflexivity. Qed.

Lemma emits_throw {A} e : emits P (@throw A e).
Proof. apply emits_same_window. reflexivity. Qed.

Lemma emits_emit e : (forall url, P url e) -> emits P (emit e).
Proof.
  intros H w. split; [reflexivity|]. exists [e]. split; [reflexivity|].
  constructor; [apply H|constructor].
Qed.

Lemma emits_updateStatus status : emits P (updateStatus status).
Proof.
  apply emits_same_window. intros w. rewrite updateStatus_spec. apply shows_window.
Qed.

Lemma emits_updateThreatStats stats : emits P (updateThreatStats stats).
Proof.
  apply emits_same_window. intros w. rewrite updateThreatStats_spec. simpl.
  destruct (threat_stats (document w)); [destruct (truthy stats)|]; reflexivity.
Qed.

Lemma emits_updateSystemInfo statusData : emits P (updateSystemInfo statusData).
Proof.
  apply emits_same_window. intros w.
  unfold updateSystemInfo, lift, bind, get, modify, ret. simpl.
  destruct (system_info (document w)); [|reflexivity].
  destruct (get_prop "agent_status" statusData) as [v|]; [|reflexivity].
  destruct (truthy v); reflexivity.
Qed.

Lemma emits_addToEventLog eventType message level :
  emits P (addToEventLog eventType message level).
Proof.
  apply emits_same_window. intros w. rewrite addToEventLog_spec.
  destruct (event_log (document w)); reflexivity.
Qed.

Lemma emits_removeAlert node : emits P (removeAlert node).
Proof. apply emits_same_window. intros w. apply removeAlert_window. Qed.

Hypothesis P_log : forall url line, P url (ConsoleLog line).
Hypothesis P_error : forall url line, P url (ConsoleError line).
Hypothesis P_alert :
  forall url id node, P url (SetTimeout id 10000 (CbRemoveAlert node)).

Lemma emits_showAlert type data : emits P (showAlert type data).
Proof.
  intros w. rewrite showAlert_spec.
  destruct (formatAlertContent data);
    [|split; [reflexivity|exists []; split; [reflexivity|constructor]]].
  destruct (alerts_container (document w));
    [|split; [reflexivity|exists []; split; [reflexivity|constructor]]].
  split; [reflexivity|]. eexists [_]. split; [reflexivity|].
  constructor; [apply P_alert|constructor].
Qed.

Lemma emits_handleMessage message : emits P (handleMessage message).
Proof.
  unfold handleMessage, handleThreatDetected, handleEmergencyResponse,
    handleHighAlertResponse, handleEnhancedMonitoring, handleStatusUpdate,
    handleCommandExecuted, updateDashboard, updateCharts, console_log.
  repeat first
    [ apply emits_showAlert
    | apply emits_updateThreatStats
    | apply emits_addToEventLog
    | apply emits_updateSystemInfo
    | apply emits_lift
    | apply emits_throw
    | apply emits_emit; intros; apply P_log
    | apply emits_bind; [|intros ?]
    | match goal with
      | |- emits P (if ?c then _ else _) => destruct c
      end ].
Qed.

Lemma emits_onmessage data : emits P (onmessage data).
Proof. destruct data; [apply emits_handleMessage|apply emits_throw]. Qed.

Lemma emits_onerror : emits P onerror.
Proof.
  unfold onerror, console_error.
  apply emits_bind; [apply emits_emit; intros; apply P_error|intros _].
  apply emits_updateStatus.
Qed.

Hypothesis P_reconnect : forall url id, P url (SetTimeout id 3000 CbConnect).

Lemma emits_attemptReconnect : emits P attemptReconnect.
Proof.
  intros w. rewrite attemptReconnect_spec. cbn [snd].
  destruct (decide (reconnectAttempts (this w) < maxReconnectAttempts (this w))).
  - split; [reflexivity|]. eexists [_; _]. split; [reflexivity|].
    constructor; [apply P_reconnect|]. constructor; [apply P_log|constructor].
  - unfold socket_url. rewrite shows_window. split; [reflexivity|].
    eexists [_]. split; [reflexivity|]. constructor; [apply P_error|constructor].
Qed.

Lemma emits_onclose : emits P onclose.
Proof.
  unfold onclose, console_log.
  apply emits_bind; [apply emits_emit; intros; apply P_log|intros _].
  apply emits_bind; [apply emits_same_window; reflexivity|intros _].
  apply emits_bind; [apply emits_updateStatus|intros _].
  apply emits_attemptReconnect.
Qed.

Hypothesis P_socket : forall url sock, P url (NewWebSocket url sock).

Lemma emits_connectWebSocket accepted : emits P (connectWebSocket accepted).
Proof.
  intros w. rewrite connectWebSocket_spec. destruct accepted.
  - split; [reflexivity|]. eexists [_]. split; [reflexivity|].
    constructor; [apply P_socket|constructor].
  - match goal with
    | |- context [attemptReconnect ?x] =>
        destruct (emits_attemptReconnect x) as (Hu & new & Ht & Hall)
    end.
    split; [exact Hu|]. eexists (new ++ [_]).
    split; [rewrite Ht, <- app_assoc; reflexivity|].
    apply Forall_app. split; [exact Hall|].
    constructor; [apply P_error|constructor].
Qed.

Lemma emits_run_callback cb accepted : emits P (run_callback cb accepted).
Proof. destruct cb; [apply emits_connectWebSocket|apply emits_removeAlert]. Qed.

Lemma emits_sendMessage message :
  (forall url sock, P url (WsSend sock message)) -> emits P (sendMessage message).
Proof.
  intros Hsend w. rewrite sendMessage_spec.
  assert (Hnone : forall x : World,
            socket_url x = socket_url x
            /\ exists new, trace (window x) = new ++ trace (window x)
                           /\ Forall (P (socket_url x)) new).
  { intros x. split; [reflexivity|]. exists []. split; [reflexivity|constructor]. }
  assert (Herr : socket_url (traced (ConsoleError not_connected) w) = socket_url w
            /\ exists new, trace (window (traced (ConsoleError not_connected) w))
                           = new ++ trace (window w)
                           /\ Forall (P (socket_url w)) new).
  { split; [reflexivity|]. eexists [_]. split; [reflexivity|].
    constructor; [apply P_error|constructor]. }
  destruct (ws (this w)) as [sock|]; [|exact Herr].
  destruct (isConnected (this w)); [|exact Herr].
  destruct (sockets (window w) !! sock) as [[]|]; try apply Hnone.
  split; [reflexivity|]. eexists [_]. split; [reflexivity|].
  constructor; [apply Hsend|constructor].
Qed.

End Emits.

Lemma allowed_command url sock type :
  type ∈ command_types -> allowed url (WsSend sock (command type)).
Proof. intros H. exists type. split; [exact H|reflexivity]. Qed.

Ltac allowed_facts :=
  first [ intros; exact I
        | intros; right; split; [reflexivity|eexists; reflexivity]
        | intros; left; split; reflexivity
        | intros; reflexivity ].

Lemma allowed_click b : emits allowed (click b).
Proof.
  destruct b; apply emits_sendMessage; try allowed_facts;
    intros; apply allowed_command; unfold command_types; repeat constructor.
Qed.

Lemma allowed_onopen : emits allowed onopen.
Proof.
  unfold onopen, console_log.
  apply emits_bind; [apply emits_emit; allowed_facts|intros _].
  apply emits_bind; [apply emits_same_window; reflexivity|intros _].
  apply emits_bind; [apply emits_same_window; reflexivity|intros _].
  apply emits_bind; [apply emits_updateStatus|intros _].
  apply emits_sendMessage; try allowed_facts.
  intros; apply allowed_command; unfold command_types; repeat constructor.
Qed.

Lemma emits_weaken (P Q : string -> Effect -> Prop) {A} (m : M A) :
  (forall url e, P url e -> Q url e) -> emits P m -> emits Q m.
Proof.
  intros HPQ Hm w. destruct (Hm w) as (Hu & new & Ht & Hall).
  split; [exact Hu|]. exists new. split; [exact Ht|].
  eapply Forall_impl; [exact Hall|]. apply HPQ.
Qed.

Lemma silent_allowed url e : silent url e -> allowed url e.
Proof. destruct e; simpl; auto. intros []. Qed.

Lemma step_emits e w w' :
  step e w = Some w' ->
  socket_url w' = socket_url w
  /\ exists new, trace (window w') = new ++ trace (window w)
       /\ Forall (if transmits e then allowed (socket_url w) else silent (socket_url w))
            new.
Proof.
  assert (Hsilent : forall (m : M unit) x,
            emits silent m -> socket_url x = socket_url w ->
            trace (window x) = trace (window w) ->
            socket_url (snd (m x)) = socket_url w
            /\ exists new, trace (window (snd (m x))) = new ++ trace (window w)
                           /\ Forall (silent (socket_url w)) new).
  { intros m x Hm Hu Ht. destruct (Hm x) as (Hu' & new & Ht' & Hall).
    split; [congruence|]. exists new. rewrite <- Ht, <- Hu. auto. }
  intros Hstep. destruct e as [k|k data|k|k|id accepted|dt|b]; simpl in Hstep |- *.
  - destruct (sockets (window w) !! k) as [[]|]; try discriminate.
    injection Hstep as <-.
    destruct (allowed_onopen (set_socket k Open w)) as (Hu & new & Ht & Hall).
    split; [exact Hu|]. exists new. split; assumption.
  - destruct (sockets (window w) !! k) as [[]|]; try discriminate.
    injection Hstep as <-.
    apply Hsilent; [apply emits_onmessage; allowed_facts|reflexivity|reflexivity].
  - assert (Hw : w' = snd (onerror w)).
    { destruct (sockets (window w) !! k) as [[]|]; try discriminate;
        injection Hstep as <-; reflexivity. }
    subst w'.
    apply Hsilent; [apply emits_onerror; allowed_facts|reflexivity|reflexivity].
  - assert (Hw : w' = snd (onclose (set_socket k Closed w))).
    { destruct (sockets (window w) !! k) as [[]|]; try discriminate;
        injection Hstep as <-; reflexivity. }
    subst w'.
    apply Hsilent; [apply emits_onclose; allowed_facts|reflexivity|reflexivity].
  - destruct (find_timer id (timers (window w))) as [t|]; [|discriminate].
    destruct (decide (due t <= now (window w))%N); [|discriminate].
    injection Hstep as <-.
    apply Hsilent; [apply emits_run_callback; allowed_facts|reflexivity|reflexivity].
  - injection Hstep as <-. split; [reflexivity|]. exists [].
    split; [reflexivity|constructor].
  - injection Hstep as <-. destruct (allowed_click b w) as (Hu & new & Ht & Hall).
    split; [exact Hu|]. exists new. split; assumption.
Qed.

Lemma run_allowed es : forall w w',
  run es w = Some w' ->
  socket_url w' = socket_url w
  /\ (Forall (allowed (socket_url w)) (trace (window w)) ->
      Forall (allowed (socket_url w)) (trace (window w'))).
Proof.
  induction es as [|e es IH]; simpl; intros w w' Hrun.
  - injection Hrun as <-. auto.
  - destruct (step e w) as [w1|] eqn:Hstep; [|discriminate].
    destruct (step_emits e w w1 Hstep) as (Hu & new & Ht & Hall).
    destruct (IH w1 w' Hrun) as [Hu' Hkeep].
    split; [congruence|]. intros Hold. rewrite Hu in Hkeep. apply Hkeep.
    rewrite Ht. apply Forall_app. split; [|exact Hold].
    destruct (transmits e); [exact Hall|].
    eapply Forall_impl; [exact Hall|]. apply silent_allowed.
Qed.

Lemma constructor_allowed page protocol host t0 accepted :
  socket_url (constructor page protocol host t0 accepted) = dashboard_url protocol host
  /\ Forall (allowed (dashboard_url protocol host))
       (trace (window (constructor page protocol host t0 accepted))).
Proof.
  unfold constructor.
  match goal with
  | |- context [snd (?m ?x)] =>
      assert (Hm : emits allowed m);
      [|destruct (Hm x) as (Hu & new & Ht & Hall)]
  end.
  { unfold initializeDashboard.
    apply emits_bind; [apply emits_updateStatus|intros _].
    apply emits_connectWebSocket; allowed_facts. }
  split; [rewrite Hu; reflexivity|].
  rewrite Ht. simpl. rewrite app_nil_r. exact Hall.
Qed.

(** X8: whatever the browser delivers after the constructor, every payload
    the class has sent is one of the four commands, an object with the single
    field [type]; every socket was opened to the one URL built from the
    location of the page, 'wss:' exactly when the page was loaded over
    'https:'; and every timer was set either 3000 ms ahead for a reconnection
    or 10000 ms ahead for the removal of an alert. *)
Theorem only_commands_are_sent
    (page : Dom) (protocol host : string) (t0 : N) (accepted : bool)
    (es : list Event) (w : World) :
  run es (constructor page protocol host t0 accepted) = Some w ->
  (forall sock payload, WsSend sock payload ∈ trace (window w) ->
     exists type, type ∈ command_types /\ payload = command type)
  /\ (forall url sock, NewWebSocket url sock ∈ trace (window w) ->
        url = dashboard_url protocol host)
  /\ (forall id delay cb, SetTimeout id delay cb ∈ trace (window w) ->
        (delay = 3000%N /\ cb = CbConnect)
        \/ (delay = 10000%N /\ exists node, cb = CbRemoveAlert node)).
Proof.
  intros Hrun.
  destruct (constructor_allowed page protocol host t0 accepted) as [Hu Hall].
  destruct (run_allowed es _ _ Hrun) as [_ Hkeep]. rewrite Hu in Hkeep.
  specialize (Hkeep Hall). rewrite Forall_forall in Hkeep.
  split; [|split].
  - intros sock payload Hin. exact (Hkeep _ Hin).
  - intros url sock Hin. exact (Hkeep _ Hin).
  - intros id delay cb Hin. exact (Hkeep _ Hin).
Qed.

(** X9: only a socket that opens and a click on a button make the class
    transmit.  The handlers of an inbound message, of a socket error, of a
    close event and of a timer, and the passing of time, send nothing. *)
Theorem inbound_never_transmits (e : Event) (w w' : World) :
  step e w = Some w' ->
  transmits e = false ->
  exists new, trace (window w') = new ++ trace (window w)
    /\ forall sock payload, WsSend sock payload ∉ new.
Proof.
  intros Hstep He. destruct (step_emits e w w' Hstep) as (_ & new & Ht & Hall).
  rewrite He in Hall. exists new. split; [exact Ht|].
  intros sock payload Hin. rewrite Forall_forall in Hall.
  exact (Hall _ Hin).
Qed.

(** ** The REST helpers *)

(** X10: [configureAgent] always asks for both directories, in that order,
    even when the first prompt was cancelled.  When an answer is missing or
    empty it does nothing more: no request, no alert, no console line.  When
    both are given it posts them as typed, with an empty list of important
    folders, to /api/v1/configure, and then shows the alert that fits the
    response. *)
Theorem configureAgent_needs_both_directories
    (monitorDir backupDir : option string) (response : AgentApi.Outcome) :
  let tr := AgentApi.run AgentApi.configureAgent [monitorDir; backupDir] response in
  take 2 tr = [AgentApi.Prompted "Enter directory to monitor:" monitorDir;
               AgentApi.Prompted "Enter backup directory:" backupDir]
  /\ (AgentApi.given monitorDir && AgentApi.given backupDir = false -> length tr = 2)
  /\ (forall m b, monitorDir = Some m -> backupDir = Some b -> m <> "" -> b <> "" ->
        requests tr = [configure_request m b]
        /\ drop 2 tr
           = AgentApi.Fetched (configure_request m b) response
             :: match response with
                | AgentApi.Resolved true =>
                    [AgentApi.Alerted "Agent configured successfully!"]
                | AgentApi.Resolved false => [AgentApi.Alerted "Configuration failed!"]
                | AgentApi.Rejected =>
                    [AgentApi.Logged "Configuration error:";
                     AgentApi.Alerted "Configuration error!"]
                end)
  /\ (requests tr <> [] ->
      exists m b, monitorDir = Some m /\ backupDir = Some b /\ m <> "" /\ b <> "").
Proof.
  cbv zeta. split; [|split; [|split]].
  - simpl. destruct (AgentApi.given monitorDir && AgentApi.given backupDir);
      [destruct response as [|[]]|]; reflexivity.
  - simpl. intros ->. reflexivity.
  - intros m b -> -> Hm Hb. simpl.
    destruct (String.eqb_spec m ""); [contradiction|].
    destruct (String.eqb_spec b ""); [contradiction|]. simpl.
    split; [destruct response as [|[]]; reflexivity|].
    destruct response as [|[]]; reflexivity.
  - simpl. destruct monitorDir as [m|], backupDir as [b|]; simpl;
      try (intros H; exfalso; apply H; reflexivity);
      destruct (String.eqb_spec m ""); simpl;
      try (intros H; exfalso; apply H; reflexivity);
      destruct (String.eqb_spec b ""); simpl;
      try (intros H; exfalso; apply H; reflexivity).
    intros _. exists m, b. auto.
Qed.

Lemma prompts_quiet (ps : list (string * option string)) :
  let pre := (fun p => AgentApi.Prompted p.1 p.2) <$> ps in
  requests pre = [] /\ alerts pre = [] /\ console_lines pre = [].
Proof.
  induction ps as [|p ps IH]; [repeat split|]. destruct IH as (H1 & H2 & H3).
  repeat split; simpl; assumption.
Qed.

Lemma helper_facts (ps : list (string * option string)) (rest : list AgentApi.Event)
    (success : string) (response : AgentApi.Outcome) :
  let tr := ((fun p => AgentApi.Prompted p.1 p.2) <$> ps) ++ rest in
  (rest = []
   \/ exists req failed label error,
        success <> failed /\ success <> error
        /\ rest = AgentApi.Fetched req response
                  :: match response with
                     | AgentApi.Resolved true => [AgentApi.Alerted success]
                     | AgentApi.Resolved false => [AgentApi.Alerted failed]
                     | AgentApi.Rejected =>
                         [AgentApi.Logged label; AgentApi.Alerted error]
                     end
        /\ AgentApi.method req = "POST") ->
  length (requests tr) <= 1
  /\ length (alerts tr) = length (requests tr)
  /\ Forall (fun req => AgentApi.method req = "POST") (requests tr)
  /\ (requests tr <> [] -> exists text, last tr = Some (AgentApi.Alerted text))
  /\ (success ∈ alerts tr <-> requests tr <> [] /\ response = AgentApi.Resolved true)
  /\ (console_lines tr <> [] <-> requests tr <> [] /\ response = AgentApi.Rejected).
Proof.
  intros tr Hrest. subst tr.
  destruct (prompts_quiet ps) as (H1 & H2 & H3). cbv zeta in H1, H2, H3.
  unfold requests, alerts, console_lines in *.
  rewrite !omap_app, H1, H2, H3. simpl.
  destruct Hrest as [->|(req & failed & label & error & Hf & He & -> & Hpost)].
  - simpl. split; [lia|]. split; [reflexivity|]. split; [constructor|].
    split; [congruence|]. split; split; try congruence.
    + intros H. inversion H.
    + intros [H _]. congruence.
    + intros [H _]. congruence.
  - assert (Hlast : forall text l, last (((fun p => AgentApi.Prompted p.1 p.2) <$> ps)
                                          ++ l ++ [AgentApi.Alerted text])
                                   = Some (AgentApi.Alerted text)).
    { intros text l. rewrite app_assoc. apply last_snoc. }
    assert (Hside : forall (A B : Prop), (A -> B) -> (B -> A) -> (A <-> B))
      by (intros; split; assumption).
    destruct response as [|[]]; simpl;
      (split; [lia|]); (split; [reflexivity|]);
      (split; [constructor; [exact Hpost|constructor]|]); split.
    + intros _. exists error.
      exact (Hlast error [AgentApi.Fetched req AgentApi.Rejected; AgentApi.Logged label]).
    + split; apply Hside.
      * intros H. apply list_elem_of_singleton in H. congruence.
      * intros [_ H]. discriminate H.
      * intros _. split; [discriminate|reflexivity].
      * intros _. discriminate.
    + intros _. exists success.
      exact (Hlast success [AgentApi.Fetched req (AgentApi.Resolved true)]).
    + split; apply Hside.
      * intros _. split; [discriminate|reflexivity].
      * intros _. apply list_elem_of_singleton. reflexivity.
      * intros H. exfalso. apply H. reflexivity.
      * intros [_ H]. discriminate H.
    + intros _. exists failed.
      exact (Hlast failed [AgentApi.Fetched req (AgentApi.Resolved false)]).
    + split; apply Hside.
      * intros H. apply list_elem_of_singleton in H. congruence.
      * intros [_ H]. discriminate H.
      * intros H. exfalso. apply H. reflexivity.
      * intros [_ H]. discriminate H.
Qed.

(** X11: whatever the user answers and however the request ends,
    [configureAgent], [startMonitoring] and [simulateThreat] make at most one
    request, always a POST, and show exactly one alert for it, as the last
    thing they do.  The alert is the one for success exactly when the response
    is ok, and a line is written to the console exactly when the request
    itself failed: a response with an error status is reported by its alert
    only. *)
Theorem rest_helpers_alert_once
    (task : AgentApi.Task) (success : string)
    (answers : list (option string)) (response : AgentApi.Outcome) :
  (task, success) ∈ rest_helpers ->
  let tr := AgentApi.run task answers response in
  length (requests tr) <= 1
  /\ length (alerts tr) = length (requests tr)
  /\ Forall (fun req => AgentApi.method req = "POST") (requests tr)
  /\ (requests tr <> [] -> exists text, last tr = Some (AgentApi.Alerted text))
  /\ (success ∈ alerts tr <-> requests tr <> [] /\ response = AgentApi.Resolved true)
  /\ (console_lines tr <> [] <-> requests tr <> [] /\ response = AgentApi.Rejected).
Proof.
  intros Hin. unfold rest_helpers in Hin.
  repeat (apply elem_of_cons in Hin; destruct Hin as [Hin|Hin];
          [injection Hin as -> ->|]);
    [| | |inversion Hin].
  - set (a1 := mjoin (head answers)). set (a2 := mjoin (head (tail answers))).
    apply (helper_facts [("Enter directory to monitor:", a1);
                         ("Enter backup directory:", a2)]).
    fold a1 a2. simpl. destruct (AgentApi.given a1 && AgentApi.given a2).
    + right. eexists _, "Configuration failed!", "Configuration error:",
        "Configuration error!".
      split; [discriminate|]. split; [discriminate|].
      split; [destruct response as [|[]]; reflexivity|reflexivity].
    + left. reflexivity.
  - apply (helper_facts []). right.
    eexists _, "Failed to start monitoring!", "Start monitoring error:",
      "Start monitoring error!".
    split; [discriminate|]. split; [discriminate|].
    split; [destruct response as [|[]]; reflexivity|reflexivity].
  - apply (helper_facts []). right.
    eexists _, "Failed to simulate threat!", "Threat simulation error:",
      "Threat simulation error!".
    split; [discriminate|]. split; [discriminate|].
    split; [destruct response as [|[]]; reflexivity|reflexivity].
Qed.

(** ** The admin page and its responses *)

Lemma count_status_spec status agents :
  Forall readable agents ->
  AdminPage.count_status status agents = Normal (with_status status agents).
Proof.
  induction 1 as [|a agents [Hn Hu] _ IH]; [reflexivity|].
  simpl. rewrite IH. unfold with_status, agent_status_of. simpl.
  destruct a; try contradiction; simpl;
    try reflexivity.
  destruct (is_str status (assoc "status" fields)); reflexivity.
Qed.

Lemma count_status_throws status agents :
  ~ Forall readable agents ->
  AdminPage.count_status status agents = Throw TypeError.
Proof.
  induction agents as [|a agents IH]; intros H; [exfalso; apply H; constructor|].
  simpl. destruct a; simpl; try reflexivity.
  all: rewrite IH; [reflexivity|].
  all: intros Hall; apply H; constructor; [split; discriminate|exact Hall].
Qed.

Lemma readable_dec (agents : list JValue) :
  Forall readable agents \/ ~ Forall readable agents.
Proof.
  induction agents as [|a agents [IH|IH]].
  - left. constructor.
  - destruct a; try (left; constructor; [split; discriminate|exact IH]);
      right; intros H; inversion H as [|? ? [Hn Hu]]; congruence.
  - right. intros H. inversion H. contradiction.
Qed.

Lemma charted_split (agents : list JValue) :
  with_status "online" agents + with_status "offline" agents
  + with_status "quarantined" agents
  = length (List.filter charted agents).
Proof.
  unfold with_status, charted. induction agents as [|a agents IH]; [reflexivity|].
  simpl. destruct (agent_status_of a) as [| | | |s| |]; simpl; try exact IH.
  destruct (String.eqb_spec s "online") as [->|H1]; simpl; [lia|].
  destruct (String.eqb_spec s "offline") as [->|H2]; simpl; [lia|].
  destruct (String.eqb_spec s "quarantined") as [->|H3]; simpl; lia.
Qed.

(** X13: the three numbers [updateAgentChart] computes are the numbers of
    agents whose [status] is exactly 'online', 'offline' and 'quarantined';
    counting throws a TypeError exactly when an element of the array is [null]
    or [undefined].  An agent is counted at most once, and an agent with any
    other status, or with none, is counted nowhere: the three numbers add up
    to the number of agents exactly when every agent has one of the three
    statuses. *)
Theorem agent_chart_counts (agents : list JValue) :
  (Forall readable agents ->
     forall status,
       AdminPage.filter_count status (JArr agents) = Normal (with_status status agents))
  /\ (~ Forall readable agents ->
        forall status, AdminPage.filter_count status (JArr agents) = Throw TypeError)
  /\ with_status "online" agents + with_status "offline" agents
     + with_status "quarantined" agents
     = length (List.filter charted agents)
  /\ length (List.filter charted agents) <= length agents
  /\ (length (List.filter charted agents) = length agents
      <-> Forall (fun a => charted a = true) agents).
Proof.
  split; [|split; [|split; [|split]]].
  - intros H status. apply count_status_spec, H.
  - intros H status. apply count_status_throws, H.
  - apply charted_split.
  - apply List.filter_length_le.
  - induction agents as [|a agents IH]; [split; [constructor|reflexivity]|].
    simpl. pose proof (List.filter_length_le charted agents) as Hle.
    destruct (charted a) eqn:E; simpl.
    + split.
      * intros H. constructor; [exact E|]. apply IH. lia.
      * intros H. inversion H; subst. f_equal. apply IH. assumption.
    + split; [lia|]. intros H. inversion H; subst. congruence.
Qed.

Lemma updateAgentChart_spec data w :
  AdminPage.updateAgentChart data w =
  match AdminPage.charts_agent w with
  | None => (Normal tt, w)
  | Some _ =>
      match get_prop "agents" data with
      | Normal (JArr agents) =>
          match AdminPage.count_status "online" agents with
          | Normal _ =>
              (Normal tt,
               {| AdminPage.liveAgents := AdminPage.liveAgents w;
                  AdminPage.liveIncidents := AdminPage.liveIncidents w;
                  AdminPage.responseTime := AdminPage.responseTime w;
                  AdminPage.systemHealth := AdminPage.systemHealth w;
                  AdminPage.agentChart := AdminPage.agentChart w;
                  AdminPage.charts_agent :=
                    Some [with_status "online" agents; with_status "offline" agents;
                          with_status "quarantined" agents];
                  AdminPage.trace := AdminPage.ChartUpdate :: AdminPage.trace w |})
          | Throw e => (Throw TypeError, w)
          end
      | _ => (Throw TypeError, w)
      end
  end.
Proof.
  unfold AdminPage.updateAgentChart, AdminPage.bind, AdminPage.get, AdminPage.lift,
    AdminPage.ret.
  destruct (AdminPage.charts_agent w) as [old|]; [|reflexivity].
  destruct (get_prop "agents" data) as [agents|e] eqn:Hagents.
  - destruct agents as [| | | | |agents|]; try reflexivity. simpl.
    destruct (readable_dec agents) as [Hr|Hr].
    + rewrite !(count_status_spec _ _ Hr). reflexivity.
    + rewrite !(count_status_throws _ _ Hr). reflexivity.
  - destruct data; simpl in Hagents; try discriminate; injection Hagents as <-;
      reflexivity.
Qed.

(** X14: from the response on, [updateAgents] never throws.  Without a chart
    a response that parses is ignored altogether, whatever it holds.  With a
    chart, a body whose [agents] is an array of readable values replaces the
    data of the chart by the three counts and redraws it; everything else
    (a failed request, a body that is not JSON, a missing or malformed
    [agents]) leaves the chart with the data it had and writes one line to
    the console. *)
Theorem updateAgents_never_throws (r : AdminPage.Response) (w : AdminPage.World) :
  let w' := snd (AdminPage.updateAgents r w) in
  fst (AdminPage.updateAgents r w) = Normal tt
  /\ (AdminPage.charts_agent w = None ->
      AdminPage.charts_agent w' = None
      /\ forall data, r = AdminPage.Body data -> w' = w)
  /\ (forall old data agents,
        AdminPage.charts_agent w = Some old ->
        r = AdminPage.Body data ->
        get_prop "agents" data = Normal (JArr agents) ->
        Forall readable agents ->
        AdminPage.charts_agent w'
        = Some [with_status "online" agents; with_status "offline" agents;
                with_status "quarantined" agents]
        /\ AdminPage.trace w' = AdminPage.ChartUpdate :: AdminPage.trace w)
  /\ (AdminPage.charts_agent w' <> AdminPage.charts_agent w ->
      exists data agents,
        r = AdminPage.Body data
        /\ get_prop "agents" data = Normal (JArr agents)
        /\ Forall readable agents)
  /\ (AdminPage.trace w' = AdminPage.trace w
      \/ AdminPage.trace w' = AdminPage.ChartUpdate :: AdminPage.trace w
      \/ exists e, AdminPage.charts_agent w' = AdminPage.charts_agent w
                   /\ AdminPage.trace w'
                      = AdminPage.ConsoleError "Error updating agents:" e
                        :: AdminPage.trace w).
Proof.
  cbv zeta. unfold AdminPage.updateAgents, AdminPage.try_catch, AdminPage.bind,
    AdminPage.lift.
  destruct r as [| |data]; simpl.
  - repeat split; try discriminate; try congruence; auto.
    right. right. eexists. split; reflexivity.
  - repeat split; try discriminate; try congruence; auto.
    right. right. eexists. split; reflexivity.
  - rewrite updateAgentChart_spec.
    destruct (AdminPage.charts_agent w) as [old|] eqn:Hchart; simpl.
    + destruct (get_prop "agents" data) as [[| | | | |agents|]|e] eqn:Hagents; simpl;
        try (rewrite Hchart; repeat split; try discriminate; try congruence; auto;
             right; right; eexists; split; reflexivity).
      destruct (readable_dec agents) as [Hr|Hr].
      * rewrite (count_status_spec _ _ Hr). simpl.
        split; [reflexivity|]. split; [discriminate|]. split.
        { intros old' data' agents' _ Hd Hg _. injection Hd as <-.
          rewrite Hagents in Hg. injection Hg as <-. split; reflexivity. }
        split; [intros _; exists data, agents; auto|]. right. left. reflexivity.
      * rewrite (count_status_throws _ _ Hr). simpl. rewrite Hchart.
        split; [reflexivity|]. split; [discriminate|]. split.
        { intros old' data' agents' _ Hd Hg Hr'. injection Hd as <-.
          rewrite Hagents in Hg. injection Hg as <-. contradiction. }
        split; [congruence|]. right. right. eexists. split; reflexivity.
    + rewrite Hchart. split; [reflexivity|]. split.
      { split; [reflexivity|]. intros; reflexivity. }
      split; [discriminate|]. split; [congruence|]. left. reflexivity.
Qed.



(** ** Initialising the admin page *)

(** X15: [initialize] starts the polling before it builds the chart.  The
    interval is set and its handle kept in [statsInterval] whatever the page
    looks like; on a page with the canvas the chart then starts with the mock
    data [8, 2, 1]; on a page without it [initialize] throws a TypeError with
    the polling already running and no chart, and every agents response that
    parses is then ignored. *)
Theorem initialize_polls_even_without_chart
    (u : DashboardUpdater.World) (p : AdminPage.World) :
  let r := admin_initialize u p in
  let interval :=
    {| tid := DashboardUpdater.next_timer u;
       due := (DashboardUpdater.now u + 5000)%N; period := Some 5000%N;
       callback := DashboardUpdater.CbPoll |} in
  snd (fst r) = DashboardUpdater.initialize u
  /\ DashboardUpdater.statsInterval (snd (fst r)) = Some (DashboardUpdater.next_timer u)
  /\ DashboardUpdater.timers (snd (fst r)) = DashboardUpdater.timers u ++ [interval]
  /\ (AdminPage.agentChart p = true ->
      fst (fst r) = Normal tt /\ AdminPage.charts_agent (snd r) = Some [8; 2; 1])
  /\ (AdminPage.agentChart p = false ->
      fst (fst r) = Throw TypeError /\ snd r = p)
  /\ (AdminPage.agentChart p = false -> AdminPage.charts_agent p = None ->
      forall data,
        AdminPage.updateAgents (AdminPage.Body data) (snd r) = (Normal tt, snd r)).
Proof.
  cbv zeta. unfold admin_initialize, AdminPage.initializeCharts, AdminPage.bind,
    AdminPage.get. simpl.
  split; [reflexivity|]. split; [reflexivity|]. split; [reflexivity|].
  destruct (AdminPage.agentChart p) eqn:Hcanvas; simpl.
  - split; [auto|]. split; discriminate.
  - split; [discriminate|]. split; [auto|]. intros _ Hchart data.
    unfold AdminPage.updateAgents, AdminPage.try_catch, AdminPage.bind, AdminPage.lift.
    simpl. rewrite updateAgentChart_spec, Hchart. reflexivity.
Qed.

(** ** Polling on the admin page *)

Lemma updater_inv_start next t0 : updater_inv next t0 (updater_start next t0).
Proof.
  unfold updater_inv, fetches. simpl.
  split; [reflexivity|]. split; [reflexivity|]. split; [reflexivity|].
  split; [lia|]. eexists. split; [reflexivity|]. lia.
Qed.

Lemma fetches_cons url u tr :
  fetches url (DashboardUpdater.Fetch u :: tr)
  = Nat.b2n (String.eqb u url) + fetches url tr.
Proof.
  unfold fetches. cbn [List.filter]. destruct (String.eqb u url); reflexivity.
Qed.

Lemma updater_step_inv next t0 e w w' :
  DashboardUpdater.step e w = Some w' -> updater_inv next t0 w -> updater_inv next t0 w'.
Proof.
  unfold updater_inv. intros Hstep (Hid & Hs & Ha & Hrate & d & Hts & Hd).
  destruct e as [id|dt]; simpl in Hstep.
  - rewrite Hts in Hstep. simpl in Hstep.
    destruct (Nat.eqb_spec next id) as [<-|Hne]; [|discriminate].
    simpl in Hstep. destruct (decide (d <= DashboardUpdater.now w)%N); [|discriminate].
    injection Hstep as <-.
    unfold DashboardUpdater.poll, DashboardUpdater.updateAgents,
      DashboardUpdater.updateIncidents, DashboardUpdater.updateStats,
      DashboardUpdater.emit.
    cbn [DashboardUpdater.trace DashboardUpdater.statsInterval DashboardUpdater.now
         DashboardUpdater.timers DashboardUpdater.next_timer].
    rewrite !fetches_cons. cbn [String.eqb Ascii.eqb Bool.eqb Nat.b2n Nat.add].
    split; [exact Hid|]. split; [lia|]. split; [lia|]. split; [lia|].
    unfold after_fire. cbn [period tid due callback List.map].
    rewrite Nat.eqb_refl. eexists. split; [reflexivity|]. lia.
  - injection Hstep as <-. simpl. split; [exact Hid|]. split; [exact Hs|].
    split; [exact Ha|]. split; [lia|]. exists d. auto.
Qed.

Lemma updater_run_inv next t0 es : forall w w',
  updater_run es w = Some w' -> updater_inv next t0 w -> updater_inv next t0 w'.
Proof.
  induction es as [|e es IH]; simpl; intros w w' Hrun Hinv.
  - injection Hrun as <-. exact Hinv.
  - destruct (DashboardUpdater.step e w) as [w1|] eqn:Hstep; [|discriminate].
    eapply IH; [exact Hrun|]. eapply updater_step_inv; eauto.
Qed.

(** X16: between [initialize] and [stop], whatever timers fire and however
    time passes, the interval stays pending and each of its rounds requests
    the three endpoints once.  The statistics have been requested once more
    than the incidents and the agents, which the first call leaves out, and
    the rounds are at least 5000 ms apart: after [n] rounds at least
    5000 * n ms have passed since [initialize]. *)
Theorem admin_polls_every_five_seconds
    (next : nat) (t0 : N) (es : list DashboardUpdater.Event)
    (w : DashboardUpdater.World) :
  updater_run es (updater_start next t0) = Some w ->
  let rounds := fetches "/admin/api/incidents/recent" (DashboardUpdater.trace w) in
  fetches "/admin/api/stats" (DashboardUpdater.trace w) = S rounds
  /\ fetches "/admin/api/agents/status" (DashboardUpdater.trace w) = rounds
  /\ (t0 + 5000 * N.of_nat rounds <= DashboardUpdater.now w)%N
  /\ exists d, DashboardUpdater.timers w
               = [{| tid := next; due := d; period := Some 5000%N;
                     callback := DashboardUpdater.CbPoll |}].
Proof.
  intros Hrun rounds.
  destruct (updater_run_inv next t0 es _ _ Hrun (updater_inv_start next t0))
    as (_ & Hs & Ha & Hrate & d & Hts & Hd).
  split; [exact Hs|]. split; [exact Ha|]. split; [exact Hrate|].
  exists d. exact Hts.
Qed.

Lemma stopped_run es : forall (w w' : DashboardUpdater.World),
  DashboardUpdater.timers w = [] -> updater_run es w = Some w' ->
  DashboardUpdater.timers w' = []
  /\ DashboardUpdater.trace w' = DashboardUpdater.trace w
  /\ DashboardUpdater.statsInterval w' = DashboardUpdater.statsInterval w.
Proof.
  induction es as [|e es IH]; simpl; intros w w' Hts Hrun.
  - injection Hrun as <-. auto.
  - destruct e as [id|dt]; simpl in Hrun.
    + rewrite Hts in Hrun. discriminate.
    + apply IH in Hrun; [|exact Hts]. exact Hrun.
Qed.

(** X17: when [initialize] has run once, [stop] ends the polling for good:
    it cancels the interval, no timer is left that could fire, and no request
    is made afterwards, whatever the browser delivers.  [statsInterval] keeps
    the stale handle. *)
Theorem stop_ends_polling
    (next : nat) (t0 : N) (es1 es2 : list DashboardUpdater.Event)
    (w1 w2 : DashboardUpdater.World) :
  next <> 0 ->
  updater_run es1 (updater_start next t0) = Some w1 ->
  updater_run es2 (DashboardUpdater.stop w1) = Some w2 ->
  DashboardUpdater.timers w2 = []
  /\ DashboardUpdater.trace w2
     = DashboardUpdater.ClearInterval next :: DashboardUpdater.trace w1
  /\ (forall id, DashboardUpdater.step (DashboardUpdater.EvTimer id) w2 = None)
  /\ DashboardUpdater.statsInterval w2 = Some next.
Proof.
  intros Hnext Hrun1 Hrun2.
  destruct (updater_run_inv next t0 es1 _ _ Hrun1 (updater_inv_start next t0))
    as (Hid & _ & _ & _ & d & Hts & _).
  assert (Hstop : DashboardUpdater.timers (DashboardUpdater.stop w1) = []
                  /\ DashboardUpdater.trace (DashboardUpdater.stop w1)
                     = DashboardUpdater.ClearInterval next :: DashboardUpdater.trace w1
                  /\ DashboardUpdater.statsInterval (DashboardUpdater.stop w1)
                     = Some next).
  { unfold DashboardUpdater.stop. rewrite Hid.
    destruct (Nat.eqb_spec next 0); [contradiction|]. simpl.
    rewrite ?Hts. simpl. rewrite ?Nat.eqb_refl. simpl. auto. }
  destruct Hstop as (Hts' & Htr & Hid').
  destruct (stopped_run es2 _ _ Hts' Hrun2) as (H1 & H2 & H3).
  split; [exact H1|]. split; [congruence|]. split; [|congruence].
  intros id. simpl. rewrite H1. reflexivity.
Qed.

(** ** Polling on the console page *)

Lemma after_fire_interval {C} (t : Timer C) ts p u :
  period t = Some p -> u ∈ after_fire t ts ->
  exists v, v ∈ ts /\ tid v = tid u /\ callback v = callback u
            /\ period v = period u
            /\ due u = if Nat.eqb (tid v) (tid t) then (due v + p)%N else due v.
Proof.
  unfold after_fire. intros -> Hu.
  apply list_elem_of_In, List.in_map_iff in Hu. destruct Hu as (v & <- & Hv).
  exists v. split; [apply list_elem_of_In, Hv|].
  destruct (Nat.eqb (tid v) (tid t)); repeat split.
Qed.

Lemma after_fire_rearmed {C} (t : Timer C) ts p :
  period t = Some p -> t ∈ ts ->
  {| tid := tid t; due := (due t + p)%N; period := period t; callback := callback t |}
  ∈ after_fire t ts.
Proof.
  unfold after_fire. intros Hp Hin. rewrite Hp.
  apply list_elem_of_In, List.in_map_iff. exists t.
  split; [|apply list_elem_of_In, Hin]. rewrite Nat.eqb_refl, Hp. reflexivity.
Qed.

Lemma updates_cons e tr :
  updates (e :: tr)
  = (match e with Console.UpdateDashboard => 1 | _ => 0 end) + updates tr.
Proof. unfold updates. destruct e; reflexivity. Qed.

Lemma console_inv_start tab t0 :
  console_inv t0 (Console.startRealTimeUpdates (console_page tab t0)).
Proof.
  constructor; simpl.
  - constructor; simpl.
    + apply NoDup_singleton.
    + constructor; [simpl; lia|constructor].
    + constructor; [|constructor]. simpl. intros m Hm. discriminate.
    + constructor.
  - unfold updates. simpl. lia.
  - intros t Ht _. apply list_elem_of_singleton in Ht. subst t. simpl.
    split; [reflexivity|]. unfold updates. simpl. lia.
  - intros t u Ht Hu _ _. apply list_elem_of_singleton in Ht, Hu. congruence.
  - eexists. split; [apply list_elem_of_singleton; reflexivity|reflexivity].
Qed.

Lemma console_step_inv t0 e w w' :
  Console.step e w = Some w' -> console_inv t0 w -> console_inv t0 w'.
Proof.
  intros Hstep Hinv.
  pose proof (console_step_sound e w w' Hstep (ci_sound _ _ Hinv)) as Hsound'.
  destruct Hinv as [Hsound Hrate Hpoll Hone (tp & Htp & Hcbp)].
  pose proof (cs_nodup _ Hsound) as Hnd.
  destruct e as [id|dt|node|message type|tab]; simpl in Hstep.
  - destruct (find_timer id (Console.timers w)) as [t|] eqn:Hfind; [|discriminate].
    destruct (decide (due t <= Console.now w)%N) as [Hdue|]; [|discriminate].
    injection Hstep as <-. apply find_timer_Some in Hfind. destruct Hfind as [Hin _].
    destruct (callback t) eqn:Hcb; simpl in *.
    + (* the interval *)
      destruct (Hpoll t Hin Hcb) as [Hp Hlow].
      assert (Hc : updates (Console.trace
                    (Console.poll
                       {| Console.currentTab := Console.currentTab w;
                          Console.body := Console.body w;
                          Console.next_node := Console.next_node w;
                          Console.timers := after_fire t (Console.timers w);
                          Console.next_timer := Console.next_timer w;
                          Console.now := Console.now w;
                          Console.trace := Console.trace w |}))
                   <= S (updates (Console.trace w))).
      { unfold Console.poll. simpl.
        destruct (String.eqb (Console.currentTab w) "dashboard"); simpl;
          [rewrite updates_cons|]; lia. }
      assert (Hts : Console.timers
                      (Console.poll
                         {| Console.currentTab := Console.currentTab w;
                            Console.body := Console.body w;
                            Console.next_node := Console.next_node w;
                            Console.timers := after_fire t (Console.timers w);
                            Console.next_timer := Console.next_timer w;
                            Console.now := Console.now w;
                            Console.trace := Console.trace w |})
                    = after_fire t (Console.timers w)).
      { unfold Console.poll. simpl.
        destruct (String.eqb (Console.currentTab w) "dashboard"); reflexivity. }
      assert (Hnow : Console.now
                      (Console.poll
                         {| Console.currentTab := Console.currentTab w;
                            Console.body := Console.body w;
                            Console.next_node := Console.next_node w;
                            Console.timers := after_fire t (Console.timers w);
                            Console.next_timer := Console.next_timer w;
                            Console.now := Console.now w;
                            Console.trace := Console.trace w |})
                    = Console.now w).
      { unfold Console.poll. simpl.
        destruct (String.eqb (Console.currentTab w) "dashboard"); reflexivity. }
      pose proof (cs_nodup _ Hsound') as Hnd'. rewrite Hts in Hnd'.
      constructor; rewrite ?Hts, ?Hnow.
      * exact Hsound'.
      * lia.
      * intros u Hu Hcu.
        destruct (after_fire_interval t _ _ u Hp Hu) as (v & Hv & Hid & Hcv & Hpv & Hd).
        assert (v = t) by (apply Hone; congruence). subst v.
        rewrite Nat.eqb_refl in Hd. split; [congruence|]. lia.
      * intros u1 u2 Hu1 Hu2 Hc1 Hc2.
        destruct (after_fire_interval t _ _ u1 Hp Hu1) as (v1 & Hv1 & Hid1 & Hcv1 & _).
        destruct (after_fire_interval t _ _ u2 Hp Hu2) as (v2 & Hv2 & Hid2 & Hcv2 & _).
        assert (v1 = v2) by (apply Hone; congruence). subst v2.
        eapply same_tid_same_timer; [exact Hnd'|exact Hu1|exact Hu2|congruence].
      * eexists. split; [apply (after_fire_rearmed t _ _ Hp Hin)|exact Hcb].
    + (* the removal of a toast *)
      assert (Hkeep : forall u, u ∈ after_fire t (Console.timers w) ->
                callback u = Console.CbPoll -> u ∈ Console.timers w).
      { intros u Hu Hcu.
        destruct (after_fire_elem _ _ _ Hu) as (v & Hv & Hid & Hcv & _ & Hsame).
        destruct (decide (tid v = tid t)) as [Heq|Hne].
        - assert (v = t) by (eapply same_tid_same_timer; eauto). congruence.
        - rewrite <- (Hsame Hne). exact Hv. }
      constructor; simpl.
      * exact Hsound'.
      * exact Hrate.
      * intros u Hu Hcu. apply Hpoll; auto.
      * intros u1 u2 Hu1 Hu2 Hc1 Hc2. apply Hone; auto.
      * exists tp. split; [|exact Hcbp]. apply after_fire_keeps; [exact Htp|].
        intros Heq. assert (tp = t) by (eapply same_tid_same_timer; eauto). congruence.
  - injection Hstep as <-. constructor; simpl.
    + exact Hsound'.
    + lia.
    + exact Hpoll.
    + exact Hone.
    + eauto.
  - destruct (existsb _ _); [|discriminate]. injection Hstep as <-.
    constructor; simpl; eauto.
  - injection Hstep as <-. constructor; simpl.
    + exact Hsound'.
    + rewrite updates_cons. simpl. exact Hrate.
    + intros t Ht Hct. rewrite updates_cons. simpl.
      apply elem_of_app in Ht. destruct Ht as [Ht|Ht]; [auto|].
      apply list_elem_of_singleton in Ht. subst t. discriminate.
    + intros t u Ht Hu Hct Hcu.
      apply elem_of_app in Ht, Hu.
      destruct Ht as [Ht|Ht]; [|apply list_elem_of_singleton in Ht; subst t; discriminate].
      destruct Hu as [Hu|Hu]; [|apply list_elem_of_singleton in Hu; subst u; discriminate].
      auto.
    + exists tp. split; [apply elem_of_app; left; exact Htp|exact Hcbp].
  - injection Hstep as <-. constructor; simpl; eauto.
Qed.

Lemma console_run_inv t0 es : forall w w',
  Console.run es w = Some w' -> console_inv t0 w -> console_inv t0 w'.
Proof.
  induction es as [|e es IH]; simpl; intros w w' Hrun Hinv.
  - injection Hrun as <-. exact Hinv.
  - destruct (Console.step e w) as [w1|] eqn:Hstep; [|discriminate].
    eapply IH; [exact Hrun|]. eapply console_step_inv; eauto.
Qed.

(** X19: once [startRealTimeUpdates] has run on the console page, whatever
    toasts are shown, closed and removed and whatever tab is chosen, the
    interval stays pending with its period of 10000 ms, and [updateDashboard]
    has been called at most once per 10000 ms since.  When a timer fires,
    [updateDashboard] is called exactly when the timer is the interval and
    [currentTab] is 'dashboard' at that moment. *)
Theorem console_polls_every_ten_seconds
    (tab : string) (t0 : N) (es : list Console.Event) (w : Console.World) :
  Console.run es (Console.startRealTimeUpdates (console_page tab t0)) = Some w ->
  (t0 + 10000 * N.of_nat (updates (Console.trace w)) <= Console.now w)%N
  /\ (exists t, t ∈ Console.timers w /\ callback t = Console.CbPoll
                /\ period t = Some 10000%N)
  /\ (forall id w', Console.step (Console.EvTimer id) w = Some w' ->
        updates (Console.trace w')
        = updates (Console.trace w)
          + match find_timer id (Console.timers w) with
            | Some t =>
                match callback t with
                | Console.CbPoll =>
                    if String.eqb (Console.currentTab w) "dashboard" then 1 else 0
                | Console.CbRemoveToast _ => 0
                end
            | None => 0
            end).
Proof.
  intros Hrun.
  pose proof (console_run_inv t0 es _ _ Hrun (console_inv_start tab t0)) as Hinv.
  destruct Hinv as [Hsound Hrate Hpoll Hone (tp & Htp & Hcbp)].
  split; [exact Hrate|]. split.
  - exists tp. split; [exact Htp|]. split; [exact Hcbp|]. apply Hpoll; assumption.
  - intros id w' Hstep. simpl in Hstep.
    destruct (find_timer id (Console.timers w)) as [t|]; [|discriminate].
    destruct (decide (due t <= Console.now w)%N); [|discriminate].
    injection Hstep as <-. destruct (callback t); simpl; [|lia].
    unfold Console.poll. simpl.
    destruct (String.eqb (Console.currentTab w) "dashboard"); simpl;
      [rewrite updates_cons|]; lia.
Qed.

(** ** Severity badges *)

(** X18: [getSeverityBadge] throws a TypeError exactly when [level] is not a
    string.  For a string the text of the badge is the level in upper case
    and its class is one of the four Bootstrap classes, 'bg-secondary' for
    every level other than 'critical', 'high' and 'medium' (the lookup is
    case sensitive) -- unless the level names a property that [classes]
    inherits from [Object.prototype], in which case the class attribute holds
    the text of that member. *)
Theorem getSeverityBadge_classes (level : JValue) :
  (AdminPage.getSeverityBadge level = Throw TypeError <-> forall s, level <> JStr s)
  /\ (forall s, level = JStr s ->
        exists b, AdminPage.getSeverityBadge level = Normal b
          /\ AdminPage.badge_text b = Upper s
          /\ (s ∈ AdminPage.object_prototype ->
              AdminPage.badge_class b = AdminPage.Member s)
          /\ (s ∉ AdminPage.object_prototype ->
              exists name, AdminPage.badge_class b = AdminPage.Class name
                           /\ name ∈ badge_classes)
          /\ (s ∉ AdminPage.object_prototype ->
              s ∉ ["critical"; "high"; "medium"] ->
              AdminPage.badge_class b = AdminPage.Class "bg-secondary")).
Proof.
  split.
  - destruct level; simpl; split; try reflexivity; try discriminate;
      try (intros H s'; discriminate).
    intros H. exfalso. exact (H s eq_refl).
  - intros s ->. simpl. eexists. split; [reflexivity|]. simpl.
    split; [reflexivity|]. unfold AdminPage.lookup_class.
    assert (Hown : forall name, AdminPage.classes !! s = Some name ->
              s ∈ ["critical"; "high"; "medium"; "low"] /\ name ∈ badge_classes
              /\ (s = "low" -> name = "bg-secondary")).
    { intros name Hl. unfold AdminPage.classes in Hl.
      repeat (apply lookup_insert_Some in Hl;
              destruct Hl as [[<- <-]|[? Hl]];
              [unfold badge_classes; split; [repeat constructor|];
               split; [repeat constructor|];
               intros Heq; try reflexivity; discriminate Heq|]).
      apply lookup_singleton_Some in Hl. destruct Hl as [<- <-].
      unfold badge_classes. split; [repeat constructor|].
      split; [repeat constructor|reflexivity]. }
    assert (Hproto : forall x, x ∈ ["critical"; "high"; "medium"; "low"] ->
              x ∉ AdminPage.object_prototype).
    { intros x Hx Hp. unfold AdminPage.object_prototype in Hp.
      repeat (apply elem_of_cons in Hx; destruct Hx as [->|Hx];
              [repeat (apply elem_of_cons in Hp; destruct Hp as [Hp|Hp];
                       [discriminate Hp|]); inversion Hp|]).
      inversion Hx. }
    destruct (AdminPage.classes !! s) as [name|] eqn:Hl.
    + destruct (Hown name eq_refl) as (Hs & Hname & Hlow).
      split; [|split].
      * intros Hp. exfalso. exact (Hproto s Hs Hp).
      * intros _. exists name. auto.
      * intros _ Hnot. f_equal. apply Hlow.
        repeat (apply elem_of_cons in Hs; destruct Hs as [->|Hs];
                [try reflexivity; exfalso; apply Hnot; repeat constructor|]).
        inversion Hs.
    + destruct (bool_decide_reflect (s ∈ AdminPage.object_prototype)) as [Hp|Hp].
      * split; [reflexivity|]. split; intros Hn; contradiction.
      * split; [contradiction|]. split; [|reflexivity].
        intros _. exists "bg-secondary". split; [reflexivity|].
        unfold badge_classes. repeat constructor.
Qed.

(** ** Commands are sent at once or dropped *)

Lemma sends_app type new tr : sends type (new ++ tr) = sends type new + sends type tr.
Proof. unfold sends. rewrite List.filter_app, length_app. reflexivity. Qed.

Lemma sends_silent type url new : Forall (silent url) new -> sends type new = 0.
Proof.
  unfold sends. induction 1 as [|e new He _ IH]; [reflexivity|].
  destruct e; simpl in *; try exact IH. contradiction.
Qed.

Lemma sends_sendMessage type payload w :
  sends type (trace (window (snd (sendMessage payload w))))
  <= sends type (trace (window w)) + Nat.b2n (is_command type payload).
Proof.
  rewrite sendMessage_spec.
  destruct (ws (this w)) as [sock|]; [|simpl; unfold sends; simpl; lia].
  destruct (isConnected (this w)); [|simpl; unfold sends; simpl; lia].
  destruct (sockets (window w) !! sock) as [[]|]; simpl; try lia.
  unfold sends. simpl. destruct (is_command type payload); simpl; lia.
Qed.

Lemma step_sends type e w w' :
  step e w = Some w' ->
  sends type (trace (window w'))
  <= sends type (trace (window w)) + occasions type [e].
Proof.
  intros Hstep. destruct (transmits e) eqn:Ht.
  - destruct e as [k|k data|k|k|id accepted|dt|b]; try discriminate Ht;
      simpl in Hstep.
    + destruct (sockets (window w) !! k) as [[]|]; try discriminate.
      injection Hstep as <-. rewrite onopen_spec. unfold requestStatusUpdate.
      match goal with
      | |- context [sendMessage ?m ?x] =>
          pose proof (sends_sendMessage type m x) as H
      end.
      rewrite shows_window in H.
      assert (Hc : is_command type (command "GET_STATUS")
                   = String.eqb "GET_STATUS" type) by reflexivity.
      rewrite Hc in H.
      assert (Hlog : forall x : World,
                sends type (trace (window (with_this
                   (fun o => set_reconnectAttempts 0 (set_isConnected true o))
                   (traced (ConsoleLog [Lit connected_line]) x))))
                = sends type (trace (window x))) by reflexivity.
      rewrite Hlog in H.
      assert (Hsock : sends type (trace (window (set_socket k Open w)))
                      = sends type (trace (window w))) by reflexivity.
      rewrite Hsock in H.
      assert (Hocc : occasions type [EvOpen k]
                     = Nat.b2n (String.eqb "GET_STATUS" type)).
      { unfold occasions. cbn [List.filter].
        destruct (String.eqb "GET_STATUS" type); reflexivity. }
      rewrite Hocc. exact H.
    + injection Hstep as <-.
      pose proof (sends_sendMessage type (command (button_command b)) w) as H.
      assert (Hc : is_command type (command (button_command b))
                   = String.eqb (button_command b) type) by reflexivity.
      rewrite Hc in H.
      assert (Hclick : click b w = sendMessage (command (button_command b)) w)
        by (destruct b; reflexivity).
      assert (Hocc : occasions type [EvClick b]
                     = Nat.b2n (String.eqb (button_command b) type)).
      { unfold occasions. cbn [List.filter].
        destruct (String.eqb (button_command b) type); reflexivity. }
      rewrite Hclick, Hocc. exact H.
  - destruct (step_emits e w w' Hstep) as (_ & new & Hnew & Hall).
    rewrite Ht in Hall. rewrite Hnew, sends_app, (sends_silent _ _ _ Hall). lia.
Qed.

Lemma occasions_cons type e es :
  occasions type (e :: es) = occasions type [e] + occasions type es.
Proof.
  unfold occasions. cbn [List.filter].
  destruct (match e with
            | EvClick b => String.eqb (button_command b) type
            | EvOpen _ => String.eqb "GET_STATUS" type
            | _ => false
            end); reflexivity.
Qed.

Lemma run_sends type es : forall w w',
  run es w = Some w' ->
  sends type (trace (window w')) <= sends type (trace (window w)) + occasions type es.
Proof.
  induction es as [|e es IH]; simpl; intros w w' Hrun.
  - injection Hrun as <-. unfold occasions. simpl. lia.
  - destruct (step e w) as [w1|] eqn:Hstep; [|discriminate].
    pose proof (step_sends type e w w1 Hstep). pose proof (IH _ _ Hrun).
    rewrite occasions_cons. lia.
Qed.

Lemma constructor_silent page protocol host t0 accepted :
  Forall (silent (dashboard_url protocol host))
    (trace (window (constructor page protocol host t0 accepted))).
Proof.
  unfold constructor.
  match goal with
  | |- context [snd (?m ?x)] =>
      assert (Hm : emits silent m);
      [|destruct (Hm x) as (Hu & new & Ht & Hall)]
  end.
  { unfold initializeDashboard.
    apply emits_bind; [apply emits_updateStatus|intros _].
    apply emits_connectWebSocket; allowed_facts. }
  rewrite Ht. simpl. rewrite app_nil_r. exact Hall.
Qed.

(** X20: a command is sent at once or not at all.  Whatever the browser
    delivers after the constructor, each command has been transmitted at most
    once per click on its button (GET_STATUS also once per socket that
    opened): nothing is queued while the connection is down and nothing is
    sent again when it comes back.  A click while the dashboard is connected
    sends the command of the button on the current socket and does nothing
    else; a click while it is not connected only writes 'WebSocket not
    connected' to the console. *)
Theorem commands_are_sent_once_or_dropped
    (page : Dom) (protocol host : string) (t0 : N) (accepted : bool)
    (es : list Event) (w : World) :
  run es (constructor page protocol host t0 accepted) = Some w ->
  (forall type, sends type (trace (window w)) <= occasions type es)
  /\ (forall b, isConnected (this w) = true ->
        exists sock, ws (this w) = Some sock
          /\ step (EvClick b) w
             = Some (traced (WsSend sock (command (button_command b))) w))
  /\ (forall b, isConnected (this w) = false ->
        step (EvClick b) w = Some (traced (ConsoleError not_connected) w)).
Proof.
  intros Hrun. split; [|split].
  - intros type. pose proof (run_sends type es _ _ Hrun) as H.
    assert (H0 : sends type (trace (window (constructor page protocol host t0 accepted)))
                 = 0).
    { exact (sends_silent _ _ _ (constructor_silent page protocol host t0 accepted)). }
    lia.
  - intros b Hc.
    pose proof (run_conn_inv es _ _ Hrun
                  (conn_inv_constructor page protocol host t0 accepted)) as Hinv.
    destruct (inv_connected _ Hinv Hc) as (sock & Hws & Hopen).
    exists sock. split; [exact Hws|]. simpl. f_equal.
    assert (Hclick : click b w = sendMessage (command (button_command b)) w)
      by (destruct b; reflexivity).
    rewrite Hclick, sendMessage_spec, Hws, Hc, Hopen. reflexivity.
  - intros b Hc. simpl. f_equal.
    assert (Hclick : click b w = sendMessage (command (button_command b)) w)
      by (destruct b; reflexivity).
    rewrite Hclick, sendMessage_spec, Hc. destruct (ws (this w)); reflexivity.
Qed.

(** ** The further theorems at work on sample inputs *)

Lemma reachable_connected_world : reachable connected_world.
Proof. apply (reachable_world_after [EvOpen 0]). vm_compute. eexists. reflexivity. Qed.





Lemma messages_never_disturb_the_connection_witness :
  step (EvMessage 0 (Some threat_message)) connected_world = Some alerted_world
  /\ this alerted_world = this connected_world
  /\ sockets (window alerted_world) = sockets (window connected_world).
Proof.
  assert (H : step (EvMessage 0 (Some threat_message)) connected_world
              = Some alerted_world) by (vm_compute; reflexivity).
  split; [exact H|].
  destruct (messages_never_disturb_the_connection 0 (Some threat_message)
              connected_world alerted_world H) as (Hthis & Hsock & _).
  split; assumption.
Defined.

Lemma status_panel_tracks_connection_witness :
  reachable connected_world
  /\ agent_status (document connected_world) = Some (status_html "connected" true)
  /\ exists status,
       status_html "connected" true
       = status_html status (isConnected (this connected_world)).
Proof.
  split; [exact reachable_connected_world|]. split; [reflexivity|].
  destruct (status_panel_tracks_connection connected_world
              (status_html "connected" true) reachable_connected_world eq_refl)
    as (status & Hs & _).
  exists status. exact Hs.
Defined.

Lemma one_connection_or_exhausted_witness :
  reachable (world_after (failed_attempts 6))
  /\ n_live (world_after (failed_attempts 6))
     + n_reconnect (world_after (failed_attempts 6)) = 0
  /\ reconnectAttempts (this (world_after (failed_attempts 6))) = 5.
Proof.
  assert (H : reachable (world_after (failed_attempts 6))).
  { apply reachable_world_after. vm_compute. eexists. reflexivity. }
  assert (H0 : n_live (world_after (failed_attempts 6))
               + n_reconnect (world_after (failed_attempts 6)) = 0)
    by (vm_compute; reflexivity).
  split; [exact H|]. split; [exact H0|].
  destruct (one_connection_or_exhausted _ H) as (_ & _ & _ & Hspent).
  exact (proj1 (Hspent H0)).
Defined.

Lemma only_commands_are_sent_witness :
  let w := world_after [EvOpen 0; EvClick BtnStart] in
  run [EvOpen 0; EvClick BtnStart] (constructor blank_page "http:" "localhost:8000" 0 true)
  = Some w
  /\ trace (window w)
     = [WsSend 0 (command "START_MONITORING"); WsSend 0 (command "GET_STATUS");
        ConsoleLog [Lit connected_line];
        NewWebSocket "ws://localhost:8000/ws/dashboard" 0]
  /\ exists type, type ∈ command_types /\ command "START_MONITORING" = command type.
Proof.
  cbv zeta.
  assert (H : run [EvOpen 0; EvClick BtnStart]
                (constructor blank_page "http:" "localhost:8000" 0 true)
              = Some (world_after [EvOpen 0; EvClick BtnStart]))
    by (vm_compute; reflexivity).
  assert (Htr : trace (window (world_after [EvOpen 0; EvClick BtnStart]))
                = [WsSend 0 (command "START_MONITORING");
                   WsSend 0 (command "GET_STATUS");
                   ConsoleLog [Lit connected_line];
                   NewWebSocket "ws://localhost:8000/ws/dashboard" 0])
    by (vm_compute; reflexivity).
  split; [exact H|]. split; [exact Htr|].
  apply (proj1 (only_commands_are_sent _ _ _ _ _ _ _ H) 0).
  rewrite Htr. constructor.
Defined.

Lemma inbound_never_transmits_witness :
  step (EvMessage 0 (Some threat_message)) connected_world = Some alerted_world
  /\ transmits (EvMessage 0 (Some threat_message)) = false
  /\ exists new, trace (window alerted_world) = new ++ trace (window connected_world).
Proof.
  assert (H : step (EvMessage 0 (Some threat_message)) connected_world
              = Some alerted_world) by (vm_compute; reflexivity).
  split; [exact H|]. split; [reflexivity|].
  destruct (inbound_never_transmits _ _ _ H eq_refl) as (new & Hnew & _).
  exists new. exact Hnew.
Defined.

Lemma configureAgent_needs_both_directories_witness :
  requests (AgentApi.run AgentApi.configureAgent [Some "/data"; Some "/backup"]
              (AgentApi.Resolved true))
  = [configure_request "/data" "/backup"]
  /\ length (AgentApi.run AgentApi.configureAgent [None; Some "/backup"]
               (AgentApi.Resolved true)) = 2.
Proof.
  destruct (configureAgent_needs_both_directories (Some "/data") (Some "/backup")
              (AgentApi.Resolved true)) as (_ & _ & Hboth & _).
  destruct (configureAgent_needs_both_directories None (Some "/backup")
              (AgentApi.Resolved true)) as (_ & Hnone & _).
  split.
  - refine (proj1 (Hboth "/data" "/backup" eq_refl eq_refl _ _)); discriminate.
  - apply Hnone. reflexivity.
Defined.

Lemma rest_helpers_alert_once_witness :
  (AgentApi.startMonitoring, "Monitoring started!") ∈ rest_helpers
  /\ length (alerts (AgentApi.run AgentApi.startMonitoring [] AgentApi.Rejected)) = 1.
Proof.
  assert (H : (AgentApi.startMonitoring, "Monitoring started!") ∈ rest_helpers)
    by (unfold rest_helpers; repeat constructor).
  split; [exact H|].
  destruct (rest_helpers_alert_once _ _ [] AgentApi.Rejected H) as (_ & -> & _).
  reflexivity.
Defined.


Lemma agent_chart_counts_witness :
  Forall readable sample_agents
  /\ AdminPage.filter_count "online" (JArr sample_agents) = Normal 1
  /\ length (List.filter charted sample_agents) = 2.
Proof.
  assert (H : Forall readable sample_agents)
    by (repeat (constructor; [split; discriminate|]); constructor).
  split; [exact H|].
  destruct (agent_chart_counts sample_agents) as (Hcount & _ & Hsum & _).
  split; [exact (Hcount H "online")|]. rewrite <- Hsum. reflexivity.
Defined.

Lemma updateAgents_never_throws_witness :
  get_prop "agents" agents_response = Normal (JArr sample_agents)
  /\ AdminPage.charts_agent
       (snd (AdminPage.updateAgents (AdminPage.Body agents_response) admin_page))
     = Some [1; 0; 1].
Proof.
  split; [reflexivity|].
  destruct (updateAgents_never_throws (AdminPage.Body agents_response) admin_page)
    as (_ & _ & Hchart & _).
  refine (proj1 (Hchart [8; 2; 1] agents_response sample_agents
                   eq_refl eq_refl eq_refl _)).
  repeat (constructor; [split; discriminate|]). constructor.
Defined.

Lemma initialize_polls_even_without_chart_witness :
  let r := admin_initialize (DashboardUpdater.constructor 1 0)
             admin_page_without_canvas in
  AdminPage.agentChart admin_page_without_canvas = false
  /\ fst (fst r) = Throw TypeError
  /\ DashboardUpdater.statsInterval (snd (fst r)) = Some 1.
Proof.
  cbv zeta.
  pose proof (initialize_polls_even_without_chart (DashboardUpdater.constructor 1 0)
                admin_page_without_canvas) as H.
  cbv zeta in H. destruct H as (_ & Hid & _ & _ & Hthrow & _).
  split; [reflexivity|]. split; [exact (proj1 (Hthrow eq_refl))|exact Hid].
Defined.

Lemma admin_polls_every_five_seconds_witness :
  let es := [DashboardUpdater.EvTick 5000; DashboardUpdater.EvTimer 1] in
  is_Some (updater_run es (updater_start 1 0))
  /\ fetches "/admin/api/stats"
       (DashboardUpdater.trace (default (updater_start 1 0)
                                  (updater_run es (updater_start 1 0)))) = 2.
Proof.
  cbv zeta.
  assert (H : updater_run [DashboardUpdater.EvTick 5000; DashboardUpdater.EvTimer 1]
                (updater_start 1 0)
              = Some (default (updater_start 1 0)
                        (updater_run [DashboardUpdater.EvTick 5000;
                                      DashboardUpdater.EvTimer 1]
                           (updater_start 1 0))))
    by (vm_compute; reflexivity).
  split; [rewrite H; eexists; reflexivity|].
  pose proof (admin_polls_every_five_seconds 1 0 _ _ H) as Hp.
  cbv zeta in Hp. destruct Hp as (-> & _). reflexivity.
Defined.

Lemma stop_ends_polling_witness :
  let w1 := default (updater_start 1 0)
              (updater_run [DashboardUpdater.EvTick 5000; DashboardUpdater.EvTimer 1]
                 (updater_start 1 0)) in
  let w2 := default w1
              (updater_run [DashboardUpdater.EvTick 60000] (DashboardUpdater.stop w1)) in
  updater_run [DashboardUpdater.EvTick 5000; DashboardUpdater.EvTimer 1]
    (updater_start 1 0) = Some w1
  /\ updater_run [DashboardUpdater.EvTick 60000] (DashboardUpdater.stop w1) = Some w2
  /\ DashboardUpdater.timers w2 = [].
Proof.
  cbv zeta.
  set (w1 := default (updater_start 1 0)
               (updater_run [DashboardUpdater.EvTick 5000; DashboardUpdater.EvTimer 1]
                  (updater_start 1 0))).
  set (w2 := default w1
               (updater_run [DashboardUpdater.EvTick 60000] (DashboardUpdater.stop w1))).
  assert (H1 : updater_run [DashboardUpdater.EvTick 5000; DashboardUpdater.EvTimer 1]
                 (updater_start 1 0) = Some w1) by (vm_compute; reflexivity).
  assert (H2 : updater_run [DashboardUpdater.EvTick 60000] (DashboardUpdater.stop w1)
               = Some w2) by (vm_compute; reflexivity).
  split; [exact H1|]. split; [exact H2|].
  exact (proj1 (stop_ends_polling 1 0 _ _ w1 w2 (fun H : 1 = 0 => O_S 0 (eq_sym H))
                  H1 H2)).
Defined.

Lemma getSeverityBadge_classes_witness :
  exists b, AdminPage.getSeverityBadge (JStr "Critical") = Normal b
    /\ AdminPage.badge_class b = AdminPage.Class "bg-secondary".
Proof.
  destruct (proj2 (getSeverityBadge_classes (JStr "Critical")) "Critical" eq_refl)
    as (b & Hb & _ & _ & _ & Hdefault).
  exists b. split; [exact Hb|].
  apply Hdefault; apply (bool_decide_unpack _); vm_compute; exact I.
Defined.

Lemma console_polls_every_ten_seconds_witness :
  let es := [Console.EvTick 10000; Console.EvTimer 1] in
  let w := default console_start (Console.run es console_start) in
  Console.run es (Console.startRealTimeUpdates (console_page "dashboard" 0)) = Some w
  /\ updates (Console.trace w) = 1
  /\ (10000 <= Console.now w)%N.
Proof.
  cbv zeta.
  set (w := default console_start
              (Console.run [Console.EvTick 10000; Console.EvTimer 1] console_start)).
  assert (H : Console.run [Console.EvTick 10000; Console.EvTimer 1]
                (Console.startRealTimeUpdates (console_page "dashboard" 0)) = Some w)
    by (vm_compute; reflexivity).
  assert (Hu : updates (Console.trace w) = 1) by (vm_compute; reflexivity).
  split; [exact H|]. split; [exact Hu|].
  pose proof (proj1 (console_polls_every_ten_seconds _ _ _ _ H)) as Hrate.
  rewrite Hu in Hrate. exact Hrate.
Defined.

Lemma commands_are_sent_once_or_dropped_witness :
  let es := [EvClick BtnStart; EvOpen 0; EvClick BtnStart] in
  run es (constructor blank_page "http:" "localhost:8000" 0 true) = Some (world_after es)
  /\ occasions "START_MONITORING" es = 2
  /\ sends "START_MONITORING" (trace (window (world_after es)))
     <= occasions "START_MONITORING" es.
Proof.
  cbv zeta.
  assert (H : run [EvClick BtnStart; EvOpen 0; EvClick BtnStart]
                (constructor blank_page "http:" "localhost:8000" 0 true)
              = Some (world_after [EvClick BtnStart; EvOpen 0; EvClick BtnStart]))
    by (vm_compute; reflexivity).
  split; [exact H|]. split; [reflexivity|].
  exact (proj1 (commands_are_sent_once_or_dropped _ _ _ _ _ _ _ H) "START_MONITORING").
Defined.
